(** * A shallow embedding of [server.py], the multi-room chat relay

    The server keeps four process-wide dictionaries ([clients],
    [user_rooms], [rooms], [history_cache]) and one directory of
    line-delimited history files.  Every connection is served by one
    coroutine, [ws_endpoint].  Under the cooperative scheduler a coroutine
    is only suspended at an [await]; every block of [server.py] that
    mutates the dictionaries is free of [await], so the embedding runs one
    turn of one connection (one inbound frame, or the loss of the
    connection) as one step of a deterministic transition function.  What
    a turn sends is returned as a list of effects next to the new state.

    Conventions of the embedding
    - a Python [str] is a [string]; a character is a code point below 256
      and the predicates of [str] are the ones Python has on that range.
      A [str] that [json.loads] builds can also hold a lone surrogate, which
      has no UTF-8 encoding: whether a text encodes is asked of the library
      interface ([utf8_ok]), as [f.write] does on a file opened with
      [encoding="utf-8"];
    - [DATA_DIR] is a directory the process can search and write to, and
      its files are the server's own, which it can append to (the module
      creates the directory at import time and the files as it goes).  The
      file system refuses a file name of more than [NAME_MAX] bytes:
      [p.exists()] and [p.open()] then raise [OSError].  A file may fail to
      be read back, for instance when its bytes are not UTF-8;
    - a [dict] used as a map is a [gmap], a [set] is a [gset]; the order in
      which Python walks a [dict] is not represented, the effects of a
      broadcast are listed in the canonical order of the map;
    - an exception is the [Raise] outcome of a computation;
    - [json.loads], [json.dumps], [str()] and the UTF-8 encoder are
      library code: they are an interface ([PyLib]) the development is
      parametric in;
    - JSON numbers are integers (the handler only ever looks at whether a
      number is zero). *)

From Stdlib Require Import String Ascii ZArith List Lia.
From stdpp Require Import base option list gmap strings sorting fin_maps fin_sets pretty.

Local Open Scope string_scope.
Local Open Scope list_scope.

(** ** Python's [str] *)

Module Py.

Definition ord (c : ascii) : nat := nat_of_ascii c.

Definition between (lo hi n : nat) : bool := (lo <=? n)%nat && (n <=? hi)%nat.

(** [ch.isspace()] *)
Definition isspace (c : ascii) : bool :=
  let n := ord c in
  between 9 13 n || between 28 32 n || (n =? 133)%nat || (n =? 160)%nat.

(** [ch.isalnum()] *)
Definition isalnum (c : ascii) : bool :=
  let n := ord c in
  between 48 57 n || between 65 90 n || between 97 122 n
  || (n =? 170)%nat || between 178 179 n || (n =? 181)%nat
  || between 185 186 n || between 188 190 n
  || between 192 214 n || between 216 246 n || between 248 255 n.

Definition is_empty (s : string) : bool :=
  match s with EmptyString => true | String _ _ => false end.

(** [len(os.fsencode(s))]: in UTF-8 a code point below 128 is one byte,
    the others of the range are two. *)
Fixpoint utf8_length (s : string) : nat :=
  match s with
  | EmptyString => 0
  | String c s' => (if (ord c <? 128)%nat then 1 else 2) + utf8_length s'
  end.

(** The longest file name the file system takes, in bytes. *)
Definition NAME_MAX : nat := 255.

(** Whether [stat] and [open] take the file name; they fail with
    [ENAMETOOLONG] otherwise. *)
Definition name_fits (name : string) : bool := (utf8_length name <=? NAME_MAX)%nat.

Fixpoint lstrip (s : string) : string :=
  match s with
  | EmptyString => EmptyString
  | String c s' => if isspace c then lstrip s' else s
  end.

Fixpoint rstrip (s : string) : string :=
  match s with
  | EmptyString => EmptyString
  | String c s' =>
      let r := rstrip s' in
      if isspace c && is_empty r then EmptyString else String c r
  end.

(** [s.strip()] *)
Definition strip (s : string) : string := rstrip (lstrip s).

(** ["".join(ch for ch in s if keep(ch))] *)
Fixpoint join_if (keep : ascii -> bool) (s : string) : string :=
  match s with
  | EmptyString => EmptyString
  | String c s' => if keep c then String c (join_if keep s') else join_if keep s'
  end.

Fixpoint drop (n : nat) (s : string) : string :=
  match n, s with
  | S k, String _ s' => drop k s'
  | _, _ => s
  end.

Fixpoint take (n : nat) (s : string) : string :=
  match n, s with
  | S k, String c s' => String c (take k s')
  | _, _ => EmptyString
  end.

(** [s.startswith(p)] *)
Definition startswith (p s : string) : bool := String.prefix p s.

(** [s.endswith(p)] *)
Definition endswith (p s : string) : bool :=
  (String.length p <=? String.length s)%nat
  && String.eqb (drop (String.length s - String.length p) s) p.

(** [s.replace(old, "")] for a non-empty [old]: every occurrence of
    [old], found from the left and never overlapping, is removed.
    [skip] counts the characters of a found occurrence still to drop. *)
Fixpoint remove_go (old : string) (skip : nat) (s : string) : string :=
  match s with
  | EmptyString => EmptyString
  | String c s' =>
      match skip with
      | S k => remove_go old k s'
      | O =>
          if startswith old s
          then remove_go old (String.length old - 1) s'
          else String c (remove_go old 0 s')
      end
  end.

Definition remove_all (old s : string) : string := remove_go old 0 s.

(** [s.rfind(c)] *)
Fixpoint rfind (c : ascii) (s : string) : option nat :=
  match s with
  | EmptyString => None
  | String d s' =>
      match rfind c s' with
      | Some i => Some (S i)
      | None => if Ascii.eqb d c then Some 0 else None
      end
  end.

(** [PurePath(name).stem]: the name without its last suffix. *)
Definition stem (name : string) : string :=
  match rfind "." name with
  | Some i =>
      if (0 <? i)%nat && (i <? String.length name - 1)%nat
      then take i name else name
  | None => name
  end.

(** [f.readlines()] of a file opened in text mode: a line ends at
    ["\n"], at ["\r\n"] or at a lone ["\r"], each read as ["\n"]; the last
    line may lack its terminator.  [cr] tells that the previous
    character was a ["\r"]; [cur] is the line read so far. *)
Fixpoint readlines_go (cr : bool) (cur : string) (s : string) : list string :=
  match s with
  | EmptyString => if is_empty cur then [] else [cur]
  | String c s' =>
      if Ascii.eqb c "010" then
        if cr then readlines_go false cur s'
        else (cur +:+ String "010" EmptyString) :: readlines_go false EmptyString s'
      else if Ascii.eqb c "013" then
        (cur +:+ String "010" EmptyString) :: readlines_go true EmptyString s'
      else readlines_go false (cur +:+ String c EmptyString) s'
  end.

Definition readlines (s : string) : list string := readlines_go false EmptyString s.

(** [l[-n:]]: the last [n] items for a positive [n]; [l[-0:]] is the
    whole list, and for a negative [n] the slice starts at index [-n]. *)
Definition last_items {A} (n : Z) (l : list A) : list A :=
  match n with
  | Z0 => l
  | Zpos p => List.skipn (List.length l - Pos.to_nat p) l
  | Zneg p => List.skipn (Pos.to_nat p) l
  end.

(** [sorted(l)] on strings: code point order. *)
Definition str_le (a b : string) : Prop := String.leb a b = true.

#[global] Instance str_le_dec a b : Decision (str_le a b).
Proof. unfold str_le. apply _. Defined.

Definition sorted (l : list string) : list string := merge_sort str_le l.

Definition chr (n : nat) : string := String (ascii_of_nat n) EmptyString.

(** ["\n"] *)
Definition nl : string := String "010" EmptyString.

End Py.

(** ** JSON values and the library interface *)

#[warnings="-register-all"]
Inductive json : Type :=
| JNull
| JBool (b : bool)
| JInt (z : Z)
| JStr (s : string)
| JArr (items : list json)
| JObj (fields : list (string * json)).

(** Truth value of a decoded value, as [or] and [if] see it. *)
Definition truthy (v : json) : bool :=
  match v with
  | JNull => false
  | JBool b => b
  | JInt z => negb (z =? 0)%Z
  | JStr s => negb (Py.is_empty s)
  | JArr l => match l with [] => false | _ => true end
  | JObj l => match l with [] => false | _ => true end
  end.

(** [v == s] for a string literal [s]. *)
Definition is_str (v : json) (s : string) : bool :=
  match v with JStr t => String.eqb t s | _ => false end.

Fixpoint assoc (k : string) (kv : list (string * json)) : option json :=
  match kv with
  | [] => None
  | (k', v) :: rest => if String.eqb k' k then Some v else assoc k rest
  end.

Class PyLib := {
  (** [json.loads]; [None] stands for [JSONDecodeError] *)
  json_loads : string -> option json;
  (** [json.dumps(obj, ensure_ascii=False)] *)
  json_dumps : json -> string;
  (** [str(x)], as an f-string formats [x] *)
  py_str : json -> string;
  (** whether [text.encode("utf-8")] succeeds: it raises
      [UnicodeEncodeError] on a text that holds a lone surrogate *)
  utf8_ok : string -> bool
}.

(** ** The process-wide state *)

Abbreviation WebSocket := nat.

(** A file of [DATA_DIR]: its text, and whether opening it and reading
    its lines succeeds. *)
Record file := File { readable : bool; content : string }.

Record state := State {
  clients : gmap string WebSocket;          (* username -> websocket *)
  user_rooms : gmap string string;          (* username -> room *)
  rooms : gmap string (gset string);        (* room -> set(usernames) *)
  history_cache : gmap string (list json);  (* room -> last messages *)
  data_dir : gmap string file               (* file name -> file *)
}.

Definition MAX_HISTORY : Z := 50.

Definition set_clients (f : gmap string WebSocket -> gmap string WebSocket) (s : state) : state :=
  State (f (clients s)) (user_rooms s) (rooms s) (history_cache s) (data_dir s).
Definition set_user_rooms (f : gmap string string -> gmap string string) (s : state) : state :=
  State (clients s) (f (user_rooms s)) (rooms s) (history_cache s) (data_dir s).
Definition set_rooms (f : gmap string (gset string) -> gmap string (gset string)) (s : state) : state :=
  State (clients s) (user_rooms s) (f (rooms s)) (history_cache s) (data_dir s).
Definition set_history_cache (f : gmap string (list json) -> gmap string (list json)) (s : state) : state :=
  State (clients s) (user_rooms s) (rooms s) (f (history_cache s)) (data_dir s).
Definition set_data_dir (f : gmap string file -> gmap string file) (s : state) : state :=
  State (clients s) (user_rooms s) (rooms s) (history_cache s) (f (data_dir s)).

(** The state at import time: [rooms = {"general": set()}], the other
    dictionaries empty, and whatever [DATA_DIR] holds. *)
Definition initial (fs : gmap string file) : state :=
  State ∅ ∅ {["general" := ∅]} ∅ fs.

(** ** Computations: state, effects on the sockets, exceptions *)

Inductive exn :=
| WebSocketDisconnect
| JSONDecodeError
| AttributeError
| KeyError
| OSError
| UnicodeEncodeError
| SendError.

Inductive outcome (A : Type) :=
| Return (a : A)
| Raise (e : exn).
Arguments Return {A} a.
Arguments Raise {A} e.

(** What a computation does to the sockets: the text handed to
    [ws.send_text], with whether the transport took it, and [ws.close()]. *)
Inductive effect :=
| SendText (ws : WebSocket) (text : string) (ok : bool)
| CloseWs (ws : WebSocket).

(** A computation reads [net] (the sockets that currently accept a
    frame), transforms the state and emits effects. *)
Definition M (A : Type) : Type :=
  (WebSocket -> bool) -> state -> outcome A * state * list effect.

Definition ret {A} (a : A) : M A := fun _ s => (Return a, s, []).

Definition raise {A} (e : exn) : M A := fun _ s => (Raise e, s, []).

Definition bind {A B} (m : M A) (k : A -> M B) : M B :=
  fun net s =>
    match m net s with
    | (Return a, s1, out1) =>
        let '(r, s2, out2) := k a net s1 in (r, s2, out1 ++ out2)
    | (Raise e, s1, out1) => (Raise e, s1, out1)
    end.

(** [try: m  except Exception: <the caller decides>] *)
Definition try {A} (m : M A) : M (outcome A) :=
  fun net s => let '(r, s1, out1) := m net s in (Return r, s1, out1).

Definition get_state : M state := fun _ s => (Return s, s, []).

Definition modify (f : state -> state) : M unit := fun _ s => (Return tt, f s, []).

Definition lift {A} (o : outcome A) : M A := fun _ s => (o, s, []).

Notation "'let*' x ':=' m 'in' k" := (bind m (fun x => k))
  (at level 10, x name, m at level 100, k at level 200, only parsing).
Notation "'run' m 'then' k" := (bind m (fun _ => k))
  (at level 10, m at level 100, k at level 200, only parsing).

(** [for x in l: body(x)] *)
Fixpoint for_each {A} (l : list A) (body : A -> M unit) : M unit :=
  match l with
  | [] => ret tt
  | x :: rest => run body x then for_each rest body
  end.

Definition result_of {A} (x : outcome A * state * list effect) : outcome A := x.1.1.
Definition state_of {A} (x : outcome A * state * list effect) : state := x.1.2.
Definition effects_of {A} (x : outcome A * state * list effect) : list effect := x.2.

(** ** The functions of [server.py] *)

Section Server.

Context {lib : PyLib}.

(** *** History files *)

(** The [safe] of [room_log_path]: the characters of [room] that are
    alphanumeric, ["-"] or ["_"], or ["general"] when none is left. *)
Definition safe_name (room : string) : string :=
  let kept :=
    Py.strip (Py.join_if
      (fun ch => Py.isalnum ch || Ascii.eqb ch "-" || Ascii.eqb ch "_") room) in
  if Py.is_empty kept then "general" else kept.

(** [room_log_path(room)], as a file name inside [DATA_DIR]. *)
Definition room_log_path (room : string) : string :=
  "history_" +:+ safe_name room +:+ ".jsonl".

(** [with p.open("r") as f: f.readlines()] *)
Definition open_readlines (p : string) : M (list string) :=
  let* s := get_state in
  match data_dir s !! p with
  | Some f => if readable f then ret (Py.readlines (content f)) else raise OSError
  | None => raise OSError
  end.

(** The [for ln in lines] loop of [load_history]. *)
Fixpoint decode_lines (lines : list string) (out : list json) : M (list json) :=
  match lines with
  | [] => ret out
  | ln :: rest =>
      let ln := Py.strip ln in
      if Py.is_empty ln then decode_lines rest out
      else
        match json_loads ln with
        | Some v => decode_lines rest (out ++ [v])
        | None => raise JSONDecodeError
        end
  end.

(** [p.exists()]: [False] when [stat] finds no such file; [pathlib]
    lets the other errors of [stat] through, so a name the file system
    does not take raises [OSError]. *)
Definition path_exists (p : string) : M bool :=
  if Py.name_fits p then
    let* s := get_state in
    ret (bool_decide (is_Some (data_dir s !! p)))
  else raise OSError.

(** The call of [p.exists()] is made before the [try] is entered. *)
Definition load_history (room : string) (max_items : Z) : M (list json) :=
  let p := room_log_path room in
  let* found := path_exists p in
  if negb found then ret []
  else
    let* r := try (let* lines := open_readlines p in
                   decode_lines (Py.last_items max_items lines) []) in
    match r with
    | Return out => ret out
    | Raise _ => ret []
    end.

Definition ensure_room (room : string) : M unit :=
  let* s := get_state in
  run (match rooms s !! room with
       | None => modify (set_rooms <[room := ∅]>)
       | Some _ => ret tt
       end) then
  let* s := get_state in
  match history_cache s !! room with
  | None =>
      let* h := load_history room MAX_HISTORY in
      modify (set_history_cache <[room := h]>)
  | Some _ => ret tt
  end.

(** [with p.open("a") as f: f.write(text)].  [open] raises [OSError]
    for a name the file system does not take, and creates the file when
    there is none; [write] encodes the whole text before it hands anything
    to the file, so a text that does not encode raises
    [UnicodeEncodeError] with the file opened and nothing written. *)
Definition open_append (p text : string) : M unit :=
  if Py.name_fits p then
    if utf8_ok text then
      modify (set_data_dir (fun fs =>
        match fs !! p with
        | Some f => <[p := File (readable f) (content f +:+ text)]> fs
        | None => <[p := File true text]> fs
        end))
    else
      run modify (set_data_dir (fun fs =>
            match fs !! p with
            | Some _ => fs
            | None => <[p := File true ""]> fs
            end)) then
      raise UnicodeEncodeError
  else raise OSError.

Definition append_history (room : string) (payload : json) : M unit :=
  let p := room_log_path room in
  run open_append p (json_dumps payload +:+ Py.nl) then
  let* s := get_state in
  match history_cache s !! room with
  | None => raise KeyError
  | Some h =>
      run modify (set_history_cache <[room := h ++ [payload]]>) then
      let* s := get_state in
      match history_cache s !! room with
      | None => raise KeyError
      | Some h =>
          if (MAX_HISTORY <? Z.of_nat (length h))%Z
          then modify (set_history_cache <[room := tail h]>)
          else ret tt
      end
  end.

(** *** Sending and listing *)

Definition send_json (ws : WebSocket) (obj : json) : M unit :=
  fun net s =>
    if net ws
    then (Return tt, s, [SendText ws (json_dumps obj) true])
    else (Raise SendError, s, [SendText ws (json_dumps obj) false]).

Definition ws_close (ws : WebSocket) : M unit :=
  fun _ s => (Return tt, s, [CloseWs ws]).

Definition online_users (s : state) : list string :=
  Py.sorted (elements (dom (clients s))).

(** [DATA_DIR.glob("history_*.jsonl")], on file names. *)
Definition glob_history (name : string) : bool :=
  Py.startswith "history_" name && Py.endswith ".jsonl" name
  && (14 <=? String.length name)%nat.

(** The room names [list_rooms] reads off the history files. *)
Definition file_rooms (s : state) : gset string :=
  list_to_set
    (filter (fun name => name ≠ "")
       ((fun f => Py.remove_all "history_" (Py.stem f))
          <$> filter (fun f => glob_history f = true) (elements (dom (data_dir s))))).

Definition list_rooms (s : state) : list string :=
  let mem_rooms := dom (rooms s) in
  Py.sorted (elements (mem_rooms ∪ file_rooms s)).

Definition room_users (s : state) (room : string) : list string :=
  Py.sorted (elements (default ∅ (rooms s !! room))).

Definition opt_truthy (o : option string) : bool :=
  match o with Some x => negb (Py.is_empty x) | None => false end.

Definition broadcast (obj : json) (room exclude : option string) : M unit :=
  let* s0 := get_state in
  for_each (map_to_list (clients s0)) (fun item =>
    let u := item.1 in
    let ws := item.2 in
    if opt_truthy exclude && bool_decide (Some u = exclude) then ret tt
    else
      let* s := get_state in
      if opt_truthy room && negb (bool_decide (user_rooms s !! u = room)) then ret tt
      else
        let* r := try (send_json ws obj) in
        ret tt).

Definition send_history (ws : WebSocket) (room : string) : M unit :=
  run ensure_room room then
  let* s := get_state in
  match history_cache s !! room with
  | None => raise KeyError
  | Some h => for_each h (send_json ws)
  end.

Definition join_room (username new_room : string) : M (string * string) :=
  run ensure_room new_room then
  let* s := get_state in
  let old_room := default "general" (user_rooms s !! username) in
  run (if decide (old_room = new_room) then ret tt
       else
         run modify (set_rooms (fun r =>
               match r !! old_room with
               | Some m => <[old_room := m ∖ {[username]}]> r
               | None => <[old_room := ∅]> r
               end)) then
         let* s := get_state in
         run (match rooms s !! new_room with
              | None => raise KeyError
              | Some m => modify (set_rooms <[new_room := m ∪ {[username]}]>)
              end) then
         modify (set_user_rooms <[username := new_room]>)) then
  ret (old_room, new_room).

(** *** The events the handler builds *)

Definition str_list (l : list string) : json := JArr (JStr <$> l).

(** [GET /health]: the body of the reply. *)
Definition health (s : state) : json :=
  JObj [("ok", JBool true);
        ("users", JInt (Z.of_nat (size (clients s))));
        ("rooms", str_list (list_rooms s))].

Definition error_event (message : string) : json :=
  JObj [("type", JStr "error"); ("message", JStr message)].

Definition msg_login_first : string :=
  "Primero debes iniciar sesi" +:+ Py.chr 243 +:+ "n (type=login).".
Definition msg_empty_username : string :=
  "Username vac" +:+ Py.chr 237 +:+ "o.".
Definition msg_in_use : string :=
  "Ese username ya est" +:+ Py.chr 225 +:+ " en uso.".
Definition msg_no_room : string :=
  "Debes indicar una sala v" +:+ Py.chr 225 +:+ "lida.".
Definition msg_unsupported (mtype : json) : string :=
  "Tipo no soportado: " +:+ py_str mtype.
Definition msg_joined (new_room : string) : string :=
  "Te uniste a la sala '" +:+ new_room +:+ "'".

Definition login_ok_event (username : string) (users : list string) : json :=
  JObj [("type", JStr "login_ok"); ("username", JStr username);
        ("users", str_list users); ("room", JStr "general")].

(** The four presence events share their shape. *)
Definition presence_event (type username room : string) (members : list string) : json :=
  JObj [("type", JStr type); ("username", JStr username);
        ("room", JStr room); ("room_users", str_list members)].

Definition message_event (username text : string) (ts : Z) (room : string) : json :=
  JObj [("type", JStr "message"); ("from", JStr username);
        ("text", JStr text); ("ts", JInt ts); ("room", JStr room)].

Definition rooms_event (names : list string) : json :=
  JObj [("type", JStr "rooms"); ("rooms", str_list names)].

Definition room_users_event (room : string) (members : list string) : json :=
  JObj [("type", JStr "room_users"); ("room", JStr room);
        ("room_users", str_list members)].

Definition info_event (new_room : string) : json :=
  JObj [("type", JStr "info"); ("message", JStr (msg_joined new_room));
        ("room", JStr new_room)].

(** *** The connection handler, [ws_endpoint] *)

(** What [await ws.receive_text()] yields: a text frame, or
    [WebSocketDisconnect] when the client is gone. *)
Inductive inbound :=
| Text (raw : string)
| Gone.

Definition receive_text (i : inbound) : M string :=
  match i with
  | Text raw => ret raw
  | Gone => raise WebSocketDisconnect
  end.

(** [json.loads(raw)] *)
Definition loads (raw : string) : M json :=
  match json_loads raw with
  | Some v => ret v
  | None => raise JSONDecodeError
  end.

(** [msg.get(key)]: only a [dict] has [get]; a missing key reads as [None]. *)
Definition dict_get (msg : json) (key : string) : M json :=
  match msg with
  | JObj fields => ret (default JNull (assoc key fields))
  | _ => raise AttributeError
  end.

(** [(v or "").strip()]: only a [str] has [strip]. *)
Definition or_empty_strip (v : json) : M string :=
  match (if truthy v then v else JStr "") with
  | JStr t => ret (Py.strip t)
  | _ => raise AttributeError
  end.

(** The handshake, up to the point where [username] is assigned:
    [Some requested] when the login is accepted, [None] when the handler
    has answered with an error and returned. *)
Definition handshake (ws : WebSocket) (i : inbound) : M (option string) :=
  let* raw := receive_text i in
  let* msg := loads raw in
  let* ty := dict_get msg "type" in
  if negb (is_str ty "login") then
    run send_json ws (error_event msg_login_first) then
    run ws_close ws then
    ret None
  else
    let* field := dict_get msg "username" in
    let* requested := or_empty_strip field in
    if Py.is_empty requested then
      run send_json ws (error_event msg_empty_username) then
      run ws_close ws then
      ret None
    else
      let* s := get_state in
      match clients s !! requested with
      | Some _ =>
          run send_json ws (error_event msg_in_use) then
          run ws_close ws then
          ret None
      | None => ret (Some requested)
      end.

(** From [username = requested] to the [user_joined] broadcast. *)
Definition enter (ws : WebSocket) (username : string) : M unit :=
  run modify (set_clients <[username := ws]>) then
  run ensure_room "general" then
  let* s := get_state in
  run (match rooms s !! "general" with
       | None => raise KeyError
       | Some m => modify (set_rooms <["general" := m ∪ {[username]}]>)
       end) then
  run modify (set_user_rooms <[username := "general"]>) then
  let* s := get_state in
  run send_json ws (login_ok_event username (online_users s)) then
  run send_history ws "general" then
  let* s := get_state in
  broadcast (presence_event "user_joined" username "general" (room_users s "general"))
    (Some "general") (Some username).

(** One pass through the body of [while True], at clock reading [now]. *)
Definition loop_turn (ws : WebSocket) (username : string) (i : inbound) (now : Z) : M unit :=
  let* raw := receive_text i in
  let* msg := loads raw in
  let* mtype := dict_get msg "type" in
  let* s := get_state in
  let current_room := default "general" (user_rooms s !! username) in
  if is_str mtype "message" then
    let* field := dict_get msg "text" in
    let* text := or_empty_strip field in
    if Py.is_empty text then ret tt
    else
      let payload := message_event username text now current_room in
      run ensure_room current_room then
      run append_history current_room payload then
      broadcast payload (Some current_room) None
  else if is_str mtype "rooms" then
    let* s := get_state in
    send_json ws (rooms_event (list_rooms s))
  else if is_str mtype "room_who" then
    let* s := get_state in
    send_json ws (room_users_event current_room (room_users s current_room))
  else if is_str mtype "join_room" then
    let* field := dict_get msg "room" in
    let* new_room := or_empty_strip field in
    if Py.is_empty new_room then
      send_json ws (error_event msg_no_room)
    else
      let* moved := join_room username new_room in
      let old_room := moved.1 in
      let new_room := moved.2 in
      run send_json ws (info_event new_room) then
      run send_history ws new_room then
      let* s := get_state in
      run broadcast (presence_event "user_left_room" username old_room (room_users s old_room))
            (Some old_room) None then
      let* s := get_state in
      broadcast (presence_event "user_joined_room" username new_room (room_users s new_room))
        (Some new_room) (Some username)
  else
    send_json ws (error_event (msg_unsupported mtype)).

(** The [finally] block; [username] is the local variable, [None] until
    a login has been accepted. *)
Definition cleanup (username : option string) : M unit :=
  match username with
  | Some u =>
      if Py.is_empty u then ret tt
      else
        run modify (set_clients (delete u)) then
        let* s := get_state in
        let room := default "general" (user_rooms s !! u) in
        run modify (set_user_rooms (delete u)) then
        run modify (set_rooms (fun r =>
              match r !! room with
              | Some m => <[room := m ∖ {[u]}]> r
              | None => r
              end)) then
        let* s := get_state in
        let* r := try (broadcast (presence_event "user_left" u room (room_users s room))
                         (Some room) None) in
        ret tt
  | None => ret tt
  end.

(** Where a connection stands between two of its turns. *)
Inductive phase :=
| AwaitingLogin
| Active (username : string)
| Closed.

(** One turn of [ws_endpoint]: the connection in phase [ph] gets [i].
    Whatever the [try] body raises is swallowed by the two [except]
    clauses, and the [finally] block runs whenever the body is left. *)
Definition turn (ws : WebSocket) (ph : phase) (i : inbound) (now : Z) : M phase :=
  match ph with
  | AwaitingLogin =>
      let* r := try (handshake ws i) in
      match r with
      | Return (Some username) =>
          let* r := try (enter ws username) in
          match r with
          | Return _ => ret (Active username)
          | Raise _ => run cleanup (Some username) then ret Closed
          end
      | Return None => run cleanup None then ret Closed
      | Raise _ => run cleanup None then ret Closed
      end
  | Active username =>
      let* r := try (loop_turn ws username i now) in
      match r with
      | Return _ => ret (Active username)
      | Raise _ => run cleanup (Some username) then ret Closed
      end
  | Closed => ret Closed
  end.

(** *** The whole server: every connection and the shared state *)

Record system := System {
  shared : state;
  conns : gmap WebSocket phase
}.

(** One scheduling step: connection [a_ws] (a new one when it has no
    entry yet) takes one turn. *)
Record action := Action {
  a_ws : WebSocket;
  a_in : inbound;
  a_now : Z;
  a_net : WebSocket -> bool
}.

Definition phase_of (sys : system) (ws : WebSocket) : phase :=
  default AwaitingLogin (conns sys !! ws).

Definition step (sys : system) (a : action) : system * list effect :=
  let ws := a_ws a in
  let '(r, s', out) := turn ws (phase_of sys ws) (a_in a) (a_now a) (a_net a) (shared sys) in
  let ph' := match r with Return ph' => ph' | Raise _ => Closed end in
  (System s' (<[ws := ph']> (conns sys)), out).

Definition boot (fs : gmap string file) : system := System (initial fs) ∅.

(** The system after a schedule. *)
Definition exec (fs : gmap string file) (sched : list action) : system :=
  foldl (fun sys a => (step sys a).1) (boot fs) sched.

End Server.

(** ** A codec for the examples

    The theorems below hold for every [PyLib].  The closed examples need
    one: [Codec] reads and writes the JSON texts whose numbers are
    integers and whose strings use the two-character escapes only (no
    escape by code point); on those texts it is [json.loads] and
    [json.dumps] with the default separators, and it rejects every other
    text. *)

Module Codec.

Definition is_ws (c : ascii) : bool :=
  Ascii.eqb c " " || Ascii.eqb c "009" || Ascii.eqb c "010" || Ascii.eqb c "013".

Fixpoint skip_ws (s : string) : string :=
  match s with
  | String c s' => if is_ws c then skip_ws s' else s
  | EmptyString => EmptyString
  end.

Definition unescape (e : ascii) : option ascii :=
  if Ascii.eqb e "034" then Some "034"%char
  else if Ascii.eqb e "092" then Some "092"%char
  else if Ascii.eqb e "/" then Some "/"%char
  else if Ascii.eqb e "b" then Some "008"%char
  else if Ascii.eqb e "f" then Some "012"%char
  else if Ascii.eqb e "n" then Some "010"%char
  else if Ascii.eqb e "r" then Some "013"%char
  else if Ascii.eqb e "t" then Some "009"%char
  else None.

(** The rest of a string literal, after its opening quote. *)
Fixpoint read_string (s acc : string) : option (string * string) :=
  match s with
  | EmptyString => None
  | String c s' =>
      if Ascii.eqb c "034" then Some (acc, s')
      else if Ascii.eqb c "092" then
        match s' with
        | String e s'' =>
            match unescape e with
            | Some ch => read_string s'' (acc +:+ String ch EmptyString)
            | None => None
            end
        | EmptyString => None
        end
      else if (Py.ord c <? 32)%nat then None
      else read_string s' (acc +:+ String c EmptyString)
  end.

Definition is_digit (c : ascii) : bool := Py.between 48 57 (Py.ord c).

Fixpoint read_digits (s : string) (acc : Z) : Z * string :=
  match s with
  | String c s' =>
      if is_digit c then read_digits s' (10 * acc + Z.of_nat (Py.ord c - 48))%Z
      else (acc, s)
  | EmptyString => (acc, s)
  end.

Definition ends_number (s : string) : bool :=
  match s with
  | String c _ => negb (Ascii.eqb c "." || Ascii.eqb c "e" || Ascii.eqb c "E")
  | EmptyString => true
  end.

(** An integer literal: digits without a leading zero, not followed by a
    fraction or an exponent. *)
Definition read_nat (s : string) : option (Z * string) :=
  match s with
  | String c s' =>
      if Ascii.eqb c "0" then
        match s' with
        | String d _ => if is_digit d then None else if ends_number s' then Some (0%Z, s') else None
        | EmptyString => Some (0%Z, s')
        end
      else if is_digit c then
        let '(z, r) := read_digits s 0 in
        if ends_number r then Some (z, r) else None
      else None
  | EmptyString => None
  end.

(** [d[k] = v]: a key met again keeps its place and takes the new value. *)
Fixpoint dict_set (k : string) (v : json) (kv : list (string * json)) : list (string * json) :=
  match kv with
  | [] => [(k, v)]
  | (k', v') :: rest =>
      if String.eqb k' k then (k', v) :: rest else (k', v') :: dict_set k v rest
  end.

Fixpoint value (fuel : nat) (s : string) : option (json * string) :=
  match fuel with
  | O => None
  | S n =>
      match skip_ws s with
      | EmptyString => None
      | String c r as t =>
          if Ascii.eqb c "n" then
            if Py.startswith "null" t then Some (JNull, Py.drop 4 t) else None
          else if Ascii.eqb c "t" then
            if Py.startswith "true" t then Some (JBool true, Py.drop 4 t) else None
          else if Ascii.eqb c "f" then
            if Py.startswith "false" t then Some (JBool false, Py.drop 5 t) else None
          else if Ascii.eqb c "034" then
            match read_string r EmptyString with
            | Some (str, r') => Some (JStr str, r')
            | None => None
            end
          else if Ascii.eqb c "-" then
            match read_nat r with
            | Some (z, r') => Some (JInt (- z), r')
            | None => None
            end
          else if Ascii.eqb c "[" then
            match skip_ws r with
            | String d r' =>
                if Ascii.eqb d "]" then Some (JArr [], r') else items n r []
            | EmptyString => None
            end
          else if Ascii.eqb c "{" then
            match skip_ws r with
            | String d r' =>
                if Ascii.eqb d "}" then Some (JObj [], r') else members n r []
            | EmptyString => None
            end
          else
            match read_nat t with
            | Some (z, r') => Some (JInt z, r')
            | None => None
            end
      end
  end
with items (fuel : nat) (s : string) (acc : list json) : option (json * string) :=
  match fuel with
  | O => None
  | S n =>
      match value n s with
      | Some (v, r) =>
          match skip_ws r with
          | String c r' =>
              if Ascii.eqb c "," then items n r' (acc ++ [v])
              else if Ascii.eqb c "]" then Some (JArr (acc ++ [v]), r')
              else None
          | EmptyString => None
          end
      | None => None
      end
  end
with members (fuel : nat) (s : string) (acc : list (string * json)) : option (json * string) :=
  match fuel with
  | O => None
  | S n =>
      match skip_ws s with
      | String q r =>
          if Ascii.eqb q "034" then
            match read_string r EmptyString with
            | Some (k, r1) =>
                match skip_ws r1 with
                | String c r2 =>
                    if Ascii.eqb c ":" then
                      match value n r2 with
                      | Some (v, r3) =>
                          match skip_ws r3 with
                          | String d r4 =>
                              if Ascii.eqb d "," then members n r4 (dict_set k v acc)
                              else if Ascii.eqb d "}" then Some (JObj (dict_set k v acc), r4)
                              else None
                          | EmptyString => None
                          end
                      | None => None
                      end
                    else None
                | EmptyString => None
                end
            | None => None
            end
          else None
      | EmptyString => None
      end
  end.

Definition loads (s : string) : option json :=
  match value (2 * String.length s + 2) s with
  | Some (v, r) => if Py.is_empty (skip_ws r) then Some v else None
  | None => None
  end.

Definition hex_digit (n : nat) : ascii :=
  if (n <? 10)%nat then ascii_of_nat (48 + n) else ascii_of_nat (87 + n).

(** The backslash. *)
Definition bs : string := Py.chr 92.

Definition escape (c : ascii) : string :=
  if Ascii.eqb c "034" then bs +:+ Py.chr 34
  else if Ascii.eqb c "092" then bs +:+ bs
  else if Ascii.eqb c "008" then bs +:+ "b"
  else if Ascii.eqb c "012" then bs +:+ "f"
  else if Ascii.eqb c "010" then bs +:+ "n"
  else if Ascii.eqb c "013" then bs +:+ "r"
  else if Ascii.eqb c "009" then bs +:+ "t"
  else if (Py.ord c <? 32)%nat then
    bs +:+ "u00"
    +:+ String (hex_digit (Py.ord c / 16)) (String (hex_digit (Py.ord c mod 16)) EmptyString)
  else String c EmptyString.

Fixpoint escape_all (s : string) : string :=
  match s with
  | EmptyString => EmptyString
  | String c s' => escape c +:+ escape_all s'
  end.

Definition quote (s : string) : string := Py.chr 34 +:+ escape_all s +:+ Py.chr 34.

Definition sep_by (sep : string) (l : list string) : string :=
  match l with
  | [] => EmptyString
  | x :: rest => fold_left (fun acc y => acc +:+ sep +:+ y) rest x
  end.

Fixpoint dumps (v : json) : string :=
  match v with
  | JNull => "null"
  | JBool true => "true"
  | JBool false => "false"
  | JInt z => pretty z
  | JStr s => quote s
  | JArr l => "[" +:+ sep_by ", " (List.map dumps l) +:+ "]"
  | JObj kv =>
      "{" +:+ sep_by ", " (List.map (fun p => quote (fst p) +:+ ": " +:+ dumps (snd p)) kv) +:+ "}"
  end.

(** [str(v)]; a string inside a list or a dict is shown between single
    quotes, which is what [repr] does when the string is printable and
    has no quote or backslash of its own. *)
Fixpoint repr (v : json) : string :=
  match v with
  | JNull => "None"
  | JBool true => "True"
  | JBool false => "False"
  | JInt z => pretty z
  | JStr s => "'" +:+ s +:+ "'"
  | JArr l => "[" +:+ sep_by ", " (List.map repr l) +:+ "]"
  | JObj kv =>
      "{" +:+ sep_by ", " (List.map (fun p => "'" +:+ fst p +:+ "': " +:+ repr (snd p)) kv) +:+ "}"
  end.

Definition str (v : json) : string :=
  match v with
  | JStr s => s
  | _ => repr v
  end.

(** Every text of code points below 256 has a UTF-8 encoding. *)
Definition encodes (text : string) : bool := true.

Definition lib : PyLib :=
  {| json_loads := loads; json_dumps := dumps; py_str := str; utf8_ok := encodes |}.

End Codec.

(** ** Properties *)

Section Properties.

Context {lib : PyLib}.

#[local] Set Warnings "-clear-no-such-hyp".

(** *** Running computations *)

Lemma bind_return {A B} (m : M A) (k : A -> M B) net s a s1 out1 :
  m net s = (Return a, s1, out1) ->
  bind m k net s =
    (result_of (k a net s1), state_of (k a net s1), out1 ++ effects_of (k a net s1)).
Proof.
  intros Hm. unfold bind, result_of, state_of, effects_of. rewrite Hm.
  destruct (k a net s1) as [[r s2] out2]. reflexivity.
Qed.

Lemma bind_raise {A B} (m : M A) (k : A -> M B) net s e s1 out1 :
  m net s = (Raise e, s1, out1) ->
  bind m k net s = (Raise e, s1, out1).
Proof. intros Hm. unfold bind. rewrite Hm. reflexivity. Qed.

(** *** The history cache *)

(** [for record in records: append_history(room, record)] *)
Definition append_all (room : string) (records : list json) : M unit :=
  for_each records (append_history room).

(** The line [append_history] writes for a record. *)
Definition line_of (payload : json) : string := json_dumps payload +:+ Py.nl.

(** The log of [room] can be opened, and the line of [payload] written. *)
Definition takes (room : string) (payload : json) : Prop :=
  Py.name_fits (room_log_path room) = true /\ utf8_ok (line_of payload) = true.

(** The state [append_history(room, payload)] leaves when the room has a
    cache: the line is at the end of the log, the record at the end of the
    cache, which has lost its oldest record if it held 50. *)
Definition logged (room : string) (payload : json) (s : state) : state :=
  let h := default [] (history_cache s !! room) ++ [payload] in
  set_history_cache
    <[room := if (MAX_HISTORY <? Z.of_nat (length h))%Z then tail h else h]>
    (set_data_dir (fun fs =>
       match fs !! room_log_path room with
       | Some f =>
           <[room_log_path room :=
               File (readable f) (content f +:+ json_dumps payload +:+ Py.nl)]> fs
       | None => <[room_log_path room := File true (json_dumps payload +:+ Py.nl)]> fs
       end) s).

(** The state [append_history] leaves when the line is written and the
    room has no cache: [history_cache[room]] raises with the line in the
    log. *)
Definition written (room : string) (payload : json) (s : state) : state :=
  set_data_dir (fun fs =>
    match fs !! room_log_path room with
    | Some f =>
        <[room_log_path room :=
            File (readable f) (content f +:+ json_dumps payload +:+ Py.nl)]> fs
    | None => <[room_log_path room := File true (json_dumps payload +:+ Py.nl)]> fs
    end) s.

(** The state [append_history] leaves when the line does not encode: the
    log has been opened, so it exists, and nothing was written to it. *)
Definition touched (room : string) (s : state) : state :=
  set_data_dir (fun fs =>
    match fs !! room_log_path room with
    | Some _ => fs
    | None => <[room_log_path room := File true ""]> fs
    end) s.

(** Every way [append_history] ends. *)
Lemma append_history_outcome room payload net s :
  append_history room payload net s
  = if Py.name_fits (room_log_path room) then
      if utf8_ok (line_of payload) then
        match history_cache s !! room with
        | Some _ => (Return tt, logged room payload s, [])
        | None => (Raise KeyError, written room payload s, [])
        end
      else (Raise UnicodeEncodeError, touched room s, [])
    else (Raise OSError, s, []).
Proof.
  unfold append_history, open_append, line_of.
  destruct (Py.name_fits (room_log_path room)); [|reflexivity].
  destruct (utf8_ok (json_dumps payload +:+ Py.nl)); [|reflexivity].
  unfold logged, written.
  cbv beta iota zeta delta [bind get_state modify ret raise].
  cbn [history_cache set_data_dir fst snd].
  destruct (history_cache s !! room) as [h|] eqn:Hh; [|reflexivity].
  cbn [history_cache set_history_cache fst snd from_option]. rewrite lookup_insert_eq.
  unfold id.
  destruct (MAX_HISTORY <? Z.of_nat (length (h ++ [payload])))%Z; cbn [fst snd app];
    [|reflexivity].
  unfold set_history_cache. cbn [clients user_rooms rooms history_cache data_dir].
  rewrite insert_insert_eq. reflexivity.
Qed.

Lemma append_history_run room payload net s h :
  takes room payload ->
  history_cache s !! room = Some h ->
  append_history room payload net s = (Return tt, logged room payload s, []).
Proof.
  intros [Hfits Hok] Hh. rewrite append_history_outcome, Hfits, Hok, Hh. reflexivity.
Qed.

Lemma append_history_cached room payload net s h :
  takes room payload ->
  history_cache s !! room = Some h ->
  exists s',
    append_history room payload net s = (Return tt, s', [])
    /\ history_cache s' !! room =
         Some (if (MAX_HISTORY <? Z.of_nat (length (h ++ [payload])))%Z
               then tail (h ++ [payload]) else h ++ [payload])
    /\ clients s' = clients s /\ user_rooms s' = user_rooms s /\ rooms s' = rooms s.
Proof.
  intros Htakes Hh. exists (logged room payload s).
  split; [apply (append_history_run _ _ _ _ h Htakes Hh)|].
  unfold logged. cbn. rewrite Hh, lookup_insert_eq. auto.
Qed.

(** Evicting the oldest entry after one append keeps the cache the
    50-item tail of everything appended so far. *)
Lemma evict_tail {A} (h : list A) (v : A) (rest : list A) :
  (length h <= 50)%nat ->
  let h1 := if (MAX_HISTORY <? Z.of_nat (length (h ++ [v])))%Z
            then tail (h ++ [v]) else h ++ [v] in
  (length h1 <= 50)%nat
  /\ drop (length (h1 ++ rest) - 50) (h1 ++ rest)
     = drop (length (h ++ v :: rest) - 50) (h ++ v :: rest).
Proof.
  intros Hlen. cbn zeta. unfold MAX_HISTORY.
  replace (h ++ v :: rest) with ((h ++ [v]) ++ rest)
    by (rewrite <- app_assoc; reflexivity).
  assert (Hl : length (h ++ [v]) = S (length h)) by (rewrite length_app; cbn; lia).
  destruct (50 <? Z.of_nat (length (h ++ [v])))%Z eqn:E.
  - apply Z.ltb_lt in E.
    destruct (h ++ [v]) as [|x t] eqn:Ht; [cbn in Hl; lia|].
    cbn [tail]. cbn [length] in Hl, E. split; [lia|].
    cbn [app length]. rewrite length_app.
    replace (S (length t + length rest) - 50)%nat
      with (S (length t + length rest - 50)) by lia.
    reflexivity.
  - apply Z.ltb_ge in E. split; [lia|reflexivity].
Qed.

Lemma append_all_from room records : forall net s h,
  Forall (takes room) records ->
  history_cache s !! room = Some h ->
  (length h <= 50)%nat ->
  exists s',
    append_all room records net s = (Return tt, s', [])
    /\ history_cache s' !! room =
         Some (drop (length (h ++ records) - 50) (h ++ records)).
Proof.
  induction records as [|v records IH]; intros net s h Hall Hh Hlen.
  - exists s. split; [reflexivity|]. rewrite app_nil_r.
    replace (length h - 50)%nat with 0%nat by lia. exact Hh.
  - apply Forall_cons in Hall as [Hv Hall].
    destruct (append_history_cached room v net s h Hv Hh) as (s1 & Hrun & Hc & _).
    destruct (evict_tail h v records Hlen) as [Hlen1 Htail].
    destruct (IH net s1 _ Hall Hc Hlen1) as (s2 & Hrun2 & Hc2).
    exists s2. split.
    + unfold append_all in *. cbn [for_each].
      rewrite (bind_return _ _ _ _ _ _ _ Hrun). rewrite Hrun2. reflexivity.
    + rewrite Hc2. f_equal. exact Htail.
Qed.

(** C2. Starting from the empty cache of a room, [N] calls of
    [append_history] on that room whose writes the log takes all return,
    and leave in the cache the [N] records in append order when [N <= 50],
    the last 50 of them in append order when [N > 50]; the cache holds at
    most 50 entries. *)
Theorem append_history_keeps_last_50 room (records : list json) net s :
  Forall (takes room) records ->
  history_cache s !! room = Some [] ->
  exists s' cache,
    append_all room records net s = (Return tt, s', [])
    /\ history_cache s' !! room = Some cache
    /\ ((length records <= 50)%nat -> cache = records)
    /\ ((50 < length records)%nat -> cache = drop (length records - 50) records)
    /\ (length cache <= 50)%nat.
Proof.
  intros Hall Hempty.
  destruct (append_all_from room records net s [] Hall Hempty) as (s' & Hrun & Hc);
    [cbn; lia|].
  cbn [app] in Hc.
  exists s', (drop (length records - 50) records).
  split; [exact Hrun|]. split; [exact Hc|]. split; [|split].
  - intros Hle. replace (length records - 50)%nat with 0%nat by lia. reflexivity.
  - reflexivity.
  - rewrite length_drop. lia.
Qed.

(** *** Loading a history file *)

Definition nonblank (ln : string) : Prop := Py.strip ln <> "".

#[local] Instance nonblank_dec ln : Decision (nonblank ln).
Proof. unfold nonblank. apply _. Defined.

(** The records of the non-blank lines, when every one of them decodes. *)
Definition decoded (lines : list string) : option (list json) :=
  mapM (fun ln => json_loads (Py.strip ln)) (filter nonblank lines).

(** What skipping the malformed lines would return: the records of the
    lines that decode, the others left out. *)
Definition skipping_malformed (lines : list string) : list json :=
  omap (fun ln => json_loads (Py.strip ln)) (filter nonblank lines).

Lemma is_empty_true s : Py.is_empty s = true <-> s = "".
Proof. destruct s; cbn; split; congruence. Qed.

Lemma is_empty_false s : Py.is_empty s = false <-> s <> "".
Proof. destruct s; cbn; split; congruence. Qed.

Lemma decode_lines_run lines : forall out net s,
  decode_lines lines out net s =
    (match decoded lines with
     | Some vs => Return (out ++ vs)
     | None => Raise JSONDecodeError
     end, s, []).
Proof.
  unfold decoded.
  induction lines as [|ln rest IH]; intros out net s; cbn [decode_lines].
  - cbn. rewrite app_nil_r. reflexivity.
  - rewrite filter_cons. destruct (Py.is_empty (Py.strip ln)) eqn:E.
    + apply is_empty_true in E. rewrite decide_False by (unfold nonblank; tauto).
      apply IH.
    + apply is_empty_false in E. rewrite decide_True by exact E.
      cbn [mapM]. destruct (json_loads (Py.strip ln)) as [v|]; cbn.
      * rewrite IH.
        destruct (mapM _ (filter nonblank rest)) as [vs|]; cbn; [|reflexivity].
        rewrite <- app_assoc. reflexivity.
      * reflexivity.
Qed.

(** The value of [load_history(room, max_items)]. *)
Definition loaded (s : state) (room : string) (max_items : Z) : list json :=
  match data_dir s !! room_log_path room with
  | None => []
  | Some f =>
      if readable f
      then default [] (decoded (Py.last_items max_items (Py.readlines (content f))))
      else []
  end.

Lemma load_history_run room max_items net s :
  Py.name_fits (room_log_path room) = true ->
  load_history room max_items net s = (Return (loaded s room max_items), s, []).
Proof.
  intros Hfits. unfold load_history, path_exists. rewrite Hfits.
  cbv beta iota zeta delta
    [loaded bind get_state try open_readlines ret raise].
  destruct (data_dir s !! room_log_path room) as [f|] eqn:Hf.
  - rewrite bool_decide_eq_true_2 by eauto. cbv beta iota zeta delta [negb].
    rewrite Hf. destruct (readable f); [|reflexivity].
    rewrite decode_lines_run.
    destruct (decoded _); reflexivity.
  - rewrite bool_decide_eq_false_2 by (intros [? ?]; discriminate). reflexivity.
Qed.

(** The existence check raises for a name the file system does not take:
    the [try] has not been entered yet. *)
Lemma load_history_raises room max_items net s :
  Py.name_fits (room_log_path room) = false ->
  load_history room max_items net s = (Raise OSError, s, []).
Proof.
  intros Hfits. unfold load_history, path_exists. rewrite Hfits. reflexivity.
Qed.

Lemma length_last_items {A} (n : Z) (l : list A) :
  (0 < n)%Z -> (Z.of_nat (length (Py.last_items n l)) <= n)%Z.
Proof.
  intros Hn. destruct n as [|p|p]; try lia. cbn.
  rewrite length_skipn. lia.
Qed.

Lemma length_decoded lines vs :
  decoded lines = Some vs -> (length vs <= length lines)%nat.
Proof.
  unfold decoded. intros H. apply length_mapM in H. rewrite <- H.
  apply length_filter.
Qed.

Lemma length_loaded s room : (length (loaded s room MAX_HISTORY) <= 50)%nat.
Proof.
  unfold loaded.
  destruct (data_dir s !! room_log_path room) as [f|]; [|cbn; lia].
  destruct (readable f); [|cbn; lia].
  destruct (decoded _) as [records|] eqn:Hd; cbn [default from_option]; [|cbn; lia].
  unfold id. apply length_decoded in Hd.
  assert (Hl := length_last_items MAX_HISTORY (Py.readlines (content f)) eq_refl).
  apply Nat2Z.inj_le. etransitivity; [apply Nat2Z.inj_le, Hd|exact Hl].
Qed.


(** *** Listing the rooms *)

Lemma elem_of_sorted x l : x ∈ Py.sorted l <-> x ∈ l.
Proof. unfold Py.sorted. rewrite merge_sort_Permutation. reflexivity. Qed.

Lemma elem_of_file_rooms s x :
  x ∈ file_rooms s <->
  x <> "" /\ exists f, is_Some (data_dir s !! f) /\ glob_history f = true
                       /\ x = Py.remove_all "history_" (Py.stem f).
Proof.
  unfold file_rooms. rewrite elem_of_list_to_set, list_elem_of_filter, list_elem_of_fmap.
  split.
  - intros [Hne (f & -> & Hf)]. split; [exact Hne|].
    apply list_elem_of_filter in Hf as [Hg Hf].
    apply elem_of_elements, elem_of_dom in Hf. eauto.
  - intros [Hne (f & Hf & Hg & ->)]. split; [exact Hne|].
    exists f. split; [reflexivity|].
    apply list_elem_of_filter. split; [exact Hg|].
    apply elem_of_elements, elem_of_dom. exact Hf.
Qed.

(** [list_rooms()] is the union of the keys of [rooms] and of the
    non-empty names read off the history files. *)
Lemma elem_of_list_rooms s x :
  x ∈ list_rooms s <-> is_Some (rooms s !! x) \/ x ∈ file_rooms s.
Proof.
  unfold list_rooms. rewrite elem_of_sorted, elem_of_elements, elem_of_union, elem_of_dom.
  reflexivity.
Qed.

(** [old] occurs nowhere in [s]. *)
Definition occurs_nowhere (old s : string) : Prop :=
  forall k, Py.startswith old (Py.drop k s) = false.

Lemma remove_all_nowhere old s : occurs_nowhere old s -> Py.remove_all old s = s.
Proof.
  unfold Py.remove_all. induction s as [|c s IH]; intros Hno; [reflexivity|].
  cbn [Py.remove_go]. pose proof (Hno 0%nat) as H0. cbn [Py.drop] in H0.
  rewrite H0. f_equal. apply IH.
  intros k. exact (Hno (S k)).
Qed.

Lemma string_length_app s t :
  String.length (s +:+ t) = (String.length s + String.length t)%nat.
Proof.
  induction s as [|c s IH]; [reflexivity|].
  change (String c s +:+ t) with (String c (s +:+ t)).
  cbn [String.length]. rewrite IH. reflexivity.
Qed.

Lemma take_app_length s t : Py.take (String.length s) (s +:+ t) = s.
Proof.
  induction s as [|c s IH]; [destruct t; reflexivity|].
  change (String c s +:+ t) with (String c (s +:+ t)).
  cbn [String.length Py.take]. rewrite IH. reflexivity.
Qed.

Lemma rfind_jsonl s : Py.rfind "." (s +:+ ".jsonl") = Some (String.length s).
Proof.
  induction s as [|c s IH]; [reflexivity|].
  change (String c s +:+ ".jsonl") with (String c (s +:+ ".jsonl")).
  cbn [Py.rfind String.length]. rewrite IH. reflexivity.
Qed.

Lemma stem_jsonl s : s <> "" -> Py.stem (s +:+ ".jsonl") = s.
Proof.
  intros Hne. unfold Py.stem. rewrite rfind_jsonl, string_length_app.
  destruct s as [|c s]; [contradiction|]. cbn [String.length].
  replace (0 <? S (String.length s))%nat with true by (symmetry; apply Nat.ltb_lt; lia).
  replace (S (String.length s) <? S (String.length s) + 6 - 1)%nat with true
    by (symmetry; apply Nat.ltb_lt; lia).
  cbn [andb]. apply (take_app_length (String c s)).
Qed.

(** The name [list_rooms] reads off the history file of a room is the
    sanitized name of the room, provided ["history_"] does not occur in
    that name. *)
Lemma derived_name_round_trip room :
  occurs_nowhere "history_" (safe_name room) ->
  Py.remove_all "history_" (Py.stem (room_log_path room)) = safe_name room.
Proof.
  intros Hno. unfold room_log_path.
  change ("history_" +:+ safe_name room +:+ ".jsonl")
    with (("history_" +:+ safe_name room) +:+ ".jsonl").
  rewrite stem_jsonl by discriminate.
  rewrite <- (remove_all_nowhere _ _ Hno) at 2.
  generalize (safe_name room). intros x.
  unfold Py.remove_all.
  change ("history_" +:+ x)
    with (String "h" (String "i" (String "s" (String "t"
           (String "o" (String "r" (String "y" (String "_" x)))))))).
  cbn [Py.remove_go].
  replace (Py.startswith "history_" _) with true by (destruct x; reflexivity).
  reflexivity.
Qed.

Lemma safe_name_nonempty room : safe_name room <> "".
Proof.
  unfold safe_name. cbv zeta.
  destruct (Py.is_empty _) eqn:E; [discriminate|]. apply is_empty_false, E.
Qed.

Lemma drop_app_length s t : Py.drop (String.length s) (s +:+ t) = t.
Proof.
  induction s as [|c s IH]; [destruct t; reflexivity|].
  change (String c s +:+ t) with (String c (s +:+ t)).
  cbn [String.length Py.drop]. exact IH.
Qed.

Lemma glob_history_log_path room : glob_history (room_log_path room) = true.
Proof.
  unfold glob_history, room_log_path.
  change ("history_" +:+ safe_name room +:+ ".jsonl")
    with (("history_" +:+ safe_name room) +:+ ".jsonl") at 2 3.
  generalize (safe_name room). intros x.
  unfold Py.endswith. rewrite string_length_app.
  replace (String.length ("history_" +:+ x) + String.length ".jsonl"
           - String.length ".jsonl")%nat
    with (String.length ("history_" +:+ x)) by lia.
  rewrite drop_app_length.
  replace (Py.startswith "history_" _) with true by (destruct x; reflexivity).
  cbn [andb]. apply andb_true_intro. split.
  - apply andb_true_intro. split; [|reflexivity]. apply Nat.leb_le. lia.
  - apply Nat.leb_le.
    change ("history_" +:+ x)
      with (String "h" (String "i" (String "s" (String "t"
             (String "o" (String "r" (String "y" (String "_" x)))))))).
    cbn [String.length]. change (String.length ".jsonl") with 6%nat. lia.
Qed.

(** [append_history] leaves the log of the room in place whenever the
    file system takes its name, also when the write then fails. *)
Lemma append_history_creates_log room payload net s :
  Py.name_fits (room_log_path room) = true ->
  is_Some (data_dir (state_of (append_history room payload net s)) !! room_log_path room).
Proof.
  intros Hfits. rewrite append_history_outcome, Hfits.
  destruct (utf8_ok (line_of payload)).
  - assert (Hfile : is_Some (data_dir (written room payload s) !! room_log_path room)).
    { unfold written. cbn.
      destruct (data_dir s !! room_log_path room); rewrite lookup_insert_eq; eauto. }
    destruct (history_cache s !! room); exact Hfile.
  - unfold touched, state_of. cbn.
    destruct (data_dir s !! room_log_path room) as [f|] eqn:Hf;
      [rewrite Hf|rewrite lookup_insert_eq]; eauto.
Qed.

(** Once the history file of a room exists, [list_rooms()] contains the
    sanitized name of the room, provided ["history_"] does not occur in
    that name. *)
Lemma sanitized_name_listed room s :
  occurs_nowhere "history_" (safe_name room) ->
  is_Some (data_dir s !! room_log_path room) ->
  safe_name room ∈ list_rooms s.
Proof.
  intros Hno Hfile. apply elem_of_list_rooms. right.
  apply elem_of_file_rooms. split; [apply safe_name_nonempty|].
  exists (room_log_path room). split; [exact Hfile|].
  split; [apply glob_history_log_path|].
  symmetry. apply derived_name_round_trip, Hno.
Qed.

(** *** Broadcast *)

Lemma for_each_quiet {A} (body : A -> M unit) (out : A -> list effect) net s :
  forall l,
    (forall x, x ∈ l -> body x net s = (Return tt, s, out x)) ->
    for_each l body net s = (Return tt, s, concat (out <$> l)).
Proof.
  induction l as [|x l IH]; intros Hbody; [reflexivity|].
  cbn [for_each]. rewrite (bind_return _ _ _ _ _ _ _ (Hbody x ltac:(left))).
  rewrite IH by (intros y Hy; apply Hbody; right; exact Hy).
  reflexivity.
Qed.

(** The sessions [broadcast(obj, room, exclude)] addresses: not the
    excluded user when one is given, and only the users whose current room
    is [room] when one is given. *)
Definition addressed (s : state) (room exclude : option string) (u : string) : Prop :=
  (opt_truthy exclude = true -> Some u <> exclude)
  /\ (opt_truthy room = true -> user_rooms s !! u = room).

#[local] Instance addressed_dec s room exclude u : Decision (addressed s room exclude u).
Proof. unfold addressed. apply _. Defined.

Lemma addressed_test s room exclude u :
  addressed s room exclude u <->
  opt_truthy exclude && bool_decide (Some u = exclude) = false
  /\ opt_truthy room && negb (bool_decide (user_rooms s !! u = room)) = false.
Proof.
  unfold addressed.
  destruct (opt_truthy exclude), (opt_truthy room); cbn [andb];
    rewrite ?negb_false_iff, ?bool_decide_eq_false, ?bool_decide_eq_true;
    intuition congruence.
Qed.

(** One send attempt per addressed session; the flag tells whether the
    transport took the frame. *)
Definition deliveries (net : WebSocket -> bool) (s : state) (obj : json)
    (room exclude : option string) : list effect :=
  (fun item : string * WebSocket => SendText item.2 (json_dumps obj) (net item.2))
    <$> filter (fun item : string * WebSocket => addressed s room exclude item.1)
          (map_to_list (clients s)).

Lemma broadcast_run obj room exclude net s :
  broadcast obj room exclude net s = (Return tt, s, deliveries net s obj room exclude).
Proof.
  unfold broadcast, deliveries.
  rewrite (bind_return _ _ net s s s [] eq_refl). cbn [app].
  rewrite (for_each_quiet _
    (fun item : string * WebSocket =>
       if decide (addressed s room exclude item.1)
       then [SendText item.2 (json_dumps obj) (net item.2)] else [])).
  - cbn [result_of state_of effects_of fst snd]. f_equal.
    induction (map_to_list (clients s)) as [|item l IH]; [reflexivity|].
    rewrite filter_cons. cbn [fmap list_fmap concat]. rewrite IH.
    destruct (decide (addressed s room exclude item.1)); reflexivity.
  - intros [u ws] _. cbn [fst snd].
    pose proof (addressed_test s room exclude u) as Ht.
    destruct (opt_truthy exclude && bool_decide (Some u = exclude)) eqn:He.
    { rewrite decide_False by (intros H; apply Ht in H as [? _]; discriminate).
      reflexivity. }
    cbv beta iota zeta delta [bind get_state try send_json ret].
    destruct (opt_truthy room && negb (bool_decide (user_rooms s !! u = room))) eqn:Hr.
    { rewrite decide_False by (intros H; apply Ht in H as [_ ?]; discriminate).
      reflexivity. }
    rewrite decide_True by (apply Ht; auto).
    destruct (net ws); reflexivity.
Qed.

(** C4. [broadcast] attempts one send to every registered session that
    is in the given room (to every session when no room is given) and is
    not the excluded user; an attempt that fails is swallowed, the
    remaining sessions are still served, and [broadcast] returns normally
    with the state untouched. *)
Theorem broadcast_best_effort obj room exclude net s :
  result_of (broadcast obj room exclude net s) = Return tt
  /\ state_of (broadcast obj room exclude net s) = s
  /\ effects_of (broadcast obj room exclude net s) = deliveries net s obj room exclude.
Proof. rewrite broadcast_run. repeat split. Qed.

(** *** Frames *)

(** The inbound frame [i] is a text frame that decodes to the object
    [fields]. *)
Definition decodes_to (i : inbound) (fields : list (string * json)) : Prop :=
  exists raw, i = Text raw /\ json_loads raw = Some (JObj fields).

(** The error reply of a refused login: the [error] event, then
    [ws.close()] once the send has gone through. *)
Definition refusal (net : WebSocket -> bool) (ws : WebSocket) (message : string) : list effect :=
  SendText ws (json_dumps (error_event message)) (net ws)
  :: (if net ws then [CloseWs ws] else []).

Ltac unfold_handler :=
  cbv beta iota zeta delta
    [turn handshake loop_turn cleanup bind try get_state receive_text loads
     dict_get or_empty_strip ret raise send_json ws_close modify].

Lemma conns_of_phase sys ws u :
  phase_of sys ws = Active u -> conns sys !! ws = Some (Active u).
Proof.
  unfold phase_of. destruct (conns sys !! ws) as [ph|]; cbn; congruence.
Qed.

(** *** Refused logins *)

Lemma handshake_wrong_type ws raw fields net s :
  json_loads raw = Some (JObj fields) ->
  is_str (default JNull (assoc "type" fields)) "login" = false ->
  turn ws AwaitingLogin (Text raw) 0 net s
  = (Return Closed, s, refusal net ws msg_login_first).
Proof.
  intros Hraw Hty. unfold_handler. rewrite Hraw. cbv beta iota zeta. rewrite Hty.
  unfold refusal. cbn [negb]. destruct (net ws); reflexivity.
Qed.

Lemma handshake_empty_username ws raw fields name net s :
  json_loads raw = Some (JObj fields) ->
  assoc "type" fields = Some (JStr "login") ->
  assoc "username" fields = Some (JStr name) ->
  Py.strip name = "" ->
  turn ws AwaitingLogin (Text raw) 0 net s
  = (Return Closed, s, refusal net ws msg_empty_username).
Proof.
  intros Hraw Hty Hname Hblank. unfold_handler.
  rewrite Hraw. cbv beta iota zeta. rewrite Hty, Hname. cbn [from_option]; unfold id; cbn [is_str negb].
  rewrite String.eqb_refl. cbn [negb].
  destruct (truthy (JStr name)); rewrite ?Hblank; cbn;
    unfold refusal; destruct (net ws); reflexivity.
Qed.

Lemma handshake_taken ws raw fields name other net s :
  json_loads raw = Some (JObj fields) ->
  assoc "type" fields = Some (JStr "login") ->
  assoc "username" fields = Some (JStr name) ->
  Py.strip name <> "" ->
  clients s !! Py.strip name = Some other ->
  turn ws AwaitingLogin (Text raw) 0 net s
  = (Return Closed, s, refusal net ws msg_in_use).
Proof.
  intros Hraw Hty Hname Hne Htaken. unfold_handler.
  rewrite Hraw. cbv beta iota zeta. rewrite Hty, Hname. cbn [from_option]; unfold id; cbn [is_str negb].
  rewrite String.eqb_refl. cbn [negb].
  assert (Ht : truthy (JStr name) = true).
  { cbn. destruct name; [exfalso; apply Hne; reflexivity|reflexivity]. }
  rewrite Ht. cbv beta iota zeta.
  apply is_empty_false in Hne. rewrite Hne. rewrite Htaken.
  unfold refusal. destruct (net ws); reflexivity.
Qed.

(** The clock is only read by the [message] branch of the loop. *)
Lemma turn_awaiting_clock ws i now net s :
  turn ws AwaitingLogin i now net s = turn ws AwaitingLogin i 0 net s.
Proof. reflexivity. Qed.

(** The ways the handshake refuses a decoded first frame. *)
Definition refused_login (s : state) (fields : list (string * json)) : Prop :=
  is_str (default JNull (assoc "type" fields)) "login" = false
  \/ (assoc "type" fields = Some (JStr "login")
      /\ exists name, assoc "username" fields = Some (JStr name)
           /\ (Py.strip name = "" \/ is_Some (clients s !! Py.strip name))).

(** C10. When the first frame of a connection is refused (its type is
    not [login], its username is empty once trimmed, or its username is
    taken), the turn ends with the connection closed, the shared state
    (sessions, rooms, room of each user, caches, files) is exactly what it
    was, and the only effects are the error reply and the close on the
    refused connection itself: nothing is sent to any other session. *)
Theorem refused_login_leaves_no_trace sys a fields :
  phase_of sys (a_ws a) = AwaitingLogin ->
  decodes_to (a_in a) fields ->
  refused_login (shared sys) fields ->
  exists message,
    message ∈ [msg_login_first; msg_empty_username; msg_in_use]
    /\ step sys a
       = (System (shared sys) (<[a_ws a := Closed]> (conns sys)),
          refusal (a_net a) (a_ws a) message).
Proof.
  intros Hph (raw & Hin & Hraw) Hrefused.
  unfold step. rewrite Hph, Hin, turn_awaiting_clock.
  destruct Hrefused as [Hty | (Hty & name & Hname & Hcase)].
  - exists msg_login_first. split; [apply list_elem_of_here|].
    rewrite (handshake_wrong_type _ _ _ _ _ Hraw Hty). reflexivity.
  - destruct (decide (Py.strip name = "")) as [Hblank|Hne].
    + exists msg_empty_username. split; [apply list_elem_of_further, list_elem_of_here|].
      rewrite (handshake_empty_username _ _ _ _ _ _ Hraw Hty Hname Hblank). reflexivity.
    + destruct Hcase as [Hblank|Htaken]; [contradiction|].
      destruct Htaken as [other Htaken].
      exists msg_in_use. split; [do 2 apply list_elem_of_further; apply list_elem_of_here|].
      rewrite (handshake_taken _ _ _ _ _ _ _ Hraw Hty Hname Hne Htaken). reflexivity.
Qed.

(** *** Blank messages *)

(** C7. A [message] frame whose text is empty once trimmed changes
    nothing: no file, cache or dictionary is touched, nothing is sent to
    anyone, and the session stays active. *)
Theorem blank_message_is_ignored sys a u fields text :
  phase_of sys (a_ws a) = Active u ->
  decodes_to (a_in a) fields ->
  assoc "type" fields = Some (JStr "message") ->
  assoc "text" fields = Some (JStr text) ->
  Py.strip text = "" ->
  step sys a = (sys, []).
Proof.
  intros Hph (raw & Hin & Hraw) Hty Htext Hblank.
  unfold step. rewrite Hph, Hin. unfold_handler.
  rewrite Hraw. cbv beta iota zeta. rewrite Hty, Htext. cbn [from_option]; unfold id; cbn [is_str].
  rewrite String.eqb_refl.
  assert (Hstrip : match (if truthy (JStr text) then JStr text else JStr "") with
                   | JStr t => Py.strip t = ""
                   | _ => False
                   end).
  { destruct (truthy (JStr text)); [exact Hblank|reflexivity]. }
  destruct (if truthy (JStr text) then JStr text else JStr "") as [| | |t| |];
    try contradiction.
  rewrite Hstrip. cbn.
  rewrite insert_id by (apply conns_of_phase; exact Hph).
  destruct sys; reflexivity.
Qed.

(** *** Consistency of the dictionaries *)

(** What ties the dictionaries together. *)
Record consistent (s : state) : Prop := Consistent {
  (** an active user has a current room, and is a member of it *)
  in_own_room : forall u, is_Some (clients s !! u) ->
    exists r m, user_rooms s !! u = Some r /\ rooms s !! r = Some m /\ u ∈ m;
  (** a member of a room is an active user whose current room it is *)
  member_is_active : forall r m u, rooms s !! r = Some m -> u ∈ m ->
    is_Some (clients s !! u) /\ user_rooms s !! u = Some r;
  (** a current room has a name and a history cache *)
  room_is_cached : forall u r, user_rooms s !! u = Some r ->
    r <> "" /\ is_Some (history_cache s !! r);
  (** no session has the empty name *)
  no_empty_name : clients s !! "" = None
}.

(** [grows s s']: from [s] to [s'] sessions and current rooms are the
    same, rooms keep their members, new rooms are empty, and no cache
    entry is lost. *)
Record grows (s s' : state) : Prop := Grows {
  grows_clients : clients s' = clients s;
  grows_user_rooms : user_rooms s' = user_rooms s;
  grows_rooms : forall r,
    rooms s' !! r = rooms s !! r \/ (rooms s !! r = None /\ rooms s' !! r = Some ∅);
  grows_cache : forall r, is_Some (history_cache s !! r) -> is_Some (history_cache s' !! r)
}.

Lemma grows_refl s : grows s s.
Proof. split; auto. Qed.

Lemma grows_trans s1 s2 s3 : grows s1 s2 -> grows s2 s3 -> grows s1 s3.
Proof.
  intros [Hc1 Hu1 Hr1 Hh1] [Hc2 Hu2 Hr2 Hh2]. split.
  - congruence.
  - congruence.
  - intros r. destruct (Hr1 r) as [E1|[E1 E1']], (Hr2 r) as [E2|[E2 E2']];
      try (left; congruence); try (right; split; congruence).
  - auto.
Qed.

Lemma consistent_grows s s' : consistent s -> grows s s' -> consistent s'.
Proof.
  intros [Hin Hmem Hcache Hname] [Hc Hu Hr Hh]. split.
  - intros u Hu'. rewrite Hc in Hu'. destruct (Hin u Hu') as (r & m & H1 & H2 & H3).
    exists r, m. rewrite Hu. split; [exact H1|]. split; [|exact H3].
    destruct (Hr r) as [E|[E _]]; congruence.
  - intros r m u Hrm Hum. rewrite Hc, Hu.
    destruct (Hr r) as [E|[_ E]].
    + rewrite E in Hrm. eauto.
    + rewrite E in Hrm. inversion Hrm; subst. set_solver.
  - intros u r Hur. rewrite Hu in Hur. destruct (Hcache u r Hur). auto.
  - rewrite Hc. exact Hname.
Qed.

(** The state [ensure_room(room)] leaves when it returns. *)
Definition ensured (room : string) (s : state) : state :=
  let s1 := match rooms s !! room with
            | None => set_rooms <[room := ∅]> s
            | Some _ => s
            end in
  match history_cache s1 !! room with
  | None => set_history_cache <[room := loaded s1 room MAX_HISTORY]> s1
  | Some _ => s1
  end.

(** The state [ensure_room(room)] leaves when [load_history] raises: the
    room has its empty member set and no cache. *)
Definition opened (room : string) (s : state) : state :=
  match rooms s !! room with
  | None => set_rooms <[room := ∅]> s
  | Some _ => s
  end.

(** [ensure_room(room)] has nothing to load, or can look for the log. *)
Definition loadable (room : string) (s : state) : Prop :=
  is_Some (history_cache s !! room) \/ Py.name_fits (room_log_path room) = true.

Lemma ensure_room_run room net s :
  loadable room s ->
  ensure_room room net s = (Return tt, ensured room s, []).
Proof.
  intros Hload. unfold ensure_room, ensured.
  cbv beta iota zeta delta [bind get_state modify ret].
  destruct (rooms s !! room) as [m|] eqn:Hm; cbv beta iota zeta;
    cbn [history_cache set_rooms];
    (destruct (history_cache s !! room) as [h|] eqn:Hh; [reflexivity|]);
    (destruct Hload as [[? ?]|Hfits]; [congruence|]);
    cbv beta iota zeta delta [bind]; rewrite (load_history_run _ _ _ _ Hfits);
    reflexivity.
Qed.

Lemma ensure_room_raises room net s :
  history_cache s !! room = None ->
  Py.name_fits (room_log_path room) = false ->
  ensure_room room net s = (Raise OSError, opened room s, []).
Proof.
  intros Hh Hfits. unfold ensure_room, opened.
  cbv beta iota zeta delta [bind get_state modify ret].
  destruct (rooms s !! room) as [m|] eqn:Hm; cbv beta iota zeta;
    cbn [history_cache set_rooms]; rewrite Hh;
    cbv beta iota zeta delta [bind]; rewrite (load_history_raises _ _ _ _ Hfits);
    reflexivity.
Qed.

(** [ensure_room] returns, or raises [OSError] with nothing sent. *)
Lemma ensure_room_outcome room net s :
  (ensure_room room net s = (Return tt, ensured room s, []) /\ loadable room s)
  \/ (ensure_room room net s = (Raise OSError, opened room s, [])
      /\ history_cache s !! room = None
      /\ Py.name_fits (room_log_path room) = false).
Proof.
  destruct (history_cache s !! room) as [h|] eqn:Hh.
  - assert (Hload : loadable room s) by (left; rewrite Hh; eauto).
    left. split; [apply ensure_room_run|]; exact Hload.
  - destruct (Py.name_fits (room_log_path room)) eqn:Hfits.
    + assert (Hload : loadable room s) by (right; exact Hfits).
      left. split; [apply ensure_room_run|]; exact Hload.
    + right. split; [apply ensure_room_raises; assumption|]. split; reflexivity.
Qed.

Lemma general_fits : Py.name_fits (room_log_path "general") = true.
Proof. reflexivity. Qed.

Lemma general_loadable s : loadable "general" s.
Proof. right. exact general_fits. Qed.

Lemma opened_grows room s : grows s (opened room s).
Proof.
  unfold opened. destruct (rooms s !! room) as [m|] eqn:Hm; [apply grows_refl|].
  split; cbn; auto. intros r. destruct (decide (room = r)) as [<-|Hne];
    rewrite ?lookup_insert_eq, ?lookup_insert_ne by exact Hne; eauto.
Qed.

Lemma ensured_grows room s : grows s (ensured room s).
Proof.
  unfold ensured.
  destruct (rooms s !! room) as [m|] eqn:Hm; cbn [history_cache set_rooms];
    destruct (history_cache s !! room) as [h|] eqn:Hh; split; cbn; auto;
    intros r; destruct (decide (room = r)) as [<-|Hne];
    rewrite ?lookup_insert_eq, ?lookup_insert_ne by exact Hne; eauto.
Qed.

Lemma ensured_has_room room s : is_Some (rooms (ensured room s) !! room).
Proof.
  unfold ensured.
  destruct (rooms s !! room) as [m|] eqn:Hm; cbn [history_cache set_rooms];
    destruct (history_cache s !! room) as [h|] eqn:Hh; cbn;
    rewrite ?lookup_insert_eq; rewrite ?Hm; eauto.
Qed.

Lemma ensured_has_cache room s : is_Some (history_cache (ensured room s) !! room).
Proof.
  unfold ensured.
  destruct (rooms s !! room) as [m|] eqn:Hm; cbn [history_cache set_rooms];
    destruct (history_cache s !! room) as [h|] eqn:Hh; cbn;
    rewrite ?lookup_insert_eq; rewrite ?Hh; eauto.
Qed.

Lemma ensured_id room s :
  is_Some (rooms s !! room) -> is_Some (history_cache s !! room) ->
  ensured room s = s.
Proof.
  intros [m Hm] [h Hh]. unfold ensured. rewrite Hm. cbv zeta. rewrite Hh. reflexivity.
Qed.

Lemma ensured_data_dir room s : data_dir (ensured room s) = data_dir s.
Proof.
  unfold ensured.
  destruct (rooms s !! room); cbn [history_cache set_rooms];
    destruct (history_cache s !! room); reflexivity.
Qed.

(** *** The three ways a turn rewrites the sessions *)

(** [rooms[room].add(u)] *)
Definition add_member (room u : string) (s : state) : state :=
  set_rooms (fun r => <[room := default ∅ (r !! room) ∪ {[u]}]> r) s.

(** [rooms.setdefault(room, set()).discard(u)] *)
Definition discard_member (room u : string) (s : state) : state :=
  set_rooms (fun r =>
    match r !! room with
    | Some m => <[room := m ∖ {[u]}]> r
    | None => <[room := ∅]> r
    end) s.

(** The state after lines 155-161: the session is registered and put in
    ["general"]. *)
Definition registered (u : string) (ws : WebSocket) (s : state) : state :=
  set_user_rooms <[u := "general"]>
    (add_member "general" u (ensured "general" (set_clients <[u := ws]> s))).

(** The state after [join_room(u, new_room)]. *)
Definition moved (u new_room : string) (s : state) : state :=
  let s1 := ensured new_room s in
  let old_room := default "general" (user_rooms s1 !! u) in
  if decide (old_room = new_room) then s1
  else set_user_rooms <[u := new_room]>
         (add_member new_room u (discard_member old_room u s1)).

(** The state after the [finally] block has dropped the session of [u]. *)
Definition removed (u : string) (s : state) : state :=
  let room := default "general" (user_rooms s !! u) in
  set_rooms (fun r =>
      match r !! room with
      | Some m => <[room := m ∖ {[u]}]> r
      | None => r
      end)
    (set_user_rooms (delete u) (set_clients (delete u) s)).

Lemma consistent_registered u ws s :
  consistent s -> clients s !! u = None -> u <> "" ->
  consistent (registered u ws s).
Proof.
  intros [Hin Hmem Hcache Hname] Hfree Hne.
  pose proof (ensured_grows "general" (set_clients <[u := ws]> s)) as [Hc Hu Hr Hh].
  pose proof (ensured_has_cache "general" (set_clients <[u := ws]> s)) as Hgc.
  pose proof (ensured_has_room "general" (set_clients <[u := ws]> s)) as [g Hg].
  cbn in Hc, Hu, Hr, Hh.
  unfold registered, add_member.
  set (s1 := ensured "general" (set_clients <[u := ws]> s)) in *.
  assert (Hkeep : forall r m, rooms s !! r = Some m -> rooms s1 !! r = Some m).
  { intros r m Hrm. destruct (Hr r) as [E|[E _]]; congruence. }
  assert (Hback : forall r m v, rooms s1 !! r = Some m -> v ∈ m -> rooms s !! r = Some m).
  { intros r m v Hrm Hv. destruct (Hr r) as [E|[_ E]]; [congruence|].
    rewrite E in Hrm. inversion Hrm; subst. set_solver. }
  split; cbn; rewrite ?Hu, ?Hc.
  - intros v Hv. destruct (decide (u = v)) as [<-|Huv].
    + exists "general", (g ∪ {[u]}). rewrite !lookup_insert_eq, Hg. cbn.
      split; [reflexivity|]. split; [reflexivity|set_solver].
    + rewrite lookup_insert_ne in Hv by exact Huv.
      destruct (Hin v Hv) as (r & m & H1 & H2 & H3).
      rewrite lookup_insert_ne by exact Huv.
      destruct (decide ("general" = r)) as [<-|Hgr].
      * exists "general", (m ∪ {[u]}). rewrite lookup_insert_eq, (Hkeep _ _ H2). cbn.
        split; [exact H1|]. split; [reflexivity|set_solver].
      * exists r, m. rewrite lookup_insert_ne by exact Hgr. eauto.
  - intros r m v Hrm Hv.
    destruct (decide ("general" = r)) as [<-|Hgr].
    + rewrite lookup_insert_eq, Hg in Hrm. cbn in Hrm. inversion Hrm; subst m.
      destruct (decide (u = v)) as [<-|Huv]; [rewrite !lookup_insert_eq; eauto|].
      rewrite !lookup_insert_ne by exact Huv.
      assert (v ∈ g) as Hvg by set_solver.
      eapply Hmem; [eapply Hback; eassumption|exact Hvg].
    + rewrite lookup_insert_ne in Hrm by exact Hgr.
      destruct (Hmem r m v (Hback _ _ _ Hrm Hv) Hv) as [Hact Hroom].
      assert (u <> v) by (intros <-; rewrite Hfree in Hact; destruct Hact; discriminate).
      rewrite !lookup_insert_ne by assumption. auto.
  - intros v r Hvr. destruct (decide (u = v)) as [<-|Huv].
    + rewrite lookup_insert_eq in Hvr. inversion Hvr; subst r.
      split; [discriminate|exact Hgc].
    + rewrite lookup_insert_ne in Hvr by exact Huv.
      destruct (Hcache v r Hvr). auto.
  - rewrite lookup_insert_ne by exact Hne. exact Hname.
Qed.

Lemma consistent_moved u new_room s :
  consistent s -> is_Some (clients s !! u) -> new_room <> "" ->
  consistent (moved u new_room s).
Proof.
  intros Hs Hact Hnew. unfold moved.
  pose proof (ensured_grows new_room s) as Hgrow.
  pose proof (ensured_has_cache new_room s) as Hnc.
  pose proof (ensured_has_room new_room s) as [mn Hmn].
  pose proof (consistent_grows _ _ Hs Hgrow) as [Hin Hmem Hcache Hname].
  rewrite <- (grows_clients _ _ Hgrow) in Hact.
  set (s1 := ensured new_room s) in *. cbv zeta.
  destruct (decide (default "general" (user_rooms s1 !! u) = new_room)) as [Heq|Hdiff].
  { split; assumption. }
  destruct (Hin u Hact) as (old & mo & Hold & Hmo & Humo).
  rewrite Hold in Hdiff |- *. cbn [default from_option id] in Hdiff |- *.
  unfold id in Hdiff |- *.
  replace (set_user_rooms <[u:=new_room]> (add_member new_room u (discard_member old u s1)))
    with (State (clients s1) (<[u:=new_room]> (user_rooms s1))
            (<[new_room := mn ∪ {[u]}]> (<[old := mo ∖ {[u]}]> (rooms s1)))
            (history_cache s1) (data_dir s1)).
  2:{ unfold add_member, discard_member, set_user_rooms, set_rooms. cbn.
      rewrite Hmo. rewrite lookup_insert_ne by exact Hdiff. rewrite Hmn. reflexivity. }
  split; cbn.
  - intros v Hv. destruct (decide (u = v)) as [<-|Huv].
    + exists new_room, (mn ∪ {[u]}). rewrite !lookup_insert_eq.
      split; [reflexivity|]. split; [reflexivity|set_solver].
    + rewrite lookup_insert_ne by exact Huv.
      destruct (Hin v Hv) as (r & m & H1 & H2 & H3).
      destruct (decide (new_room = r)) as [<-|Hnr].
      * exists new_room, (mn ∪ {[u]}). rewrite lookup_insert_eq.
        split; [exact H1|]. split; [reflexivity|]. rewrite Hmn in H2. set_solver.
      * destruct (decide (old = r)) as [<-|Hor].
        -- exists old, (mo ∖ {[u]}).
           rewrite lookup_insert_ne by exact Hnr. rewrite lookup_insert_eq.
           split; [exact H1|]. split; [reflexivity|]. rewrite Hmo in H2. set_solver.
        -- exists r, m. rewrite !lookup_insert_ne by assumption. auto.
  - intros r m v Hrm Hv.
    destruct (decide (u = v)) as [<-|Huv].
    + rewrite lookup_insert_eq. split; [exact Hact|].
      destruct (decide (new_room = r)) as [<-|Hnr]; [reflexivity|].
      rewrite lookup_insert_ne in Hrm by exact Hnr.
      destruct (decide (old = r)) as [<-|Hor].
      * rewrite lookup_insert_eq in Hrm. inversion Hrm; subst m. set_solver.
      * rewrite lookup_insert_ne in Hrm by exact Hor.
        destruct (Hmem r m u Hrm Hv) as [_ Hroom]. congruence.
    + rewrite lookup_insert_ne by exact Huv.
      destruct (decide (new_room = r)) as [<-|Hnr].
      * rewrite lookup_insert_eq in Hrm. inversion Hrm; subst m.
        apply (Hmem new_room mn v Hmn). set_solver.
      * rewrite lookup_insert_ne in Hrm by exact Hnr.
        destruct (decide (old = r)) as [<-|Hor].
        -- rewrite lookup_insert_eq in Hrm. inversion Hrm; subst m.
           apply (Hmem old mo v Hmo). set_solver.
        -- rewrite lookup_insert_ne in Hrm by exact Hor. eauto.
  - intros v r Hvr. destruct (decide (u = v)) as [<-|Huv].
    + rewrite lookup_insert_eq in Hvr. inversion Hvr; subst r. auto.
    + rewrite lookup_insert_ne in Hvr by exact Huv. eauto.
  - exact Hname.
Qed.

Lemma consistent_removed u s : consistent s -> consistent (removed u s).
Proof.
  intros [Hin Hmem Hcache Hname]. unfold removed. cbv zeta.
  set (room := default "general" (user_rooms s !! u)).
  assert (Hroom : forall r, user_rooms s !! u = Some r -> r = room).
  { intros r Hr. subst room. rewrite Hr. reflexivity. }
  split; cbn.
  - intros v Hv. apply lookup_delete_is_Some in Hv as [Huv Hv].
    destruct (Hin v Hv) as (r & m & H1 & H2 & H3).
    rewrite lookup_delete_ne by exact Huv.
    destruct (rooms s !! room) as [mr|] eqn:Hmr; [|eauto].
    destruct (decide (room = r)) as [<-|Hrr].
    + exists room, (mr ∖ {[u]}). rewrite lookup_insert_eq.
      split; [exact H1|]. split; [reflexivity|]. rewrite Hmr in H2. set_solver.
    + exists r, m. rewrite lookup_insert_ne by exact Hrr. auto.
  - intros r m v Hrm Hv.
    assert (Hsrc : exists m0, rooms s !! r = Some m0 /\ v ∈ m0 /\ (r = room -> v <> u)).
    { destruct (rooms s !! room) as [mr|] eqn:Hmr.
      - destruct (decide (room = r)) as [<-|Hrr].
        + rewrite lookup_insert_eq in Hrm. inversion Hrm; subst m.
          exists mr. split; [exact Hmr|]. set_solver.
        + rewrite lookup_insert_ne in Hrm by exact Hrr.
          exists m. split; [exact Hrm|]. split; [exact Hv|congruence].
      - exists m. split; [exact Hrm|]. split; [exact Hv|].
        intros ->. congruence. }
    destruct Hsrc as (m0 & Hm0 & Hv0 & Hnot).
    destruct (Hmem r m0 v Hm0 Hv0) as [Hact Hcur].
    assert (u <> v).
    { intros <-. apply (Hnot (Hroom _ Hcur)). reflexivity. }
    rewrite !lookup_delete_ne by assumption. auto.
  - intros v r Hvr. apply lookup_delete_Some in Hvr as [_ Hvr]. eauto.
  - rewrite lookup_delete_None. auto.
Qed.

(** *** State predicates kept by a computation *)

(** [stable I m]: whatever [m] does, and however it ends, it takes a
    state of [I] to a state of [I]. *)
Definition stable {A} (I : state -> Prop) (m : M A) : Prop :=
  forall net s, I s -> I (state_of (m net s)).

Lemma stable_ret {A} I (a : A) : stable I (ret a).
Proof. intros net s H. exact H. Qed.

Lemma stable_raise {A} I e : stable I (@raise A e).
Proof. intros net s H. exact H. Qed.

Lemma stable_bind {A B} I (m : M A) (k : A -> M B) :
  stable I m -> (forall a, stable I (k a)) -> stable I (bind m k).
Proof.
  intros Hm Hk net s HI. specialize (Hm net s HI).
  unfold bind, state_of in *.
  destruct (m net s) as [[[a|e] s1] out1]; cbn in *; [|exact Hm].
  specialize (Hk a net s1 Hm). unfold state_of in Hk.
  destruct (k a net s1) as [[r s2] out2]. exact Hk.
Qed.

(** Reading the state lets the continuation rely on what was read. *)
Lemma stable_get_state {B} (I : state -> Prop) (k : state -> M B) :
  (forall net s0, I s0 -> I (state_of (k s0 net s0))) ->
  stable I (bind get_state k).
Proof.
  intros Hk net s HI. specialize (Hk net s HI).
  unfold bind, get_state, state_of in *.
  destruct (k s net s) as [[r s2] out2]. exact Hk.
Qed.

Lemma stable_try {A} I (m : M A) : stable I m -> stable I (try m).
Proof.
  intros Hm net s HI. specialize (Hm net s HI). unfold try, state_of in *.
  destruct (m net s) as [[r s1] out1]. exact Hm.
Qed.

Lemma stable_modify I f : (forall s, I s -> I (f s)) -> stable I (modify f).
Proof. intros Hf net s HI. apply Hf, HI. Qed.

Lemma stable_for_each {A} I (body : A -> M unit) l :
  (forall x, stable I (body x)) -> stable I (for_each l body).
Proof.
  intros Hbody. induction l as [|x l IH]; cbn [for_each].
  - apply stable_ret.
  - apply stable_bind; [apply Hbody|intros _; exact IH].
Qed.

Lemma stable_send_json I ws obj : stable I (send_json ws obj).
Proof. intros net s HI. unfold send_json, state_of. destruct (net ws); exact HI. Qed.

Lemma stable_ws_close I ws : stable I (ws_close ws).
Proof. intros net s HI. exact HI. Qed.

Lemma stable_receive_text I i : stable I (receive_text i).
Proof. destruct i; [apply stable_ret|apply stable_raise]. Qed.

Lemma stable_loads I raw : stable I (loads raw).
Proof. unfold loads. destruct (json_loads raw); [apply stable_ret|apply stable_raise]. Qed.

Lemma stable_dict_get I msg key : stable I (dict_get msg key).
Proof. destruct msg; first [apply stable_ret|apply stable_raise]. Qed.

Lemma stable_or_empty_strip I v : stable I (or_empty_strip v).
Proof.
  unfold or_empty_strip.
  destruct (if truthy v then v else JStr ""); first [apply stable_ret|apply stable_raise].
Qed.

Lemma stable_broadcast I obj room exclude : stable I (broadcast obj room exclude).
Proof. intros net s HI. rewrite broadcast_run. exact HI. Qed.

Lemma stable_ensure_room I room :
  (forall s, I s -> loadable room s -> I (ensured room s)) ->
  (forall s, I s -> I (opened room s)) ->
  stable I (ensure_room room).
Proof.
  intros HI HO net s Hs.
  destruct (ensure_room_outcome room net s) as [[E Hload]|[E _]]; rewrite E;
    [apply HI|apply HO]; assumption.
Qed.

Lemma stable_send_history I ws room :
  (forall s, I s -> loadable room s -> I (ensured room s)) ->
  (forall s, I s -> I (opened room s)) ->
  stable I (send_history ws room).
Proof.
  intros HI HO. unfold send_history.
  apply stable_bind; [apply stable_ensure_room; [exact HI|exact HO]|intros _].
  apply stable_bind; [intros net s Hs; exact Hs|intros s0].
  destruct (history_cache s0 !! room); [|apply stable_raise].
  apply stable_for_each. intros m. apply stable_send_json.
Qed.

(** A predicate that every [grows] step keeps. *)
Definition grows_closed (I : state -> Prop) : Prop :=
  forall s s', I s -> grows s s' -> I s'.

Lemma append_history_grows room payload net s :
  grows s (state_of (append_history room payload net s)).
Proof.
  rewrite append_history_outcome.
  destruct (Py.name_fits (room_log_path room)); [|apply grows_refl].
  destruct (utf8_ok (line_of payload)); [|split; cbn; auto].
  destruct (history_cache s !! room) as [h|] eqn:Hh; [|split; cbn; auto].
  unfold logged, state_of. split; cbn; auto. intros r Hr.
  destruct (decide (room = r)) as [<-|Hne];
    rewrite ?lookup_insert_eq, ?lookup_insert_ne by exact Hne; eauto.
Qed.

Lemma stable_append_history I room payload :
  grows_closed I -> stable I (append_history room payload).
Proof. intros HI net s Hs. eapply HI; [exact Hs|apply append_history_grows]. Qed.

(** *** What [join_room], [enter] and the [finally] block do *)

Lemma join_room_run u new_room net s :
  loadable new_room s ->
  join_room u new_room net s
  = (Return (default "general" (user_rooms s !! u), new_room), moved u new_room s, []).
Proof.
  intros Hload. unfold join_room, moved.
  rewrite (bind_return _ _ _ _ _ _ _ (ensure_room_run new_room net s Hload)).
  pose proof (ensured_has_room new_room s) as [mn Hmn].
  rewrite <- (grows_user_rooms _ _ (ensured_grows new_room s)).
  set (s1 := ensured new_room s) in *.
  set (old := default "general" (user_rooms s1 !! u)).
  cbv beta iota zeta delta [bind get_state modify ret raise result_of state_of effects_of].
  cbn [fst snd app]. fold old.
  destruct (decide (old = new_room)) as [Heq|Hdiff]; [reflexivity|].
  unfold add_member, discard_member, set_user_rooms, set_rooms.
  cbn [rooms clients user_rooms history_cache data_dir fst snd].
  destruct (rooms s1 !! old) as [mo|] eqn:Hmo;
    rewrite !lookup_insert_ne by exact Hdiff; rewrite Hmn; reflexivity.
Qed.

(** [join_room] moves the user, or raises out of [ensure_room] before
    it has touched the membership. *)
Lemma join_room_outcome u new_room net s :
  (join_room u new_room net s
   = (Return (default "general" (user_rooms s !! u), new_room), moved u new_room s, [])
   /\ loadable new_room s)
  \/ (join_room u new_room net s = (Raise OSError, opened new_room s, [])
      /\ history_cache s !! new_room = None
      /\ Py.name_fits (room_log_path new_room) = false).
Proof.
  destruct (ensure_room_outcome new_room net s) as [[E Hload]|(E & Hh & Hfits)].
  - left. split; [apply join_room_run|]; exact Hload.
  - right. split; [|split; assumption].
    unfold join_room. rewrite (bind_raise _ _ _ _ _ _ _ E). reflexivity.
Qed.

Lemma cleanup_run u net s :
  u <> "" ->
  let room := default "general" (user_rooms s !! u) in
  cleanup (Some u) net s
  = (Return tt, removed u s,
     deliveries net (removed u s)
       (presence_event "user_left" u room (room_users (removed u s) room))
       (Some room) None).
Proof.
  intros Hne room. unfold cleanup.
  apply is_empty_false in Hne. rewrite Hne.
  cbv beta iota zeta delta [bind get_state modify ret try].
  cbn [user_rooms set_clients fst snd app]. fold room.
  rewrite broadcast_run, app_nil_r. reflexivity.
Qed.

Lemma cleanup_none net s : cleanup None net s = (Return tt, s, []).
Proof. reflexivity. Qed.

Lemma ensured_registered_general u ws s :
  ensured "general" (registered u ws s) = registered u ws s.
Proof.
  apply ensured_id; unfold registered, add_member; cbn.
  - rewrite lookup_insert_eq. eauto.
  - apply ensured_has_cache.
Qed.

(** However [enter] ends, it leaves the session registered. *)
Lemma enter_state ws u net s :
  state_of (enter ws u net s) = registered u ws s.
Proof.
  unfold enter.
  assert (Htail : forall (k : M unit) net,
            stable (fun s' => s' = registered u ws s) k ->
            state_of (k net (registered u ws s)) = registered u ws s).
  { intros k net' Hk. apply Hk. reflexivity. }
  pose proof (ensured_has_room "general" (set_clients <[u := ws]> s)) as [g Hg].
  cbv beta iota zeta delta [bind get_state modify ret raise state_of].
  rewrite (ensure_room_run _ _ _ (general_loadable _)).
  cbn [fst snd]. rewrite Hg. cbn [fst snd].
  match goal with
  | |- context [send_json ws ?obj net ?st] =>
      replace st with (registered u ws s)
        by (unfold registered, add_member, set_rooms; cbn; rewrite Hg; reflexivity)
  end.
  set (X := registered u ws s).
  assert (HX : forall s', s' = X -> ensured "general" s' = X)
    by (intros s' ->; apply ensured_registered_general).
  assert (HX' : forall s', s' = X -> s' = ensured "general" s')
    by (intros s' ->; symmetry; apply ensured_registered_general).
  unfold send_json at 1.
  destruct (net ws); cbn [fst snd]; [|reflexivity].
  assert (HO : forall s', s' = X -> opened "general" s' = X).
  { intros s' ->. unfold opened, X, registered, add_member. cbn.
    rewrite lookup_insert_eq. reflexivity. }
  pose proof (stable_send_history (fun s' => s' = X) ws "general") as Hsh.
  specialize (Hsh (fun s' H _ => eq_trans (HX s' H) eq_refl)
                (fun s' H => eq_trans (HO s' H) eq_refl) net X eq_refl).
  unfold state_of in Hsh.
  destruct (send_history ws "general" net X) as [[[[]|e] s2] out2];
    cbn [fst snd] in *; [|exact Hsh].
  subst s2. rewrite broadcast_run. reflexivity.
Qed.

(** *** One turn keeps the dictionaries consistent *)

(** The dictionaries are consistent and the sessions are [c0]. *)
Definition sessions_are (c0 : gmap string WebSocket) (s : state) : Prop :=
  consistent s /\ clients s = c0.

Lemma sessions_are_grows c0 : grows_closed (sessions_are c0).
Proof.
  intros s s' [Hs Hc] Hg. split; [eapply consistent_grows; eassumption|].
  rewrite (grows_clients _ _ Hg). exact Hc.
Qed.

Lemma sessions_are_ensured c0 room s : sessions_are c0 s -> sessions_are c0 (ensured room s).
Proof. intros H. eapply sessions_are_grows; [exact H|apply ensured_grows]. Qed.

Lemma sessions_are_opened c0 room s : sessions_are c0 s -> sessions_are c0 (opened room s).
Proof. intros H. eapply sessions_are_grows; [exact H|apply opened_grows]. Qed.

Lemma clients_moved u new_room s : clients (moved u new_room s) = clients s.
Proof.
  unfold moved. cbv zeta.
  destruct (decide _); cbn; apply (grows_clients _ _ (ensured_grows new_room s)).
Qed.

Lemma stable_get I : stable I get_state.
Proof. intros net s H. exact H. Qed.

Lemma stable_join_room c0 u new_room :
  is_Some (c0 !! u) -> new_room <> "" ->
  stable (sessions_are c0) (join_room u new_room).
Proof.
  intros Hu Hnew net s [Hs Hc].
  destruct (join_room_outcome u new_room net s) as [[E _]|[E _]]; rewrite E.
  - cbn. split.
    + apply consistent_moved; [exact Hs| rewrite Hc; exact Hu | exact Hnew].
    + rewrite clients_moved. exact Hc.
  - apply sessions_are_opened. split; assumption.
Qed.

Ltac stable_auto :=
  repeat first
    [ apply stable_ret | apply stable_raise | apply stable_send_json
    | apply stable_ws_close | apply stable_receive_text | apply stable_loads
    | apply stable_dict_get | apply stable_or_empty_strip | apply stable_broadcast
    | apply stable_get
    | match goal with
      | |- stable _ (bind _ _) => apply stable_bind; [|intros ?]
      | |- stable _ (if ?b then _ else _) => destruct b eqn:?
      end ].

Lemma stable_loop_turn_with (I : state -> Prop) ws u i now :
  (forall room s, I s -> loadable room s -> I (ensured room s)) ->
  (forall room s, I s -> I (opened room s)) ->
  (forall room payload, stable I (append_history room payload)) ->
  (forall new_room, new_room <> "" -> stable I (join_room u new_room)) ->
  stable I (loop_turn ws u i now).
Proof.
  intros Hens Hopen Happ Hjoin. unfold loop_turn. stable_auto.
  - apply stable_ensure_room; intros s; [apply Hens|apply Hopen].
  - apply Happ.
  - apply Hjoin. apply is_empty_false. assumption.
  - apply stable_send_history; intros s; [apply Hens|apply Hopen].
Qed.

Lemma stable_loop_turn c0 ws u i now :
  is_Some (c0 !! u) -> stable (sessions_are c0) (loop_turn ws u i now).
Proof.
  intros Hu. apply stable_loop_turn_with.
  - intros room s Hs _. apply sessions_are_ensured, Hs.
  - intros room s. apply sessions_are_opened.
  - intros room payload. apply stable_append_history, sessions_are_grows.
  - intros new_room Hnew. apply stable_join_room; assumption.
Qed.

Lemma handshake_state ws i net s : state_of (handshake ws i net s) = s.
Proof.
  assert (H : stable (fun s' => s' = s) (handshake ws i)).
  { unfold handshake. stable_auto.
    all: destruct (clients _ !! _); stable_auto. }
  apply H. reflexivity.
Qed.

(** An accepted login asks for a non-empty name that no session has. *)
Lemma handshake_accepts ws i net s u :
  result_of (handshake ws i net s) = Return (Some u) ->
  clients s !! u = None /\ u <> "".
Proof.
  unfold handshake.
  cbv beta iota zeta delta
    [bind get_state receive_text loads dict_get or_empty_strip ret raise
     send_json ws_close result_of].
  destruct i as [raw|]; cbn [fst]; [|discriminate].
  destruct (json_loads raw) as [msg|]; cbn [fst]; [|discriminate].
  destruct msg as [| | | | |fields]; cbn [fst]; try discriminate.
  destruct (negb (is_str (default JNull (assoc "type" fields)) "login")).
  { destruct (net ws); cbn [fst]; discriminate. }
  cbn [fst].
  destruct (if truthy (default JNull (assoc "username" fields))
            then default JNull (assoc "username" fields) else JStr "")
    as [| | |t| |]; cbn [fst]; try discriminate.
  destruct (Py.is_empty (Py.strip t)) eqn:He.
  { destruct (net ws); cbn [fst]; discriminate. }
  destruct (clients s !! Py.strip t) eqn:Hc.
  { destruct (net ws); cbn [fst]; discriminate. }
  cbn [fst]. intros H. inversion H; subst u.
  split; [exact Hc|apply is_empty_false, He].
Qed.

(** The [user_left] broadcast of the [finally] block, sent from the
    state [s] the block has reached, for the room [u] was last in. *)
Definition farewell (net : WebSocket -> bool) (u room : string) (s : state) : list effect :=
  deliveries net s (presence_event "user_left" u room (room_users s room)) (Some room) None.

Lemma turn_active_run ws u i now net s :
  u <> "" ->
  turn ws (Active u) i now net s =
    let r := loop_turn ws u i now net s in
    match result_of r with
    | Return _ => (Return (Active u), state_of r, effects_of r)
    | Raise _ =>
        let room := default "general" (user_rooms (state_of r) !! u) in
        (Return Closed, removed u (state_of r),
         effects_of r ++ farewell net u room (removed u (state_of r)))
    end.
Proof.
  intros Hne. unfold turn, farewell.
  cbv beta iota zeta delta [bind try ret result_of state_of effects_of].
  destruct (loop_turn ws u i now net s) as [[[[]|e] s1] out1]; cbn [fst snd].
  - rewrite ?app_nil_r. reflexivity.
  - rewrite (cleanup_run u net s1 Hne). cbn [fst snd]. rewrite ?app_nil_r. reflexivity.
Qed.

Lemma turn_awaiting_run ws i now net s :
  turn ws AwaitingLogin i now net s =
    let h := handshake ws i net s in
    match result_of h with
    | Return (Some u) =>
        let e := enter ws u net s in
        match result_of e with
        | Return _ => (Return (Active u), registered u ws s, effects_of h ++ effects_of e)
        | Raise _ =>
            (Return Closed, removed u (registered u ws s),
             effects_of h ++ effects_of e
               ++ farewell net u "general" (removed u (registered u ws s)))
        end
    | _ => (Return Closed, s, effects_of h)
    end.
Proof.
  unfold turn, farewell.
  pose proof (handshake_state ws i net s) as Hst.
  pose proof (handshake_accepts ws i net s) as Hacc.
  cbv beta iota zeta delta [bind try ret] in *.
  unfold result_of, state_of, effects_of in *.
  destruct (handshake ws i net s) as [[[[u|]|e] s1] out1]; cbn [fst snd] in *; subst s1.
  - destruct (Hacc u eq_refl) as [_ Hne].
    pose proof (enter_state ws u net s) as Hen. unfold state_of in Hen.
    destruct (enter ws u net s) as [[[[]|e] s2] out2]; cbn [fst snd] in *; subst s2.
    + rewrite ?app_nil_r. reflexivity.
    + rewrite (cleanup_run u net _ Hne). cbn [fst snd].
      replace (default "general" (user_rooms (registered u ws s) !! u)) with "general".
      2:{ unfold registered. cbn. rewrite lookup_insert_eq. reflexivity. }
      rewrite ?app_nil_r. reflexivity.
  - rewrite cleanup_none. cbn [fst snd]. rewrite ?app_nil_r. reflexivity.
  - rewrite cleanup_none. cbn [fst snd]. rewrite ?app_nil_r. reflexivity.
Qed.

(** *** The invariant of the whole system *)

(** A session is registered under [u] with socket [ws] exactly when the
    connection [ws] is active as [u]. *)
Definition linked (sys : system) : Prop :=
  forall u ws, clients (shared sys) !! u = Some ws <-> conns sys !! ws = Some (Active u).

Definition sound (sys : system) : Prop := consistent (shared sys) /\ linked sys.

Lemma sound_boot fs : sound (boot fs).
Proof.
  split; [split|]; cbn.
  - intros u [ws H]. rewrite lookup_empty in H. discriminate.
  - intros r m u Hr Hu. apply lookup_singleton_Some in Hr as [_ <-]. set_solver.
  - intros u r H. rewrite lookup_empty in H. discriminate.
  - apply lookup_empty.
  - intros u ws. cbn. rewrite !lookup_empty. split; discriminate.
Qed.

Lemma clients_registered u ws s : clients (registered u ws s) = <[u := ws]> (clients s).
Proof.
  unfold registered, add_member. cbn.
  rewrite (grows_clients _ _ (ensured_grows "general" (set_clients <[u := ws]> s))).
  reflexivity.
Qed.

Lemma clients_removed u s : clients (removed u s) = delete u (clients s).
Proof. reflexivity. Qed.

Lemma linked_closed sys ws s' :
  linked sys ->
  clients s' = clients (shared sys) ->
  (forall u, conns sys !! ws <> Some (Active u)) ->
  linked (System s' (<[ws := Closed]> (conns sys))).
Proof.
  intros Hl Hc Hws u w. cbn. rewrite Hc, (Hl u w).
  destruct (decide (ws = w)) as [<-|Hne].
  - rewrite lookup_insert_eq. split; [intros H; destruct (Hws _ H)|discriminate].
  - rewrite lookup_insert_ne by exact Hne. reflexivity.
Qed.

Lemma step_sound sys a : sound sys -> sound (step sys a).1.
Proof.
  intros [Hs Hl]. unfold step. set (ws := a_ws a).
  destruct (phase_of sys ws) as [|u|] eqn:Hph.
  - (* a first frame *)
    assert (Hfresh : forall u, conns sys !! ws <> Some (Active u)).
    { intros u Hu. unfold phase_of in Hph. rewrite Hu in Hph. discriminate. }
    rewrite turn_awaiting_run. cbv zeta.
    pose proof (handshake_accepts ws (a_in a) (a_net a) (shared sys)) as Hacc.
    destruct (result_of (handshake ws (a_in a) (a_net a) (shared sys)))
      as [[u|]|e]; cbn [fst].
    + destruct (Hacc u eq_refl) as [Hfree Hne].
      pose proof (consistent_registered u ws _ Hs Hfree Hne) as Hreg.
      destruct (result_of (enter ws u (a_net a) (shared sys))); cbn [fst].
      * split; [exact Hreg|]. intros v w. cbn [shared conns fst]. rewrite clients_registered.
        destruct (decide (ws = w)) as [<-|Hww].
        -- rewrite lookup_insert_eq. destruct (decide (u = v)) as [<-|Huv].
           ++ rewrite lookup_insert_eq. tauto.
           ++ rewrite (lookup_insert_ne _ u v) by exact Huv. rewrite (Hl v ws).
              split; [intros H; destruct (Hfresh _ H)|congruence].
        -- rewrite (lookup_insert_ne _ ws w) by exact Hww. destruct (decide (u = v)) as [<-|Huv].
           ++ rewrite lookup_insert_eq. rewrite <- (Hl u w), Hfree.
              split; congruence.
           ++ rewrite (lookup_insert_ne _ u v) by exact Huv. apply Hl.
      * split; [apply consistent_removed, Hreg|].
        apply linked_closed; [exact Hl| |exact Hfresh].
        rewrite clients_removed, clients_registered.
        rewrite delete_insert_eq. apply delete_id. exact Hfree.
    + split; [exact Hs|]. apply linked_closed; auto.
    + split; [exact Hs|]. apply linked_closed; auto.
  - (* a turn of an active session *)
    pose proof (conns_of_phase _ _ _ Hph) as Hconn.
    pose proof (proj2 (Hl u ws) Hconn) as Hu.
    assert (Hne : u <> "").
    { intros ->. rewrite (no_empty_name _ Hs) in Hu. discriminate. }
    rewrite (turn_active_run _ _ _ _ _ _ Hne). cbv zeta.
    destruct (stable_loop_turn (clients (shared sys)) ws u (a_in a) (a_now a)
                ltac:(eauto) (a_net a) (shared sys) (conj Hs eq_refl)) as [Hs1 Hc1].
    destruct (result_of (loop_turn ws u (a_in a) (a_now a) (a_net a) (shared sys)));
      cbn [fst].
    + split; [exact Hs1|]. intros v w. cbn [shared conns fst]. rewrite Hc1.
      rewrite insert_id by exact Hconn. apply Hl.
    + split; [apply consistent_removed, Hs1|]. intros v w. cbn [shared conns fst].
      rewrite clients_removed, Hc1.
      destruct (decide (ws = w)) as [<-|Hww].
      * rewrite lookup_insert_eq. split; [|discriminate].
        intros H. apply lookup_delete_Some in H as [Hvu H].
        apply Hl in H. congruence.
      * rewrite (lookup_insert_ne _ ws w) by exact Hww. rewrite <- (Hl v w).
        rewrite lookup_delete_Some. split; [tauto|]. intros H. split; [|exact H].
        intros <-. congruence.
  - (* the connection is closed *)
    assert (Hconn : conns sys !! ws = Some Closed).
    { unfold phase_of in Hph. destruct (conns sys !! ws); cbn in Hph; congruence. }
    cbn [turn ret fst snd]. split; [exact Hs|]. intros v w. cbn [shared conns fst].
    rewrite insert_id by exact Hconn. apply Hl.
Qed.

Lemma exec_from_sound sched : forall sys,
  sound sys -> sound (foldl (fun sys a => (step sys a).1) sys sched).
Proof.
  induction sched as [|a sched IH]; intros sys Hs; [exact Hs|].
  cbn [foldl]. apply IH, step_sound, Hs.
Qed.

(** Every state the server reaches is sound. *)
Lemma exec_sound fs sched : sound (exec fs sched).
Proof. apply exec_from_sound, sound_boot. Qed.

(** C1. In every state the server reaches, a user with an active
    session has a current room, that room is a key of [rooms], and the user
    is one of its members.  The schedule ranges over every turn a
    connection can take (login, message, room listing, [join_room], faults
    and disconnects with their cleanup), so each of them keeps the
    property. *)
Theorem active_user_is_member_of_its_room fs sched u :
  is_Some (clients (shared (exec fs sched)) !! u) ->
  exists r m,
    user_rooms (shared (exec fs sched)) !! u = Some r
    /\ rooms (shared (exec fs sched)) !! r = Some m
    /\ u ∈ m.
Proof.
  intros Hu. destruct (exec_sound fs sched) as [Hs _].
  exact (in_own_room _ Hs u Hu).
Qed.

(** C3. In a reachable state, when the first frame of a connection is a
    login whose trimmed username already has a session, the turn ends with
    the connection closed and the shared state exactly as it was; the
    handler sends the "already in use" error to that connection and, the
    send having gone through, closes it. *)
Theorem duplicate_login_is_refused fs sched a fields name other :
  phase_of (exec fs sched) (a_ws a) = AwaitingLogin ->
  decodes_to (a_in a) fields ->
  assoc "type" fields = Some (JStr "login") ->
  assoc "username" fields = Some (JStr name) ->
  clients (shared (exec fs sched)) !! Py.strip name = Some other ->
  step (exec fs sched) a
  = (System (shared (exec fs sched)) (<[a_ws a := Closed]> (conns (exec fs sched))),
     refusal (a_net a) (a_ws a) msg_in_use).
Proof.
  intros Hph (raw & Hin & Hraw) Hty Hname Htaken.
  destruct (exec_sound fs sched) as [Hs _].
  assert (Hne : Py.strip name <> "").
  { intros E. rewrite E, (no_empty_name _ Hs) in Htaken. discriminate. }
  unfold step. rewrite Hph, Hin, turn_awaiting_clock.
  rewrite (handshake_taken _ _ _ _ _ _ _ Hraw Hty Hname Hne Htaken). reflexivity.
Qed.

(** *** Who receives a broadcast *)

Lemma elem_of_deliveries net s obj room exclude u ws :
  clients s !! u = Some ws ->
  addressed s room exclude u ->
  SendText ws (json_dumps obj) (net ws) ∈ deliveries net s obj room exclude.
Proof.
  intros Hu Ha. unfold deliveries. apply list_elem_of_fmap.
  exists (u, ws). split; [reflexivity|].
  apply list_elem_of_filter. split; [exact Ha|].
  apply elem_of_map_to_list. exact Hu.
Qed.

Lemma addressed_room s room u :
  user_rooms s !! u = Some room -> addressed s (Some room) None u.
Proof. intros H. split; [discriminate|auto]. Qed.

(** In a consistent state a broadcast to a room reaches every member. *)
Lemma members_are_reached net s obj room m u :
  consistent s -> rooms s !! room = Some m -> u ∈ m ->
  exists ws, clients s !! u = Some ws
    /\ SendText ws (json_dumps obj) (net ws) ∈ deliveries net s obj (Some room) None.
Proof.
  intros Hs Hm Hu. destruct (member_is_active _ Hs room m u Hm Hu) as [[ws Hws] Hroom].
  exists ws. split; [exact Hws|].
  apply (elem_of_deliveries _ _ _ _ _ u); [exact Hws|apply addressed_room, Hroom].
Qed.

(** *** Replaying a room's history *)

Lemma for_each_send_ok ws net s (h : list json) :
  net ws = true ->
  for_each h (send_json ws) net s
  = (Return tt, s, (fun m => SendText ws (json_dumps m) true) <$> h).
Proof.
  intros Hup. rewrite (for_each_quiet _ (fun m => [SendText ws (json_dumps m) true])).
  - f_equal. induction h as [|m h IH]; [reflexivity|]. cbn. rewrite IH. reflexivity.
  - intros m _. unfold send_json. rewrite Hup. reflexivity.
Qed.

Lemma send_history_ok ws room net s h :
  net ws = true ->
  loadable room s ->
  history_cache (ensured room s) !! room = Some h ->
  send_history ws room net s
  = (Return tt, ensured room s, (fun m => SendText ws (json_dumps m) true) <$> h).
Proof.
  intros Hup Hload Hh. unfold send_history.
  rewrite (bind_return _ _ _ _ _ _ _ (ensure_room_run room net s Hload)).
  cbv beta iota zeta delta [bind get_state result_of state_of effects_of].
  rewrite Hh. rewrite (for_each_send_ok _ _ _ _ Hup). reflexivity.
Qed.

(** *** Joining the room one is already in *)

Lemma moved_same u r s :
  user_rooms s !! u = Some r ->
  is_Some (rooms s !! r) -> is_Some (history_cache s !! r) ->
  moved u r s = s.
Proof.
  intros Hu Hr Hh. unfold moved. rewrite (ensured_id r s Hr Hh). cbv zeta.
  rewrite Hu. cbn. rewrite decide_True by reflexivity. reflexivity.
Qed.

Lemma loop_turn_rejoin ws u raw fields name r h now net s :
  json_loads raw = Some (JObj fields) ->
  assoc "type" fields = Some (JStr "join_room") ->
  assoc "room" fields = Some (JStr name) ->
  Py.strip name = r -> r <> "" ->
  user_rooms s !! u = Some r ->
  is_Some (rooms s !! r) -> history_cache s !! r = Some h ->
  net ws = true ->
  loop_turn ws u (Text raw) now net s
  = (Return tt, s,
     [SendText ws (json_dumps (info_event r)) true]
     ++ ((fun m => SendText ws (json_dumps m) true) <$> h)
     ++ deliveries net s (presence_event "user_left_room" u r (room_users s r)) (Some r) None
     ++ deliveries net s (presence_event "user_joined_room" u r (room_users s r))
          (Some r) (Some u)).
Proof.
  intros Hraw Hty Hroom Hstrip Hne Hu Hr Hh Hup.
  assert (Htruthy : truthy (JStr name) = true).
  { cbn. destruct name; [|reflexivity]. cbn in Hstrip. congruence. }
  assert (Hmoved : moved u r s = s) by (apply moved_same; eauto).
  assert (Hens : ensured r s = s) by (apply ensured_id; eauto).
  unfold loop_turn.
  cbv beta iota zeta delta [bind receive_text loads dict_get or_empty_strip get_state ret].
  rewrite Hraw. cbv beta iota zeta. rewrite Hty, Hroom.
  cbn [from_option]. unfold id.
  change (is_str (JStr "join_room") "message") with false.
  change (is_str (JStr "join_room") "rooms") with false.
  change (is_str (JStr "join_room") "room_who") with false.
  change (is_str (JStr "join_room") "join_room") with true.
  cbv beta iota zeta. rewrite Htruthy. cbv beta iota zeta. rewrite Hstrip.
  apply is_empty_false in Hne. rewrite Hne.
  assert (Hload : loadable r s) by (left; eauto).
  rewrite (join_room_run _ _ _ _ Hload), Hmoved. cbv beta iota zeta. cbn [fst snd].
  unfold send_json at 1. rewrite Hup.
  rewrite (send_history_ok ws r net s h Hup Hload) by (rewrite Hens; exact Hh).
  rewrite Hens, !broadcast_run. cbn [app]. rewrite Hu.
  reflexivity.
Qed.

(** C9. In a reachable state, when an active user asks to join the room
    it is already in (and its own socket takes frames), nothing changes in
    the shared state, so in particular not in the member sets nor in
    [user_rooms]; yet the handler sends the join confirmation, replays the
    cached history of the room, broadcasts [user_left_room] to the room
    with nobody excluded, then [user_joined_room] to the others.  Hence
    every member of the room, the sender included, is sent a
    [user_left_room] event although nobody left. *)
Theorem rejoining_current_room_announces_a_leave fs sched a u r fields name :
  phase_of (exec fs sched) (a_ws a) = Active u ->
  user_rooms (shared (exec fs sched)) !! u = Some r ->
  decodes_to (a_in a) fields ->
  assoc "type" fields = Some (JStr "join_room") ->
  assoc "room" fields = Some (JStr name) ->
  Py.strip name = r ->
  a_net a (a_ws a) = true ->
  let s := shared (exec fs sched) in
  let left := presence_event "user_left_room" u r (room_users s r) in
  exists h m,
    history_cache s !! r = Some h
    /\ rooms s !! r = Some m
    /\ u ∈ m
    /\ step (exec fs sched) a
       = (exec fs sched,
          [SendText (a_ws a) (json_dumps (info_event r)) true]
          ++ ((fun msg => SendText (a_ws a) (json_dumps msg) true) <$> h)
          ++ deliveries (a_net a) s left (Some r) None
          ++ deliveries (a_net a) s
               (presence_event "user_joined_room" u r (room_users s r)) (Some r) (Some u))
    /\ forall v, v ∈ m ->
         exists wv, clients s !! v = Some wv
           /\ SendText wv (json_dumps left) (a_net a wv)
                ∈ deliveries (a_net a) s left (Some r) None.
Proof.
  intros Hph Hroom (raw & Hin & Hraw) Hty Hfield Hstrip Hup s left.
  destruct (exec_sound fs sched) as [Hs Hl]. fold s in Hs.
  pose proof (conns_of_phase _ _ _ Hph) as Hconn.
  pose proof (proj2 (Hl u (a_ws a)) Hconn) as Hu. fold s in Hu.
  destruct (in_own_room _ Hs u ltac:(eauto)) as (r' & m & Hr' & Hm & Hum).
  assert (r' = r) as -> by (fold s in Hroom; congruence).
  destruct (room_is_cached _ Hs u r Hr') as [Hne [h Hh]].
  assert (Hu_ne : u <> "").
  { intros ->. rewrite (no_empty_name _ Hs) in Hu. discriminate. }
  exists h, m. split; [exact Hh|]. split; [exact Hm|]. split; [exact Hum|]. split.
  - unfold step. rewrite Hph. rewrite (turn_active_run _ _ _ _ _ _ Hu_ne). rewrite Hin.
    rewrite (loop_turn_rejoin _ _ _ _ _ r h _ _ _ Hraw Hty Hfield Hstrip Hne Hr'
               ltac:(eauto) Hh Hup).
    cbn [result_of state_of effects_of fst snd]. cbv zeta.
    rewrite insert_id by exact Hconn. fold s. destruct (exec fs sched); reflexivity.
  - intros v Hv. apply (members_are_reached _ _ _ _ m); assumption.
Qed.

(** *** The end of a session *)

Lemma not_in_online_users s u : clients s !! u = None -> u ∉ online_users s.
Proof.
  intros Hu. unfold online_users.
  rewrite elem_of_sorted, elem_of_elements, elem_of_dom, Hu.
  intros [? ?]. discriminate.
Qed.

Lemma not_in_room_users s u :
  (forall r m, rooms s !! r = Some m -> u ∉ m) -> forall r, u ∉ room_users s r.
Proof.
  intros Hu r. unfold room_users. rewrite elem_of_sorted, elem_of_elements.
  destruct (rooms s !! r) as [m|] eqn:Hm; cbn; [eauto|set_solver].
Qed.

Lemma loop_turn_gone ws u now net s :
  loop_turn ws u Gone now net s = (Raise WebSocketDisconnect, s, []).
Proof. reflexivity. Qed.

(** A pass through the loop of [u] moves nobody but [u]. *)
Lemma loop_turn_moves_only u ws i now net s v :
  v <> u ->
  user_rooms (state_of (loop_turn ws u i now net s)) !! v = user_rooms s !! v.
Proof.
  intros Hvu.
  assert (Hst : stable (fun s1 => user_rooms s1 !! v = user_rooms s !! v)
                  (loop_turn ws u i now)).
  { apply stable_loop_turn_with.
    - intros room s1 Hs1 _. rewrite (grows_user_rooms _ _ (ensured_grows room s1)).
      exact Hs1.
    - intros room s1 Hs1. rewrite (grows_user_rooms _ _ (opened_grows room s1)).
      exact Hs1.
    - intros room payload net1 s1 Hs1.
      rewrite (grows_user_rooms _ _ (append_history_grows room payload net1 s1)).
      exact Hs1.
    - intros new_room _ net1 s1 Hs1.
      destruct (join_room_outcome u new_room net1 s1) as [[E _]|[E _]]; rewrite E;
        cbn [state_of fst snd].
      + unfold moved. cbv zeta.
        pose proof (grows_user_rooms _ _ (ensured_grows new_room s1)) as Hg.
        destruct (decide _); cbn; [rewrite Hg; exact Hs1|].
        rewrite lookup_insert_ne by congruence. rewrite Hg. exact Hs1.
      + rewrite (grows_user_rooms _ _ (opened_grows new_room s1)). exact Hs1. }
  apply Hst. reflexivity.
Qed.

(** C6. In a reachable state, when the turn of an active user [u] ends
    its connection (the client is gone, or the pass through the loop
    faults), [u] has no session any more and is a member of no room, so it
    is listed neither by [online_users()] nor by [room_users] of any room.
    Let [body] be the pass through the loop that was left: the room [u] is
    taken out of is its current room in the state [body] left, whose other
    members all stay; what the turn sends is what [body] had sent, followed
    by the [user_left] broadcast to that room, which is addressed to every
    remaining member; each of them was in that room before the turn.  When
    the client is simply gone, [body] has sent nothing and changed
    nothing, so the room is the one [u] was in before the turn. *)
Theorem ended_session_is_removed_and_announced fs sched a u :
  phase_of (exec fs sched) (a_ws a) = Active u ->
  phase_of (step (exec fs sched) a).1 (a_ws a) = Closed ->
  let s := shared (exec fs sched) in
  let body := loop_turn (a_ws a) u (a_in a) (a_now a) (a_net a) s in
  let s' := shared (step (exec fs sched) a).1 in
  let sent := (step (exec fs sched) a).2 in
  clients s' !! u = None
  /\ (forall r m, rooms s' !! r = Some m -> u ∉ m)
  /\ (u ∉ online_users s')
  /\ (forall r, u ∉ room_users s' r)
  /\ exists room m,
       user_rooms (state_of body) !! u = Some room
       /\ rooms (state_of body) !! room = Some m
       /\ u ∈ m
       /\ clients (state_of body) = clients s
       /\ s' = removed u (state_of body)
       /\ rooms s' !! room = Some (m ∖ {[u]})
       /\ sent = effects_of body ++ farewell (a_net a) u room s'
       /\ (a_in a = Gone -> effects_of body = [] /\ state_of body = s)
       /\ forall v, v ∈ m ∖ {[u]} ->
            exists wv, clients s !! v = Some wv
              /\ user_rooms s !! v = Some room
              /\ clients s' !! v = Some wv
              /\ SendText wv
                   (json_dumps (presence_event "user_left" u room (room_users s' room)))
                   (a_net a wv) ∈ farewell (a_net a) u room s'.
Proof.
  intros Hph Hclosed s body s' sent.
  pose proof (step_sound _ a (exec_sound fs sched)) as [Hs' _]. fold s' in Hs'.
  destruct (exec_sound fs sched) as [Hs Hl]. fold s in Hs.
  pose proof (conns_of_phase _ _ _ Hph) as Hconn.
  pose proof (proj2 (Hl u (a_ws a)) Hconn) as Hu. fold s in Hu.
  assert (Hne : u <> "").
  { intros ->. rewrite (no_empty_name _ Hs) in Hu. discriminate. }
  destruct (stable_loop_turn (clients s) (a_ws a) u (a_in a)
              (a_now a) ltac:(eauto) (a_net a) _ (conj Hs eq_refl)) as [Hs1 Hc1].
  fold body in Hs1, Hc1.
  assert (Hgone : a_in a = Gone -> body = (Raise WebSocketDisconnect, s, [])).
  { intros Hin. subst body. rewrite Hin. apply loop_turn_gone. }
  subst s' sent. revert Hclosed Hs'. unfold step. rewrite Hph.
  rewrite (turn_active_run _ _ _ _ _ _ Hne). cbv zeta. fold s. fold body.
  destruct (result_of body) as [[]|e] eqn:Hres; cbn [fst snd shared conns].
  { unfold phase_of. cbn [conns]. rewrite lookup_insert_eq. discriminate. }
  intros _ Hs'.
  assert (Hnone : clients (removed u (state_of body)) !! u = None).
  { rewrite clients_removed. apply lookup_delete_eq. }
  assert (Hout : forall room m, rooms (removed u (state_of body)) !! room = Some m -> u ∉ m).
  { intros room m Hm Hum. destruct (member_is_active _ Hs' room m u Hm Hum) as [[w Hw] _].
    congruence. }
  split; [exact Hnone|]. split; [exact Hout|].
  split; [apply not_in_online_users, Hnone|].
  split; [apply not_in_room_users, Hout|].
  assert (Hin1 : is_Some (clients (state_of body) !! u)) by (rewrite Hc1; eauto).
  destruct (in_own_room _ Hs1 u Hin1) as (room & mr & Hroom & Hmr & Humr).
  assert (Hrest : rooms (removed u (state_of body)) !! room = Some (mr ∖ {[u]})).
  { unfold removed. cbn. rewrite Hroom. cbn. rewrite Hmr. apply lookup_insert_eq. }
  exists room, mr.
  rewrite Hroom. cbn [default from_option]. unfold id.
  split; [reflexivity|]. split; [exact Hmr|]. split; [exact Humr|].
  split; [exact Hc1|]. split; [reflexivity|]. split; [exact Hrest|].
  split; [reflexivity|]. split.
  - intros Hin. rewrite (Hgone Hin). split; reflexivity.
  - intros v Hv.
    destruct (members_are_reached (a_net a) _
                (presence_event "user_left" u room
                   (room_users (removed u (state_of body)) room))
                room _ v Hs' Hrest Hv) as (wv & Hwv & Hsent).
    exists wv. split; [|split; [|split; [exact Hwv|exact Hsent]]].
    + rewrite clients_removed, Hc1 in Hwv.
      apply lookup_delete_Some in Hwv as [_ Hwv]. exact Hwv.
    + assert (Hvm : v ∈ mr) by set_solver.
      assert (Hvu : v <> u) by set_solver.
      destruct (member_is_active _ Hs1 room mr v Hmr Hvm) as [_ Hcur].
      subst body. rewrite (loop_turn_moves_only _ _ _ _ _ _ _ Hvu) in Hcur. exact Hcur.
Qed.

(** *** The bound on every cache *)

(** No cache holds more than 50 records. *)
Definition cache_bounded (s : state) : Prop :=
  forall r h, history_cache s !! r = Some h -> (length h <= 50)%nat.

Lemma cache_bounded_ensured room s : cache_bounded s -> cache_bounded (ensured room s).
Proof.
  intros Hb r h. unfold ensured.
  destruct (rooms s !! room); cbn [history_cache set_rooms];
    destruct (history_cache s !! room) eqn:Hc; cbn [history_cache set_history_cache];
    try apply Hb;
    (destruct (decide (room = r)) as [<-|Hne];
     [rewrite lookup_insert_eq; intros [= <-]; apply length_loaded
     |rewrite lookup_insert_ne by exact Hne; apply Hb]).
Qed.

Lemma cache_bounded_opened room s : cache_bounded s -> cache_bounded (opened room s).
Proof. intros Hb. unfold opened. destruct (rooms s !! room); exact Hb. Qed.

Lemma stable_append_history_bounded room payload :
  stable cache_bounded (append_history room payload).
Proof.
  intros net s Hb. rewrite append_history_outcome.
  destruct (Py.name_fits (room_log_path room)); [|exact Hb].
  destruct (utf8_ok (line_of payload)); [|exact Hb].
  destruct (history_cache s !! room) as [h|] eqn:Hh; [|exact Hb].
  pose proof (Hb room h Hh) as Hlen.
  unfold state_of, logged. cbn [fst snd]. rewrite Hh. cbn [default from_option]. unfold id.
  intros r h' Hr. cbn in Hr.
  destruct (decide (room = r)) as [<-|Hne];
    [rewrite lookup_insert_eq in Hr; injection Hr as <-
    |rewrite lookup_insert_ne in Hr by exact Hne; eapply Hb; exact Hr].
  unfold MAX_HISTORY.
  destruct (50 <? Z.of_nat (length (h ++ [payload])))%Z eqn:E.
  - destruct h as [|x t]; cbn in *; [lia|]. rewrite length_app. cbn. lia.
  - apply Z.ltb_ge in E. lia.
Qed.

Lemma stable_join_room_bounded u new_room : stable cache_bounded (join_room u new_room).
Proof.
  intros net s Hb.
  destruct (join_room_outcome u new_room net s) as [[E _]|[E _]]; rewrite E;
    cbn [state_of fst snd]; [|apply cache_bounded_opened, Hb].
  unfold moved. cbv zeta. destruct (decide _); cbn; apply cache_bounded_ensured, Hb.
Qed.

Lemma stable_turn_bounded ws ph i now : stable cache_bounded (turn ws ph i now).
Proof.
  assert (Hcleanup : forall o, stable cache_bounded (cleanup o)).
  { intros [u|]; [|apply stable_ret]. unfold cleanup.
    destruct (Py.is_empty u); [apply stable_ret|].
    stable_auto; try (apply stable_modify; intros s Hs; exact Hs).
    apply stable_try, stable_broadcast. }
  assert (Henter : forall u, stable cache_bounded (enter ws u)).
  { intros u. unfold enter. stable_auto;
      try (apply stable_modify; intros s Hs; exact Hs).
    - apply stable_ensure_room; intros s Hs;
        [intros _; apply cache_bounded_ensured|apply cache_bounded_opened]; exact Hs.
    - destruct (rooms _ !! "general");
        [apply stable_modify; intros s Hs; exact Hs|apply stable_raise].
    - apply stable_send_history; intros s Hs;
        [intros _; apply cache_bounded_ensured|apply cache_bounded_opened]; exact Hs. }
  assert (Hhand : stable cache_bounded (handshake ws i)).
  { unfold handshake. stable_auto. all: destruct (clients _ !! _); stable_auto. }
  assert (Hloop : forall u, stable cache_bounded (loop_turn ws u i now)).
  { intros u. apply stable_loop_turn_with.
    - intros room s Hs _. apply cache_bounded_ensured, Hs.
    - intros room s. apply cache_bounded_opened.
    - apply stable_append_history_bounded.
    - intros new_room _. apply stable_join_room_bounded. }
  destruct ph as [|u|]; unfold turn.
  - apply stable_bind; [apply stable_try, Hhand|intros [[u|]|e]].
    + apply stable_bind; [apply stable_try, Henter|intros [[]|e]]; stable_auto;
        apply Hcleanup.
    + stable_auto; apply Hcleanup.
    + stable_auto; apply Hcleanup.
  - apply stable_bind; [apply stable_try, Hloop|intros [[]|e]]; stable_auto;
      apply Hcleanup.
  - apply stable_ret.
Qed.

(** In every state the server reaches, no cache exceeds 50 records. *)
Lemma exec_cache_bounded fs sched : cache_bounded (shared (exec fs sched)).
Proof.
  unfold exec.
  assert (H : forall sys, cache_bounded (shared sys) ->
            cache_bounded (shared (foldl (fun sys a => (step sys a).1) sys sched))).
  { induction sched as [|a sched IH]; intros sys Hb; [exact Hb|].
    cbn [foldl]. apply IH. unfold step.
    pose proof (stable_turn_bounded (a_ws a) (phase_of sys (a_ws a)) (a_in a) (a_now a)
                  (a_net a) (shared sys) Hb) as Hs.
    unfold state_of in Hs.
    destruct (turn _ _ _ _ _ _) as [[r s'] out]. exact Hs. }
  apply H. intros r h Hr. cbn in Hr. rewrite lookup_empty in Hr. discriminate.
Qed.

(** *** Sessions, sockets and rooms in the states the server reaches *)

Lemma active_session fs sched ws u :
  phase_of (exec fs sched) ws = Active u ->
  consistent (shared (exec fs sched))
  /\ conns (exec fs sched) !! ws = Some (Active u)
  /\ clients (shared (exec fs sched)) !! u = Some ws
  /\ u <> "".
Proof.
  intros Hph. destruct (exec_sound fs sched) as [Hs Hl].
  pose proof (conns_of_phase _ _ _ Hph) as Hconn.
  pose proof (proj2 (Hl u ws) Hconn) as Hu.
  split; [exact Hs|]. split; [exact Hconn|]. split; [exact Hu|].
  intros ->. rewrite (no_empty_name _ Hs) in Hu. discriminate.
Qed.

(** X1. In every state the server reaches, a socket serves at most one
    user: two registered usernames never share a websocket, and the
    connection behind a registered socket is in its message loop under
    that very name. *)
Theorem socket_serves_one_user fs sched u v ws :
  clients (shared (exec fs sched)) !! u = Some ws ->
  clients (shared (exec fs sched)) !! v = Some ws ->
  u = v /\ phase_of (exec fs sched) ws = Active u.
Proof.
  intros Hu Hv. destruct (exec_sound fs sched) as [_ Hl].
  apply Hl in Hu. apply Hl in Hv. split; [congruence|].
  unfold phase_of. rewrite Hu. reflexivity.
Qed.

(** X2. In every state the server reaches, the member sets are
    disjoint and hold online users only: a member of a room has a session,
    that room is its current room, and it is a member of no other room. *)
Theorem member_of_exactly_one_room fs sched r m u :
  rooms (shared (exec fs sched)) !! r = Some m ->
  u ∈ m ->
  is_Some (clients (shared (exec fs sched)) !! u)
  /\ user_rooms (shared (exec fs sched)) !! u = Some r
  /\ forall r' m', rooms (shared (exec fs sched)) !! r' = Some m' -> u ∈ m' -> r' = r.
Proof.
  intros Hr Hu. destruct (exec_sound fs sched) as [Hs _].
  destruct (member_is_active _ Hs r m u Hr Hu) as [Hact Hcur].
  split; [exact Hact|]. split; [exact Hcur|].
  intros r' m' Hr' Hu'.
  destruct (member_is_active _ Hs r' m' u Hr' Hu') as [_ Hcur']. congruence.
Qed.

(** *** What no turn undoes *)

(** A turn keeps every state predicate that the primitive updates of the
    handler keep. *)
Lemma stable_turn_with (I : state -> Prop) ws ph i now :
  (forall f s, I s -> I (set_clients f s)) ->
  (forall f s, I s -> I (set_user_rooms f s)) ->
  (forall room members s, I s -> I (set_rooms <[room := members]> s)) ->
  (forall room u s, I s ->
     I (set_rooms (fun r => match r !! room with
                            | Some m => <[room := m ∖ {[u]}]> r
                            | None => r
                            end) s)) ->
  (forall room s, I s -> loadable room s -> I (ensured room s)) ->
  (forall room payload, stable I (append_history room payload)) ->
  stable I (turn ws ph i now).
Proof.
  intros Hclients Huser Hset Hdiscard Hens Happ.
  assert (Hopen : forall room s, I s -> I (opened room s)).
  { intros room s Hs. unfold opened. destruct (rooms s !! room); [exact Hs|].
    apply Hset, Hs. }
  assert (Hjoin : forall u new_room, stable I (join_room u new_room)).
  { intros u new_room net s Hs.
    destruct (join_room_outcome u new_room net s) as [[E Hload]|[E _]]; rewrite E;
      cbn [state_of fst snd]; [|apply Hopen, Hs].
    unfold moved. cbv zeta. destruct (decide _); [apply Hens; assumption|].
    apply Huser. unfold add_member, discard_member.
    set (s1 := ensured new_room s).
    set (old := default "general" (user_rooms s1 !! u)).
    assert (H1 : I (set_rooms (fun r => match r !! old with
                                        | Some m => <[old := m ∖ {[u]}]> r
                                        | None => <[old := ∅]> r
                                        end) s1)).
    { destruct (rooms s1 !! old) as [mo|] eqn:Hmo.
      - replace (set_rooms _ s1) with (set_rooms <[old := mo ∖ {[u]}]> s1)
          by (unfold set_rooms; rewrite Hmo; reflexivity).
        apply Hset, Hens; assumption.
      - replace (set_rooms _ s1) with (set_rooms <[old := ∅]> s1)
          by (unfold set_rooms; rewrite Hmo; reflexivity).
        apply Hset, Hens; assumption. }
    match goal with
    | |- I (set_rooms (fun r => <[?k := @?v r]> r) ?st) =>
        replace (set_rooms (fun r => <[k := v r]> r) st)
          with (set_rooms <[k := v (rooms st)]> st) by reflexivity
    end.
    apply Hset, H1. }
  assert (Hcleanup : forall o, stable I (cleanup o)).
  { intros [u|]; [|apply stable_ret]. unfold cleanup.
    destruct (Py.is_empty u); [apply stable_ret|].
    stable_auto.
    - apply stable_modify. intros s. apply Hclients.
    - apply stable_modify. intros s. apply Huser.
    - apply stable_modify. intros s. apply Hdiscard.
    - apply stable_try, stable_broadcast. }
  assert (Henter : forall u, stable I (enter ws u)).
  { intros u. unfold enter. stable_auto.
    - apply stable_modify. intros s. apply Hclients.
    - apply stable_ensure_room; intros s; [apply Hens|apply Hopen].
    - destruct (rooms _ !! "general"); [|apply stable_raise].
      apply stable_modify. intros s. apply Hset.
    - apply stable_modify. intros s. apply Huser.
    - apply stable_send_history; intros s; [apply Hens|apply Hopen]. }
  assert (Hhand : stable I (handshake ws i)).
  { unfold handshake. stable_auto. all: destruct (clients _ !! _); stable_auto. }
  assert (Hloop : forall u, stable I (loop_turn ws u i now)).
  { intros u. apply stable_loop_turn_with.
    - exact Hens.
    - exact Hopen.
    - exact Happ.
    - intros new_room _. apply Hjoin. }
  destruct ph as [|u|]; unfold turn.
  - apply stable_bind; [apply stable_try, Hhand|intros [[u|]|e]].
    + apply stable_bind; [apply stable_try, Henter|intros [[]|e]]; stable_auto;
        apply Hcleanup.
    + stable_auto; apply Hcleanup.
    + stable_auto; apply Hcleanup.
  - apply stable_bind; [apply stable_try, Hloop|intros [[]|e]]; stable_auto;
      apply Hcleanup.
  - apply stable_ret.
Qed.

(** The state after a schedule continued by further turns. *)
Lemma exec_app fs sched more :
  exec fs (sched ++ more)
  = foldl (fun sys a => (step sys a).1) (exec fs sched) more.
Proof. unfold exec. apply foldl_app. Qed.

Lemma stable_schedule (I : state -> Prop) :
  (forall ws ph i now, stable I (turn ws ph i now)) ->
  forall more sys, I (shared sys) ->
    I (shared (foldl (fun sys a => (step sys a).1) sys more)).
Proof.
  intros Hturn. induction more as [|a more IH]; intros sys Hs; [exact Hs|].
  cbn [foldl]. apply IH. unfold step.
  pose proof (Hturn (a_ws a) (phase_of sys (a_ws a)) (a_in a) (a_now a)
                (a_net a) (shared sys) Hs) as H.
  unfold state_of in H. destruct (turn _ _ _ _ _ _) as [[r s'] out]. exact H.
Qed.

Lemma string_app_assoc a b c : (a +:+ b) +:+ c = a +:+ (b +:+ c).
Proof.
  induction a as [|x a IH]; [reflexivity|].
  change ((String x a +:+ b) +:+ c) with (String x ((a +:+ b) +:+ c)).
  change (String x a +:+ (b +:+ c)) with (String x (a +:+ (b +:+ c))).
  rewrite IH. reflexivity.
Qed.

Lemma string_app_empty_r a : a +:+ "" = a.
Proof.
  induction a as [|x a IH]; [reflexivity|].
  change (String x a +:+ "") with (String x (a +:+ "")). rewrite IH. reflexivity.
Qed.

(** Whatever [append_history] does, a file that was there is still
    there, with its content extended. *)
Lemma append_history_extends room payload net s name f :
  data_dir s !! name = Some f ->
  exists suffix,
    data_dir (state_of (append_history room payload net s)) !! name
    = Some (File (readable f) (content f +:+ suffix)).
Proof.
  intros Hf.
  assert (Hsame : exists suffix,
            data_dir s !! name = Some (File (readable f) (content f +:+ suffix))).
  { exists "". rewrite string_app_empty_r. destruct f. exact Hf. }
  assert (Hwritten : exists suffix,
            data_dir (written room payload s) !! name
            = Some (File (readable f) (content f +:+ suffix))).
  { unfold written. cbn.
    destruct (decide (room_log_path room = name)) as [<-|Hne].
    - rewrite Hf, lookup_insert_eq. eexists. reflexivity.
    - destruct (data_dir s !! room_log_path room);
        rewrite lookup_insert_ne by exact Hne; exact Hsame. }
  rewrite append_history_outcome.
  destruct (Py.name_fits (room_log_path room)); [|exact Hsame].
  destruct (utf8_ok (line_of payload)).
  - destruct (history_cache s !! room); exact Hwritten.
  - unfold touched, state_of. cbn.
    destruct (data_dir s !! room_log_path room) as [g|] eqn:Hg; [exact Hsame|].
    rewrite lookup_insert_ne by congruence. exact Hsame.
Qed.

Lemma stable_turn_room r ws ph i now :
  stable (fun s => is_Some (rooms s !! r)) (turn ws ph i now).
Proof.
  apply stable_turn_with.
  - intros f s Hs. exact Hs.
  - intros f s Hs. exact Hs.
  - intros room members s Hs. cbn. apply lookup_insert_is_Some'. right. exact Hs.
  - intros room u s Hs. cbn. destruct (rooms s !! room); [|exact Hs].
    apply lookup_insert_is_Some'. right. exact Hs.
  - intros room s [m Hm] _.
    destruct (grows_rooms _ _ (ensured_grows room s) r) as [E|[E _]];
      [rewrite E; eauto|congruence].
  - intros room payload net s [m Hm].
    destruct (grows_rooms _ _ (append_history_grows room payload net s) r)
      as [E|[E _]]; [rewrite E; eauto|congruence].
Qed.

(** The room ["general"] exists from import time on. *)
Lemma general_room_exists fs sched :
  is_Some (rooms (shared (exec fs sched)) !! "general").
Proof.
  apply (stable_schedule (fun s => is_Some (rooms s !! "general"))).
  - intros ws ph i now. apply stable_turn_room.
  - cbn. rewrite lookup_singleton_eq. eauto.
Qed.

(** X3. A room is never removed: once a name is a key of [rooms] it
    stays one whatever turns follow (logins, moves, disconnects, faults),
    also when its last member has left, and [list_rooms()] keeps listing
    it. *)
Theorem rooms_are_never_removed fs sched more r :
  is_Some (rooms (shared (exec fs sched)) !! r) ->
  is_Some (rooms (shared (exec fs (sched ++ more))) !! r)
  /\ r ∈ list_rooms (shared (exec fs (sched ++ more))).
Proof.
  intros Hr.
  assert (H : is_Some (rooms (shared (exec fs (sched ++ more))) !! r)).
  { rewrite exec_app.
    apply (stable_schedule (fun s => is_Some (rooms s !! r))); [|exact Hr].
    intros ws ph i now. apply stable_turn_room. }
  split; [exact H|]. apply elem_of_list_rooms. left. exact H.
Qed.

(** X4. A history file is only ever appended to: whatever turns follow,
    a file of the data directory is still there, as readable as it was,
    and its old content is a prefix of its new content.  Nothing is
    deleted, truncated or rewritten. *)
Theorem history_files_only_grow fs sched more name f :
  data_dir (shared (exec fs sched)) !! name = Some f ->
  exists suffix,
    data_dir (shared (exec fs (sched ++ more))) !! name
    = Some (File (readable f) (content f +:+ suffix)).
Proof.
  intros Hf. rewrite exec_app.
  apply (stable_schedule
           (fun s => exists suffix,
                data_dir s !! name = Some (File (readable f) (content f +:+ suffix)))).
  - intros ws ph i now. apply stable_turn_with.
    + intros g s Hs. exact Hs.
    + intros g s Hs. exact Hs.
    + intros room members s Hs. exact Hs.
    + intros room u s Hs. exact Hs.
    + intros room s Hs _. rewrite ensured_data_dir. exact Hs.
    + intros room payload net s [suffix Hs].
      destruct (append_history_extends room payload net s name _ Hs) as [more' Hm].
      cbn [readable content] in Hm. exists (suffix +:+ more').
      rewrite Hm, string_app_assoc. reflexivity.
  - exists "". rewrite string_app_empty_r. destruct f. exact Hf.
Qed.

(** X5. In every state the server reaches, no history cache holds more
    than 50 records, so a history replay sends at most 50 messages. *)
Theorem caches_hold_at_most_50 fs sched r h :
  history_cache (shared (exec fs sched)) !! r = Some h ->
  (length h <= 50)%nat.
Proof. intros Hh. exact (exec_cache_bounded fs sched r h Hh). Qed.

(** *** Who is sent what *)

Lemma deliveries_ext net s s' obj room exclude :
  clients s' = clients s -> user_rooms s' = user_rooms s ->
  deliveries net s' obj room exclude = deliveries net s obj room exclude.
Proof.
  intros Hc Hu. unfold deliveries. rewrite Hc. f_equal.
  apply list_filter_iff. intros [u ws]. unfold addressed. rewrite Hu. reflexivity.
Qed.

Lemma elem_of_deliveries_inv net s obj room exclude e :
  e ∈ deliveries net s obj room exclude ->
  exists u ws, e = SendText ws (json_dumps obj) (net ws)
    /\ clients s !! u = Some ws /\ addressed s room exclude u.
Proof.
  unfold deliveries. intros He. apply list_elem_of_fmap in He as ([u ws] & -> & Hin).
  apply list_elem_of_filter in Hin as [Ha Hin]. apply elem_of_map_to_list in Hin.
  exists u, ws. auto.
Qed.

(** The socket an effect is addressed to. *)
Definition socket_of (e : effect) : WebSocket :=
  match e with
  | SendText ws _ _ => ws
  | CloseWs ws => ws
  end.

(** The history replay to [ws]: the cached records, oldest first. *)
Definition replay (ws : WebSocket) (h : list json) : list effect :=
  (fun msg => SendText ws (json_dumps msg) true) <$> h.

(** *** An accepted login *)

Lemma handshake_accept ws raw fields name net s :
  json_loads raw = Some (JObj fields) ->
  assoc "type" fields = Some (JStr "login") ->
  assoc "username" fields = Some (JStr name) ->
  Py.strip name <> "" ->
  clients s !! Py.strip name = None ->
  handshake ws (Text raw) net s = (Return (Some (Py.strip name)), s, []).
Proof.
  intros Hraw Hty Hname Hne Hfree. unfold handshake.
  cbv beta iota zeta delta
    [bind get_state receive_text loads dict_get or_empty_strip ret raise].
  rewrite Hraw. cbv beta iota zeta. rewrite Hty, Hname.
  cbn [from_option]; unfold id; cbn [is_str negb].
  rewrite String.eqb_refl. cbn [negb].
  assert (Ht : truthy (JStr name) = true).
  { cbn. destruct name; [exfalso; apply Hne; reflexivity|reflexivity]. }
  rewrite Ht. cbv beta iota zeta.
  apply is_empty_false in Hne. rewrite Hne. rewrite Hfree. reflexivity.
Qed.

Lemma enter_run ws u net s h :
  net ws = true ->
  history_cache (registered u ws s) !! "general" = Some h ->
  enter ws u net s
  = (Return tt, registered u ws s,
     [SendText ws (json_dumps (login_ok_event u (online_users (registered u ws s)))) true]
     ++ replay ws h
     ++ deliveries net (registered u ws s)
          (presence_event "user_joined" u "general"
             (room_users (registered u ws s) "general"))
          (Some "general") (Some u)).
Proof.
  intros Hup Hh. unfold enter, replay.
  pose proof (ensured_has_room "general" (set_clients <[u := ws]> s)) as [g Hg].
  cbv beta iota zeta delta [bind get_state modify ret raise].
  rewrite (ensure_room_run _ _ _ (general_loadable _)).
  cbn [fst snd]. rewrite Hg. cbn [fst snd].
  match goal with
  | |- context [send_json ws ?obj net ?st] =>
      replace st with (registered u ws s)
        by (unfold registered, add_member, set_rooms; cbn; rewrite Hg; reflexivity)
  end.
  unfold send_json at 1. rewrite Hup.
  rewrite (send_history_ok ws "general" net (registered u ws s) h Hup
             (general_loadable _))
    by (rewrite ensured_registered_general; exact Hh).
  rewrite ensured_registered_general, broadcast_run.
  cbn [app]. rewrite ?app_nil_r. reflexivity.
Qed.

Lemma registered_facts u ws s :
  clients (registered u ws s) !! u = Some ws
  /\ user_rooms (registered u ws s) !! u = Some "general"
  /\ (exists m, rooms (registered u ws s) !! "general" = Some m /\ u ∈ m)
  /\ is_Some (history_cache (registered u ws s) !! "general")
  /\ data_dir (registered u ws s) = data_dir s.
Proof.
  rewrite clients_registered, lookup_insert_eq.
  split; [reflexivity|]. unfold registered, add_member.
  cbn [user_rooms rooms history_cache data_dir set_user_rooms set_rooms].
  rewrite !lookup_insert_eq. split; [reflexivity|]. split.
  - eexists. split; [reflexivity|]. set_solver.
  - split; [apply ensured_has_cache|]. rewrite ensured_data_dir. reflexivity.
Qed.

Lemma in_online_users s u : is_Some (clients s !! u) -> u ∈ online_users s.
Proof.
  intros Hu. unfold online_users.
  rewrite elem_of_sorted, elem_of_elements, elem_of_dom. exact Hu.
Qed.

Lemma in_room_users s r m u : rooms s !! r = Some m -> u ∈ m -> u ∈ room_users s r.
Proof.
  intros Hm Hu. unfold room_users. rewrite elem_of_sorted, elem_of_elements, Hm.
  exact Hu.
Qed.

(** One step of a new connection whose login is accepted. *)
Lemma step_login_accepted sys a fields name :
  phase_of sys (a_ws a) = AwaitingLogin ->
  decodes_to (a_in a) fields ->
  assoc "type" fields = Some (JStr "login") ->
  assoc "username" fields = Some (JStr name) ->
  Py.strip name <> "" ->
  clients (shared sys) !! Py.strip name = None ->
  a_net a (a_ws a) = true ->
  let u := Py.strip name in
  let s' := registered u (a_ws a) (shared sys) in
  exists h,
    history_cache s' !! "general" = Some h
    /\ step sys a
       = (System s' (<[a_ws a := Active u]> (conns sys)),
          [SendText (a_ws a) (json_dumps (login_ok_event u (online_users s'))) true]
          ++ replay (a_ws a) h
          ++ deliveries (a_net a) s'
               (presence_event "user_joined" u "general" (room_users s' "general"))
               (Some "general") (Some u)).
Proof.
  intros Hph (raw & Hin & Hraw) Hty Hname Hne Hfree Hup u s'.
  destruct (registered_facts u (a_ws a) (shared sys)) as (_ & _ & _ & [h Hh] & _).
  exists h. split; [exact Hh|].
  unfold step. rewrite Hph, Hin, turn_awaiting_run. cbv zeta.
  rewrite (handshake_accept _ _ _ _ _ _ Hraw Hty Hname Hne Hfree).
  cbn [result_of effects_of fst snd]. fold u.
  rewrite (enter_run _ u _ _ h Hup Hh).
  cbn [result_of effects_of fst snd app]. reflexivity.
Qed.


(** *** Turns of an active session, in general *)

Lemma step_active_return sys a u s1 out :
  phase_of sys (a_ws a) = Active u -> u <> "" ->
  loop_turn (a_ws a) u (a_in a) (a_now a) (a_net a) (shared sys) = (Return tt, s1, out) ->
  step sys a = (System s1 (conns sys), out).
Proof.
  intros Hph Hne Hrun. unfold step.
  rewrite Hph, (turn_active_run _ _ _ _ _ _ Hne), Hrun.
  cbn [result_of state_of effects_of fst snd].
  rewrite insert_id by (apply conns_of_phase; exact Hph). reflexivity.
Qed.

Lemma step_active_raise sys a u e s1 out :
  phase_of sys (a_ws a) = Active u -> u <> "" ->
  loop_turn (a_ws a) u (a_in a) (a_now a) (a_net a) (shared sys) = (Raise e, s1, out) ->
  step sys a
  = (System (removed u s1) (<[a_ws a := Closed]> (conns sys)),
     out ++ farewell (a_net a) u (default "general" (user_rooms s1 !! u)) (removed u s1)).
Proof.
  intros Hph Hne Hrun. unfold step.
  rewrite Hph, (turn_active_run _ _ _ _ _ _ Hne), Hrun.
  cbn [result_of state_of effects_of fst snd]. reflexivity.
Qed.

(** *** An accepted message *)

(** Every cached room has a log the file system takes: a cache entry is
    only made once [load_history] has returned. *)
Definition cache_fits (s : state) : Prop :=
  forall r, is_Some (history_cache s !! r) -> Py.name_fits (room_log_path r) = true.

Lemma stable_turn_fits ws ph i now : stable cache_fits (turn ws ph i now).
Proof.
  apply stable_turn_with.
  - intros f s Hs. exact Hs.
  - intros f s Hs. exact Hs.
  - intros room members s Hs. exact Hs.
  - intros room u s Hs. exact Hs.
  - intros room s Hs Hload r Hr.
    destruct (decide (room = r)) as [<-|Hne].
    + destruct Hload as [Hc|Hfits]; [apply Hs, Hc|exact Hfits].
    + apply Hs. revert Hr. unfold ensured.
      destruct (rooms s !! room); cbn [history_cache set_rooms];
        destruct (history_cache s !! room); cbn [history_cache set_history_cache];
        rewrite ?lookup_insert_ne by exact Hne; auto.
  - intros room payload net s Hs. rewrite append_history_outcome.
    destruct (Py.name_fits (room_log_path room)); [|exact Hs].
    destruct (utf8_ok (line_of payload)); [|exact Hs].
    destruct (history_cache s !! room) as [h|] eqn:Hh; [|exact Hs].
    intros r Hr. unfold state_of, logged in Hr. cbn in Hr.
    destruct (decide (room = r)) as [<-|Hne]; [apply Hs; rewrite Hh; eauto|].
    rewrite lookup_insert_ne in Hr by exact Hne. apply Hs, Hr.
Qed.

Lemma exec_cache_fits fs sched : cache_fits (shared (exec fs sched)).
Proof.
  unfold exec. apply (stable_schedule cache_fits).
  - intros ws ph i now. apply stable_turn_fits.
  - intros r [h Hr]. cbn in Hr. rewrite lookup_empty in Hr. discriminate.
Qed.

(** The [message] branch: the record is logged and broadcast, or the
    write fails and the pass through the loop is left with nothing sent. *)
Lemma loop_turn_message ws u raw fields text r h now net s :
  json_loads raw = Some (JObj fields) ->
  assoc "type" fields = Some (JStr "message") ->
  assoc "text" fields = Some (JStr text) ->
  Py.strip text <> "" ->
  user_rooms s !! u = Some r ->
  is_Some (rooms s !! r) -> history_cache s !! r = Some h ->
  let payload := message_event u (Py.strip text) now r in
  loop_turn ws u (Text raw) now net s
  = if Py.name_fits (room_log_path r) then
      if utf8_ok (line_of payload)
      then (Return tt, logged r payload s, deliveries net s payload (Some r) None)
      else (Raise UnicodeEncodeError, touched r s, [])
    else (Raise OSError, s, []).
Proof.
  intros Hraw Hty Htext Hne Hu Hr Hh payload.
  assert (Htruthy : truthy (JStr text) = true).
  { cbn. destruct text; [|reflexivity]. exfalso. apply Hne. reflexivity. }
  assert (Hens : ensured r s = s) by (apply ensured_id; eauto).
  assert (Hload : loadable r s) by (left; eauto).
  unfold loop_turn.
  cbv beta iota zeta delta [bind receive_text loads dict_get or_empty_strip get_state ret].
  rewrite Hraw. cbv beta iota zeta. rewrite Hty, Htext.
  cbn [from_option]. unfold id.
  change (is_str (JStr "message") "message") with true.
  cbv beta iota zeta. rewrite Htruthy. cbv beta iota zeta.
  apply is_empty_false in Hne. rewrite Hne. rewrite Hu.
  cbn [from_option]. unfold id.
  rewrite (ensure_room_run _ _ _ Hload), Hens. cbn [fst snd].
  rewrite append_history_outcome. fold payload.
  destruct (Py.name_fits (room_log_path r)); [|reflexivity].
  destruct (utf8_ok (line_of payload)); [|reflexivity].
  rewrite Hh. cbn [fst snd].
  rewrite broadcast_run. cbn [app].
  rewrite (deliveries_ext net s (logged r _ s)) by reflexivity.
  reflexivity.
Qed.

(** X7. In a reachable state, a message with non-blank text from an
    active user, whose record has a UTF-8 encoding, does not fault: the
    record (sender, trimmed text, clock reading, current room) is appended
    as one line to the log file of the room and to the end of its cache,
    sessions and rooms are untouched, the session stays active, and the
    record is sent to every member of the room, the sender included;
    nothing else is sent. *)
Theorem message_is_logged_and_broadcast fs sched a u r fields text :
  phase_of (exec fs sched) (a_ws a) = Active u ->
  user_rooms (shared (exec fs sched)) !! u = Some r ->
  decodes_to (a_in a) fields ->
  assoc "type" fields = Some (JStr "message") ->
  assoc "text" fields = Some (JStr text) ->
  Py.strip text <> "" ->
  utf8_ok (line_of (message_event u (Py.strip text) (a_now a) r)) = true ->
  let s := shared (exec fs sched) in
  let payload := message_event u (Py.strip text) (a_now a) r in
  step (exec fs sched) a
  = (System (logged r payload s) (conns (exec fs sched)),
     deliveries (a_net a) s payload (Some r) None)
  /\ (exists m, rooms s !! r = Some m /\ u ∈ m
        /\ forall v, v ∈ m ->
             exists wv, clients s !! v = Some wv
               /\ SendText wv (json_dumps payload) (a_net a wv)
                    ∈ deliveries (a_net a) s payload (Some r) None)
  /\ (exists h, history_cache s !! r = Some h
        /\ history_cache (logged r payload s) !! r
           = Some (if (50 <? Z.of_nat (length (h ++ [payload])))%Z
                   then tail (h ++ [payload]) else h ++ [payload])).
Proof.
  intros Hph Hroom (raw & Hin & Hraw) Hty Htext Hne Hok s payload.
  destruct (active_session _ _ _ _ Hph) as (Hs & Hconn & Hu & Hu_ne). fold s in Hs, Hu.
  destruct (in_own_room _ Hs u ltac:(eauto)) as (r' & m & Hr' & Hm & Hum).
  assert (r' = r) as -> by (fold s in Hroom; congruence).
  destruct (room_is_cached _ Hs u r Hr') as [_ [h Hh]].
  assert (Hfits : Py.name_fits (room_log_path r) = true).
  { apply (exec_cache_fits fs sched). fold s. rewrite Hh. eauto. }
  split; [|split].
  - unfold step. rewrite Hph, (turn_active_run _ _ _ _ _ _ Hu_ne), Hin.
    rewrite (loop_turn_message _ _ _ _ _ r h _ _ _ Hraw Hty Htext Hne Hr'
               ltac:(eauto) Hh).
    rewrite Hfits, Hok.
    cbn [result_of state_of effects_of fst snd]. cbv zeta.
    rewrite insert_id by exact Hconn. reflexivity.
  - exists m. split; [exact Hm|]. split; [exact Hum|].
    intros v Hv. apply (members_are_reached _ _ _ _ m); assumption.
  - exists h. split; [exact Hh|]. unfold logged. cbn. rewrite Hh. cbn.
    rewrite lookup_insert_eq. reflexivity.
Qed.

(** X8. In a reachable state, a message is delivered inside its room
    only: a session whose current room is another room is sent nothing by
    the turn. *)
Theorem message_stays_in_its_room fs sched a u r fields text v wv :
  phase_of (exec fs sched) (a_ws a) = Active u ->
  user_rooms (shared (exec fs sched)) !! u = Some r ->
  decodes_to (a_in a) fields ->
  assoc "type" fields = Some (JStr "message") ->
  assoc "text" fields = Some (JStr text) ->
  Py.strip text <> "" ->
  clients (shared (exec fs sched)) !! v = Some wv ->
  user_rooms (shared (exec fs sched)) !! v <> Some r ->
  Forall (fun e => socket_of e <> wv) (step (exec fs sched) a).2.
Proof.
  intros Hph Hroom (raw & Hin & Hraw) Hty Htext Hne Hv Hother.
  destruct (active_session _ _ _ _ Hph) as (Hs & Hconn & Hu & Hu_ne).
  destruct (exec_sound fs sched) as [_ Hl].
  destruct (room_is_cached _ Hs u r Hroom) as [Hr_ne [h Hh]].
  destruct (in_own_room _ Hs u ltac:(eauto)) as (r' & m & Hr' & Hm & _).
  assert (r' = r) as -> by congruence.
  assert (Htruthy : opt_truthy (Some r) = true).
  { cbn. apply negb_true_iff, is_empty_false. exact Hr_ne. }
  assert (Hfault : forall s1,
            user_rooms s1 = user_rooms (shared (exec fs sched)) ->
            clients s1 = clients (shared (exec fs sched)) ->
            Forall (fun e => socket_of e <> wv)
              ([] ++ farewell (a_net a) u (default "general" (user_rooms s1 !! u))
                       (removed u s1))).
  { intros s1 Hur Hc. rewrite Hur, Hroom. cbn [app default from_option]. unfold id.
    apply Forall_forall. intros e He.
    apply elem_of_deliveries_inv in He as (x & w & -> & Hx & [_ Hin_room]).
    cbn [socket_of]. intros ->.
    rewrite clients_removed, Hc in Hx. apply lookup_delete_Some in Hx as [Hxu Hx].
    apply Hl in Hx. apply Hl in Hv. assert (x = v) by congruence. subst x.
    specialize (Hin_room Htruthy). cbn in Hin_room.
    rewrite lookup_delete_ne in Hin_room by exact Hxu.
    rewrite Hur in Hin_room. apply Hother, Hin_room. }
  pose proof (loop_turn_message (a_ws a) u raw fields text r h (a_now a) (a_net a) _
                Hraw Hty Htext Hne Hroom ltac:(eauto) Hh) as Hrun.
  cbv zeta in Hrun. rewrite <- Hin in Hrun.
  destruct (Py.name_fits (room_log_path r)).
  - destruct (utf8_ok _).
    + rewrite (step_active_return _ _ _ _ _ Hph Hu_ne Hrun). cbn [snd].
      apply Forall_forall. intros e He.
      apply elem_of_deliveries_inv in He as (x & w & -> & Hx & [_ Hin_room]).
      cbn [socket_of]. intros ->.
      apply Hl in Hx. apply Hl in Hv. assert (x = v) by congruence. subst x.
      apply Hother, Hin_room, Htruthy.
    + rewrite (step_active_raise _ _ _ _ _ _ Hph Hu_ne Hrun). cbn [snd].
      apply Hfault; reflexivity.
  - rewrite (step_active_raise _ _ _ _ _ _ Hph Hu_ne Hrun). cbn [snd].
    apply Hfault; reflexivity.
Qed.

(** *** Moving to another room *)

Lemma moved_elsewhere u r new_room s :
  user_rooms s !! u = Some r -> r <> new_room ->
  moved u new_room s
  = set_user_rooms <[u := new_room]>
      (add_member new_room u (discard_member r u (ensured new_room s))).
Proof.
  intros Hu Hne. unfold moved. cbv zeta.
  rewrite (grows_user_rooms _ _ (ensured_grows new_room s)), Hu.
  cbn [from_option]. unfold id. rewrite decide_False by exact Hne. reflexivity.
Qed.

Lemma ensured_moved u new_room s : ensured new_room (moved u new_room s) = moved u new_room s.
Proof.
  apply ensured_id; unfold moved; cbv zeta; destruct (decide _);
    try apply ensured_has_room; try apply ensured_has_cache;
    unfold add_member; cbn; rewrite ?lookup_insert_eq; eauto using ensured_has_cache.
Qed.

Lemma moved_has_cache u new_room s : is_Some (history_cache (moved u new_room s) !! new_room).
Proof.
  unfold moved; cbv zeta; destruct (decide _); cbn; apply ensured_has_cache.
Qed.

Lemma loop_turn_join ws u raw fields name old h now net s :
  json_loads raw = Some (JObj fields) ->
  assoc "type" fields = Some (JStr "join_room") ->
  assoc "room" fields = Some (JStr name) ->
  Py.strip name <> "" ->
  user_rooms s !! u = Some old ->
  loadable (Py.strip name) s ->
  history_cache (moved u (Py.strip name) s) !! Py.strip name = Some h ->
  net ws = true ->
  let new_room := Py.strip name in
  let s' := moved u new_room s in
  loop_turn ws u (Text raw) now net s
  = (Return tt, s',
     [SendText ws (json_dumps (info_event new_room)) true]
     ++ replay ws h
     ++ deliveries net s' (presence_event "user_left_room" u old (room_users s' old))
          (Some old) None
     ++ deliveries net s'
          (presence_event "user_joined_room" u new_room (room_users s' new_room))
          (Some new_room) (Some u)).
Proof.
  intros Hraw Hty Hroom Hne Hu Hload Hh Hup new_room s'.
  assert (Htruthy : truthy (JStr name) = true).
  { cbn. destruct name; [|reflexivity]. exfalso. apply Hne. reflexivity. }
  assert (Hload' : loadable new_room s') by (left; apply moved_has_cache).
  unfold loop_turn, replay.
  cbv beta iota zeta delta [bind receive_text loads dict_get or_empty_strip get_state ret].
  rewrite Hraw. cbv beta iota zeta. rewrite Hty, Hroom.
  cbn [from_option]. unfold id.
  change (is_str (JStr "join_room") "message") with false.
  change (is_str (JStr "join_room") "rooms") with false.
  change (is_str (JStr "join_room") "room_who") with false.
  change (is_str (JStr "join_room") "join_room") with true.
  cbv beta iota zeta. rewrite Htruthy. cbv beta iota zeta.
  apply is_empty_false in Hne. rewrite Hne.
  rewrite (join_room_run _ _ _ _ Hload). cbv beta iota zeta. cbn [fst snd].
  fold new_room. fold s'.
  unfold send_json at 1. rewrite Hup.
  rewrite (send_history_ok ws new_room net s' h Hup Hload')
    by (subst s'; rewrite ensured_moved; exact Hh).
  subst s'. rewrite ensured_moved, !broadcast_run. cbn [app]. rewrite Hu.
  reflexivity.
Qed.


(** *** A room whose log the file system refuses *)

Lemma loop_turn_join_raises ws u raw fields name now net s :
  json_loads raw = Some (JObj fields) ->
  assoc "type" fields = Some (JStr "join_room") ->
  assoc "room" fields = Some (JStr name) ->
  Py.strip name <> "" ->
  history_cache s !! Py.strip name = None ->
  Py.name_fits (room_log_path (Py.strip name)) = false ->
  loop_turn ws u (Text raw) now net s = (Raise OSError, opened (Py.strip name) s, []).
Proof.
  intros Hraw Hty Hroom Hne Hnone Hfits.
  assert (Htruthy : truthy (JStr name) = true).
  { cbn. destruct name; [|reflexivity]. exfalso. apply Hne. reflexivity. }
  unfold loop_turn, join_room.
  cbv beta iota zeta delta [bind receive_text loads dict_get or_empty_strip get_state ret].
  rewrite Hraw. cbv beta iota zeta. rewrite Hty, Hroom.
  cbn [from_option]. unfold id.
  change (is_str (JStr "join_room") "message") with false.
  change (is_str (JStr "join_room") "rooms") with false.
  change (is_str (JStr "join_room") "room_who") with false.
  change (is_str (JStr "join_room") "join_room") with true.
  cbv beta iota zeta. rewrite Htruthy. cbv beta iota zeta.
  apply is_empty_false in Hne. rewrite Hne.
  rewrite (ensure_room_raises _ _ _ Hnone Hfits). reflexivity.
Qed.

(** X25. In a reachable state, an active user who asks to join a room
    whose log name the file system does not take is not moved: the
    existence check on the log raises out of [ensure_room], no reply at all
    is sent to the user, and the session ends.  The user is dropped from
    the sessions and from the room it was in, to which [user_left] is
    broadcast.  The target has been entered in [rooms] before the check:
    it stays there with no member, and has no cache. *)
Theorem join_room_with_a_long_name_ends_the_session fs sched a u r fields name :
  phase_of (exec fs sched) (a_ws a) = Active u ->
  user_rooms (shared (exec fs sched)) !! u = Some r ->
  decodes_to (a_in a) fields ->
  assoc "type" fields = Some (JStr "join_room") ->
  assoc "room" fields = Some (JStr name) ->
  Py.strip name <> "" ->
  Py.name_fits (room_log_path (Py.strip name)) = false ->
  let new_room := Py.strip name in
  let s' := removed u (opened new_room (shared (exec fs sched))) in
  step (exec fs sched) a
  = (System s' (<[a_ws a := Closed]> (conns (exec fs sched))),
     farewell (a_net a) u r s')
  /\ clients s' !! u = None
  /\ rooms s' !! new_room = Some ∅
  /\ history_cache s' !! new_room = None
  /\ new_room ∈ list_rooms s'
  /\ Forall (fun e => socket_of e <> a_ws a) (farewell (a_net a) u r s').
Proof.
  intros Hph Hroom (raw & Hin & Hraw) Hty Hfield Hne Hfits new_room s'.
  destruct (active_session _ _ _ _ Hph) as (Hs & Hconn & Hu & Hu_ne).
  destruct (exec_sound fs sched) as [_ Hl].
  set (s := shared (exec fs sched)) in *.
  assert (Hnone : history_cache s !! new_room = None).
  { destruct (history_cache s !! new_room) as [h|] eqn:Hh; [|reflexivity].
    pose proof (exec_cache_fits fs sched new_room) as Hf. fold s in Hf.
    rewrite Hh in Hf. specialize (Hf ltac:(eauto)). subst new_room. congruence. }
  assert (Hdiff : r <> new_room).
  { intros ->. destruct (room_is_cached _ Hs u new_room Hroom) as [_ [h Hh]]. congruence. }
  assert (Hempty : rooms (opened new_room s) !! new_room = Some ∅).
  { unfold opened. destruct (rooms s !! new_room) as [m|] eqn:Hm.
    - rewrite Hm. f_equal. apply elem_of_equiv_empty_L. intros x Hx.
      destruct (member_is_active _ Hs new_room m x Hm Hx) as [_ Hcur].
      destruct (room_is_cached _ Hs x new_room Hcur) as [_ [h Hh]]. congruence.
    - cbn. apply lookup_insert_eq. }
  assert (Hrooms : rooms s' !! new_room = Some ∅).
  { subst s'. unfold removed. cbn.
    replace (user_rooms (opened new_room s)) with (user_rooms s)
      by (symmetry; apply (grows_user_rooms _ _ (opened_grows new_room s))).
    rewrite Hroom. cbn.
    destruct (rooms (opened new_room s) !! r);
      rewrite ?lookup_insert_ne by exact Hdiff; exact Hempty. }
  split; [|split; [|split; [|split; [|split]]]].
  - rewrite (step_active_raise _ a u OSError (opened new_room s) [] Hph Hu_ne
               ltac:(rewrite Hin;
                     apply (loop_turn_join_raises _ _ _ _ _ _ _ _
                              Hraw Hty Hfield Hne Hnone Hfits))).
    rewrite (grows_user_rooms _ _ (opened_grows new_room s)), Hroom. reflexivity.
  - subst s'. rewrite clients_removed. apply lookup_delete_eq.
  - exact Hrooms.
  - subst s'. unfold removed, opened. cbn.
    destruct (rooms s !! new_room); exact Hnone.
  - apply elem_of_list_rooms. left. rewrite Hrooms. eauto.
  - apply Forall_forall. intros x Hx. unfold farewell in Hx.
    apply elem_of_deliveries_inv in Hx as (v & w & -> & Hv & _).
    cbn [socket_of]. intros ->. subst s'. rewrite clients_removed in Hv.
    replace (clients (opened new_room s)) with (clients s) in Hv
      by (symmetry; apply (grows_clients _ _ (opened_grows new_room s))).
    apply lookup_delete_Some in Hv as [Hvu Hv].
    apply Hl in Hv. congruence.
Qed.

(** *** Requests that only read *)

Lemma loop_turn_room_who ws u raw fields now net s :
  json_loads raw = Some (JObj fields) ->
  assoc "type" fields = Some (JStr "room_who") ->
  net ws = true ->
  let r := default "general" (user_rooms s !! u) in
  loop_turn ws u (Text raw) now net s
  = (Return tt, s, [SendText ws (json_dumps (room_users_event r (room_users s r))) true]).
Proof.
  intros Hraw Hty Hup r. unfold loop_turn.
  cbv beta iota zeta delta [bind receive_text loads dict_get get_state ret send_json].
  rewrite Hraw. cbv beta iota zeta. rewrite Hty.
  cbn [from_option]. unfold id.
  change (is_str (JStr "room_who") "message") with false.
  change (is_str (JStr "room_who") "rooms") with false.
  change (is_str (JStr "room_who") "room_who") with true.
  cbv beta iota zeta. rewrite Hup. reflexivity.
Qed.

Lemma loop_turn_rooms ws u raw fields now net s :
  json_loads raw = Some (JObj fields) ->
  assoc "type" fields = Some (JStr "rooms") ->
  net ws = true ->
  loop_turn ws u (Text raw) now net s
  = (Return tt, s, [SendText ws (json_dumps (rooms_event (list_rooms s))) true]).
Proof.
  intros Hraw Hty Hup. unfold loop_turn.
  cbv beta iota zeta delta [bind receive_text loads dict_get get_state ret send_json].
  rewrite Hraw. cbv beta iota zeta. rewrite Hty.
  cbn [from_option]. unfold id.
  change (is_str (JStr "rooms") "message") with false.
  change (is_str (JStr "rooms") "rooms") with true.
  cbv beta iota zeta. rewrite Hup. reflexivity.
Qed.

(** X10. In a reachable state, [room_who] from an active user changes
    nothing and is answered with one [room_users] event for the user's
    current room; the listing it carries contains the user itself and
    only users whose current room is that room. *)
Theorem room_who_lists_the_asker fs sched a u r fields :
  phase_of (exec fs sched) (a_ws a) = Active u ->
  user_rooms (shared (exec fs sched)) !! u = Some r ->
  decodes_to (a_in a) fields ->
  assoc "type" fields = Some (JStr "room_who") ->
  a_net a (a_ws a) = true ->
  let s := shared (exec fs sched) in
  step (exec fs sched) a
  = (exec fs sched,
     [SendText (a_ws a) (json_dumps (room_users_event r (room_users s r))) true])
  /\ u ∈ room_users s r
  /\ forall v, v ∈ room_users s r ->
       is_Some (clients s !! v) /\ user_rooms s !! v = Some r.
Proof.
  intros Hph Hroom (raw & Hin & Hraw) Hty Hup s.
  destruct (active_session _ _ _ _ Hph) as (Hs & Hconn & Hu & Hu_ne). fold s in Hs, Hu.
  destruct (in_own_room _ Hs u ltac:(eauto)) as (r' & m & Hr' & Hm & Hum).
  assert (r' = r) as -> by (fold s in Hroom; congruence).
  split; [|split].
  - rewrite (step_active_return _ a u s
               [SendText (a_ws a) (json_dumps (room_users_event r (room_users s r))) true]
               Hph Hu_ne).
    + destruct (exec fs sched); reflexivity.
    + rewrite Hin, (loop_turn_room_who _ _ _ _ _ _ _ Hraw Hty Hup).
      fold s. rewrite Hr'. reflexivity.
  - eapply in_room_users; eassumption.
  - intros v Hv. unfold room_users in Hv.
    rewrite elem_of_sorted, elem_of_elements, Hm in Hv. cbn in Hv.
    exact (member_is_active _ Hs r m v Hm Hv).
Qed.


(** *** Violations that keep the session open *)

Lemma loop_turn_unsupported ws u raw fields now net s :
  json_loads raw = Some (JObj fields) ->
  let mtype := default JNull (assoc "type" fields) in
  is_str mtype "message" = false ->
  is_str mtype "rooms" = false ->
  is_str mtype "room_who" = false ->
  is_str mtype "join_room" = false ->
  net ws = true ->
  loop_turn ws u (Text raw) now net s
  = (Return tt, s, [SendText ws (json_dumps (error_event (msg_unsupported mtype))) true]).
Proof.
  intros Hraw mtype H1 H2 H3 H4 Hup. unfold loop_turn.
  cbv beta iota zeta delta [bind receive_text loads dict_get get_state ret send_json].
  rewrite Hraw. cbv beta iota zeta. fold mtype.
  rewrite H1, H2, H3, H4, Hup. reflexivity.
Qed.

Lemma loop_turn_no_target ws u raw fields now net s :
  json_loads raw = Some (JObj fields) ->
  assoc "type" fields = Some (JStr "join_room") ->
  (assoc "room" fields = None
   \/ exists name, assoc "room" fields = Some (JStr name) /\ Py.strip name = "") ->
  net ws = true ->
  loop_turn ws u (Text raw) now net s
  = (Return tt, s, [SendText ws (json_dumps (error_event msg_no_room)) true]).
Proof.
  intros Hraw Hty Hroom Hup. unfold loop_turn.
  cbv beta iota zeta delta
    [bind receive_text loads dict_get or_empty_strip get_state ret send_json].
  rewrite Hraw. cbv beta iota zeta. rewrite Hty.
  cbn [from_option]. unfold id.
  change (is_str (JStr "join_room") "message") with false.
  change (is_str (JStr "join_room") "rooms") with false.
  change (is_str (JStr "join_room") "room_who") with false.
  change (is_str (JStr "join_room") "join_room") with true.
  cbv beta iota zeta.
  destruct Hroom as [Hnone|(name & Hname & Hblank)].
  - rewrite Hnone. cbn [from_option truthy]. cbv beta iota zeta.
    change (Py.is_empty (Py.strip "")) with true. cbv beta iota zeta.
    rewrite Hup. reflexivity.
  - rewrite Hname. cbn [from_option]. unfold id.
    destruct (truthy (JStr name)); cbv beta iota zeta.
    + rewrite Hblank. cbn [Py.is_empty]. rewrite Hup. reflexivity.
    + change (Py.is_empty (Py.strip "")) with true. cbv beta iota zeta.
      rewrite Hup. reflexivity.
Qed.


(** X13. In a reachable state, [join_room] from an active user with no
    target room, or with one that is empty once trimmed, is answered with
    one [error] event; the user stays in its room, the whole system is
    left as it was and the session stays open. *)
Theorem join_without_target_keeps_the_room fs sched a u fields :
  phase_of (exec fs sched) (a_ws a) = Active u ->
  decodes_to (a_in a) fields ->
  assoc "type" fields = Some (JStr "join_room") ->
  (assoc "room" fields = None
   \/ exists name, assoc "room" fields = Some (JStr name) /\ Py.strip name = "") ->
  a_net a (a_ws a) = true ->
  step (exec fs sched) a
  = (exec fs sched, [SendText (a_ws a) (json_dumps (error_event msg_no_room)) true]).
Proof.
  intros Hph (raw & Hin & Hraw) Hty Hroom Hup.
  destruct (active_session _ _ _ _ Hph) as (_ & _ & _ & Hu_ne).
  rewrite (step_active_return _ a u (shared (exec fs sched)) _ Hph Hu_ne
             ltac:(rewrite Hin; exact (loop_turn_no_target _ _ _ _ _ _ _
                                         Hraw Hty Hroom Hup))).
  destruct (exec fs sched); reflexivity.
Qed.

(** *** Frames that are not JSON objects *)

(** The text frame [raw] does not decode to an object: it is not JSON,
    or it is a JSON value without [get]. *)
Definition not_an_object (raw : string) : Prop :=
  json_loads raw = None
  \/ exists v, json_loads raw = Some v /\ forall fields, v <> JObj fields.

Lemma loop_turn_not_an_object ws u raw now net s :
  not_an_object raw ->
  exists e, loop_turn ws u (Text raw) now net s = (Raise e, s, []).
Proof.
  intros [Hnone|(v & Hv & Hobj)]; unfold loop_turn;
    cbv beta iota zeta delta [bind receive_text loads dict_get ret raise].
  - rewrite Hnone. eexists. reflexivity.
  - rewrite Hv. destruct v as [| | | | |fields];
      try (eexists; reflexivity). destruct (Hobj fields eq_refl).
Qed.

Lemma handshake_not_an_object ws raw net s :
  not_an_object raw ->
  exists e, handshake ws (Text raw) net s = (Raise e, s, []).
Proof.
  intros [Hnone|(v & Hv & Hobj)]; unfold handshake;
    cbv beta iota zeta delta [bind receive_text loads dict_get ret raise].
  - rewrite Hnone. eexists. reflexivity.
  - rewrite Hv. destruct v as [| | | | |fields];
      try (eexists; reflexivity). destruct (Hobj fields eq_refl).
Qed.

(** X14. In a reachable state, a frame of an active user that does not
    decode to a JSON object ends the session without any reply: the user
    is dropped from the sessions and from its room, [user_left] is
    broadcast to that room, and nothing at all (no error event) is sent to
    the offending connection. *)
Theorem undecodable_frame_ends_the_session fs sched a u r raw :
  phase_of (exec fs sched) (a_ws a) = Active u ->
  user_rooms (shared (exec fs sched)) !! u = Some r ->
  a_in a = Text raw ->
  not_an_object raw ->
  let s' := removed u (shared (exec fs sched)) in
  step (exec fs sched) a
  = (System s' (<[a_ws a := Closed]> (conns (exec fs sched))),
     farewell (a_net a) u r s')
  /\ clients s' !! u = None
  /\ Forall (fun e => socket_of e <> a_ws a) (farewell (a_net a) u r s').
Proof.
  intros Hph Hroom Hin Hbad s'.
  destruct (active_session _ _ _ _ Hph) as (Hs & Hconn & Hu & Hu_ne).
  destruct (exec_sound fs sched) as [_ Hl].
  destruct (loop_turn_not_an_object (a_ws a) u raw (a_now a) (a_net a)
              (shared (exec fs sched)) Hbad) as [e Hrun].
  split; [|split].
  - rewrite (step_active_raise _ a u e (shared (exec fs sched)) [] Hph Hu_ne
               ltac:(rewrite Hin; exact Hrun)).
    rewrite Hroom. reflexivity.
  - subst s'. rewrite clients_removed. apply lookup_delete_eq.
  - apply Forall_forall. intros x Hx. unfold farewell in Hx.
    apply elem_of_deliveries_inv in Hx as (v & w & -> & Hv & _).
    cbn [socket_of]. intros ->. subst s'. rewrite clients_removed in Hv.
    apply lookup_delete_Some in Hv as [Hvu Hv].
    apply Hl in Hv. congruence.
Qed.

(** X15. Whatever the state, a connection that is lost before its first
    frame, or whose first frame does not decode to a JSON object, is closed
    without any reply (not even an [error] event) and without any change
    to the shared state. *)
Theorem undecodable_first_frame_is_dropped sys a :
  phase_of sys (a_ws a) = AwaitingLogin ->
  (a_in a = Gone \/ exists raw, a_in a = Text raw /\ not_an_object raw) ->
  step sys a = (System (shared sys) (<[a_ws a := Closed]> (conns sys)), []).
Proof.
  intros Hph Hin. unfold step. rewrite Hph, turn_awaiting_run. cbv zeta.
  destruct Hin as [Hgone|(raw & Hin & Hbad)].
  - rewrite Hgone. reflexivity.
  - rewrite Hin.
    destruct (handshake_not_an_object (a_ws a) raw (a_net a) (shared sys) Hbad)
      as [e Hrun].
    rewrite Hrun. reflexivity.
Qed.

(** *** The name of a closed session is free again *)

(** X16. In a reachable state, once the connection of an active user is
    gone, its name is free: a new connection that logs in under that name
    (its socket taking frames) is accepted, and the name is then registered
    with the new socket. *)
Theorem name_is_free_after_disconnect fs sched ws u now net a fields name :
  phase_of (exec fs sched) ws = Active u ->
  let after := (step (exec fs sched) (Action ws Gone now net)).1 in
  phase_of after (a_ws a) = AwaitingLogin ->
  decodes_to (a_in a) fields ->
  assoc "type" fields = Some (JStr "login") ->
  assoc "username" fields = Some (JStr name) ->
  Py.strip name = u ->
  a_net a (a_ws a) = true ->
  clients (shared after) !! u = None
  /\ phase_of (step after a).1 (a_ws a) = Active u
  /\ clients (shared (step after a).1) !! u = Some (a_ws a).
Proof.
  intros Hph after Hph2 Hdec Hty Hname Hstrip Hup.
  destruct (active_session _ _ _ _ Hph) as (_ & _ & _ & Hu_ne).
  assert (Hafter : after
            = System (removed u (shared (exec fs sched)))
                (<[ws := Closed]> (conns (exec fs sched)))).
  { subst after.
    rewrite (step_active_raise _ (Action ws Gone now net) u WebSocketDisconnect
               (shared (exec fs sched)) [] Hph Hu_ne (loop_turn_gone _ _ _ _ _)).
    reflexivity. }
  assert (Hfree : clients (shared after) !! u = None).
  { rewrite Hafter. cbn [shared]. rewrite clients_removed. apply lookup_delete_eq. }
  split; [exact Hfree|].
  destruct (step_login_accepted after a fields name Hph2 Hdec Hty Hname
              ltac:(rewrite Hstrip; exact Hu_ne) ltac:(rewrite Hstrip; exact Hfree) Hup)
    as (h & _ & Hstep).
  rewrite Hstep, Hstrip. cbn [fst shared conns]. split.
  - unfold phase_of. cbn [conns]. rewrite lookup_insert_eq. reflexivity.
  - rewrite clients_registered. apply lookup_insert_eq.
Qed.

(** *** The sanitized name of a room *)

(** Every character of [s] satisfies [p]. *)
Fixpoint all_chars (p : ascii -> bool) (s : string) : bool :=
  match s with
  | EmptyString => true
  | String c s' => p c && all_chars p s'
  end.

(** The characters [room_log_path] keeps. *)
Definition safe_char (ch : ascii) : bool :=
  Py.isalnum ch || Ascii.eqb ch "-" || Ascii.eqb ch "_".

Lemma all_chars_impl (p q : ascii -> bool) s :
  (forall c, p c = true -> q c = true) -> all_chars p s = true -> all_chars q s = true.
Proof.
  intros Hpq. induction s as [|c s IH]; [reflexivity|]. cbn [all_chars].
  intros H. apply andb_true_iff in H as [Hc Hs]. apply andb_true_iff. auto.
Qed.

Lemma all_chars_join_if p s : all_chars p (Py.join_if p s) = true.
Proof.
  induction s as [|c s IH]; [reflexivity|]. cbn [Py.join_if].
  destruct (p c) eqn:Hc; [|exact IH]. cbn [all_chars]. rewrite Hc, IH. reflexivity.
Qed.

Lemma join_if_id p s : all_chars p s = true -> Py.join_if p s = s.
Proof.
  induction s as [|c s IH]; [reflexivity|]. cbn [all_chars Py.join_if].
  intros H. apply andb_true_iff in H as [Hc Hs]. rewrite Hc, (IH Hs). reflexivity.
Qed.

Lemma safe_char_not_space c : safe_char c = true -> Py.isspace c = false.
Proof.
  destruct c as [[] [] [] [] [] [] [] []]; vm_compute; congruence.
Qed.

Lemma safe_char_not_separator c :
  safe_char c = true ->
  negb (Ascii.eqb c "/") && negb (Ascii.eqb c "092") && negb (Ascii.eqb c ".") = true.
Proof.
  destruct c as [[] [] [] [] [] [] [] []]; vm_compute; congruence.
Qed.

Lemma strip_id s : all_chars (fun c => negb (Py.isspace c)) s = true -> Py.strip s = s.
Proof.
  intros H. unfold Py.strip.
  assert (Hl : Py.lstrip s = s).
  { destruct s as [|c s]; [reflexivity|]. cbn [all_chars] in H.
    apply andb_true_iff in H as [Hc _]. apply negb_true_iff in Hc.
    cbn [Py.lstrip]. rewrite Hc. reflexivity. }
  rewrite Hl. clear Hl.
  induction s as [|c s IH]; [reflexivity|]. cbn [all_chars] in H.
  apply andb_true_iff in H as [Hc Hs]. apply negb_true_iff in Hc.
  cbn [Py.rstrip]. rewrite Hc, (IH Hs). reflexivity.
Qed.

Lemma strip_join_if room : Py.strip (Py.join_if safe_char room) = Py.join_if safe_char room.
Proof.
  apply strip_id. apply (all_chars_impl safe_char); [|apply all_chars_join_if].
  intros c Hc. apply negb_true_iff, safe_char_not_space, Hc.
Qed.

Lemma safe_name_cases room :
  (Py.join_if safe_char room = "" /\ safe_name room = "general")
  \/ (Py.join_if safe_char room <> "" /\ safe_name room = Py.join_if safe_char room).
Proof.
  unfold safe_name. cbv zeta. fold safe_char. rewrite strip_join_if.
  destruct (Py.is_empty (Py.join_if safe_char room)) eqn:E.
  - left. split; [apply is_empty_true, E|reflexivity].
  - right. split; [apply is_empty_false, E|reflexivity].
Qed.

Lemma all_chars_safe_name room : all_chars safe_char (safe_name room) = true.
Proof.
  destruct (safe_name_cases room) as [[_ ->]|[_ ->]];
    [reflexivity|apply all_chars_join_if].
Qed.

(** X17. The sanitized name [room_log_path] builds is made of
    alphanumerics, ["-"] and ["_"] only, so it holds no path separator and
    no dot and the log stays a plain file of the data directory; it is
    never empty; and sanitizing is idempotent, so a room and the room named
    by its sanitized name share one log file. *)
Theorem sanitized_name_is_safe room :
  all_chars safe_char (safe_name room) = true
  /\ all_chars (fun c => negb (Ascii.eqb c "/") && negb (Ascii.eqb c "092")
                         && negb (Ascii.eqb c ".")) (safe_name room) = true
  /\ safe_name room <> ""
  /\ safe_name (safe_name room) = safe_name room
  /\ room_log_path (safe_name room) = room_log_path room.
Proof.
  assert (Hidem : safe_name (safe_name room) = safe_name room).
  { pose proof (all_chars_safe_name room) as Hall.
    destruct (safe_name_cases (safe_name room)) as [[He ->]|[_ ->]].
    - rewrite (join_if_id _ _ Hall) in He.
      destruct (safe_name_nonempty room He).
    - apply join_if_id, Hall. }
  split; [apply all_chars_safe_name|].
  split; [apply (all_chars_impl safe_char);
          [apply safe_char_not_separator|apply all_chars_safe_name]|].
  split; [apply safe_name_nonempty|].
  split; [exact Hidem|]. unfold room_log_path. rewrite Hidem. reflexivity.
Qed.

(** *** Listings *)

#[local] Instance str_le_total : Total Py.str_le.
Proof. intros a b. unfold Py.str_le. apply String.leb_total. Qed.

Lemma sorted_elements (X : gset string) :
  Sorted Py.str_le (Py.sorted (elements X))
  /\ NoDup (Py.sorted (elements X))
  /\ length (Py.sorted (elements X)) = size X
  /\ forall x, x ∈ Py.sorted (elements X) <-> x ∈ X.
Proof.
  unfold Py.sorted. split; [apply Sorted_merge_sort, _|].
  split; [rewrite merge_sort_Permutation; apply NoDup_elements|].
  split; [rewrite merge_sort_Permutation; reflexivity|].
  intros x. rewrite merge_sort_Permutation. apply elem_of_elements.
Qed.

(** X18. [list_rooms()] is a sorted list without duplicates: a room that
    is both a key of [rooms] and has a history file is listed once.  It
    lists exactly the keys of [rooms] and the non-empty names read off the
    files matching [history_*.jsonl]. *)
Theorem list_rooms_is_a_sorted_set s :
  Sorted Py.str_le (list_rooms s)
  /\ NoDup (list_rooms s)
  /\ forall x, x ∈ list_rooms s <->
       is_Some (rooms s !! x)
       \/ (x <> "" /\ exists f, is_Some (data_dir s !! f) /\ glob_history f = true
                        /\ x = Py.remove_all "history_" (Py.stem f)).
Proof.
  unfold list_rooms. cbv zeta.
  destruct (sorted_elements (dom (rooms s) ∪ file_rooms s)) as (Hsorted & Hnodup & _ & Hin).
  split; [exact Hsorted|]. split; [exact Hnodup|].
  intros x. rewrite Hin, elem_of_union, elem_of_dom, elem_of_file_rooms. reflexivity.
Qed.

(** X19. [online_users()] is the sorted list, without duplicates, of
    exactly the usernames that have a session; its length is the number
    of sessions. *)
Theorem online_users_lists_the_sessions s :
  Sorted Py.str_le (online_users s)
  /\ NoDup (online_users s)
  /\ length (online_users s) = size (clients s)
  /\ forall u, u ∈ online_users s <-> is_Some (clients s !! u).
Proof.
  unfold online_users.
  destruct (sorted_elements (dom (clients s))) as (Hsorted & Hnodup & Hlen & Hin).
  split; [exact Hsorted|]. split; [exact Hnodup|].
  split; [rewrite Hlen; apply size_dom|].
  intros u. rewrite Hin. apply elem_of_dom.
Qed.

(** X20. [room_users(room)] is the sorted list, without duplicates, of
    exactly the members of the room; for a name that is not a key of
    [rooms] it is the empty list, and the room is not created by asking. *)
Theorem room_users_lists_the_members s room :
  Sorted Py.str_le (room_users s room)
  /\ NoDup (room_users s room)
  /\ (forall u, u ∈ room_users s room <-> exists m, rooms s !! room = Some m /\ u ∈ m)
  /\ match rooms s !! room with
     | Some m => length (room_users s room) = size m
     | None => room_users s room = []
     end.
Proof.
  unfold room_users.
  destruct (sorted_elements (default ∅ (rooms s !! room)))
    as (Hsorted & Hnodup & Hlen & Hin).
  split; [exact Hsorted|]. split; [exact Hnodup|]. split.
  - intros u. rewrite Hin. destruct (rooms s !! room) as [m|]; cbn.
    + split; [eauto|]. intros (m' & [= <-] & Hu). exact Hu.
    + split; [set_solver|]. intros (m' & Hm' & _). discriminate.
  - destruct (rooms s !! room) as [m|]; cbn in *; [exact Hlen|].
    apply length_zero_iff_nil. rewrite Hlen. apply size_empty.
Qed.

(** X21. Once the history file of a room exists, [list_rooms()] contains
    the sanitized name of the room, provided ["history_"] does not occur
    in that sanitized name: the name read off the file is then the name
    the file was made from. *)
Theorem sanitized_name_is_listed room s :
  occurs_nowhere "history_" (safe_name room) ->
  is_Some (data_dir s !! room_log_path room) ->
  Py.remove_all "history_" (Py.stem (room_log_path room)) = safe_name room
  /\ safe_name room ∈ list_rooms s.
Proof.
  intros Hno Hfile. split; [apply derived_name_round_trip, Hno|].
  apply sanitized_name_listed; assumption.
Qed.

(** *** The log read back *)

(** The text of a log made of the lines of [records]. *)
Fixpoint log_text (records : list json) : string :=
  match records with
  | [] => ""
  | r :: rest => line_of r +:+ log_text rest
  end.

(** A record the codec writes on one line and reads back from it. *)
Definition round_trips (payload : json) : Prop :=
  all_chars (fun c => negb (Ascii.eqb c "010") && negb (Ascii.eqb c "013"))
    (json_dumps payload) = true
  /\ Py.strip (line_of payload) <> ""
  /\ json_loads (Py.strip (line_of payload)) = Some payload.

Lemma readlines_go_line d : forall cur rest,
  all_chars (fun c => negb (Ascii.eqb c "010") && negb (Ascii.eqb c "013")) d = true ->
  Py.readlines_go false cur (d +:+ Py.nl +:+ rest)
  = (cur +:+ d +:+ Py.nl) :: Py.readlines_go false "" rest.
Proof.
  induction d as [|c d IH]; intros cur rest Hd.
  - reflexivity.
  - cbn [all_chars] in Hd. apply andb_true_iff in Hd as [Hc Hd].
    apply andb_true_iff in Hc as [Hn Hr].
    apply negb_true_iff in Hn. apply negb_true_iff in Hr.
    change (String c d +:+ Py.nl +:+ rest) with (String c (d +:+ Py.nl +:+ rest)).
    cbn [Py.readlines_go]. rewrite Hn, Hr. rewrite (IH _ _ Hd). f_equal.
    rewrite string_app_assoc. reflexivity.
Qed.

Lemma readlines_log_text records :
  Forall round_trips records ->
  Py.readlines (log_text records) = line_of <$> records.
Proof.
  unfold Py.readlines. induction 1 as [|r rest (Hone & _ & _) _ IH]; [reflexivity|].
  cbn [log_text fmap list_fmap]. unfold line_of at 1.
  rewrite string_app_assoc, (readlines_go_line _ _ _ Hone), IH. reflexivity.
Qed.

Lemma decoded_lines records :
  Forall round_trips records -> decoded (line_of <$> records) = Some records.
Proof.
  unfold decoded. induction 1 as [|r rest (_ & Hne & Hload) _ IH]; [reflexivity|].
  cbn [fmap list_fmap]. rewrite filter_cons, decide_True by exact Hne.
  cbn [mapM]. rewrite Hload. cbn. rewrite IH. reflexivity.
Qed.

Lemma last_items_fmap {A B} (f : A -> B) (l : list A) :
  Py.last_items MAX_HISTORY (f <$> l) = f <$> drop (length l - 50) l.
Proof.
  unfold Py.last_items, MAX_HISTORY. rewrite length_fmap.
  change (Pos.to_nat 50) with 50%nat. symmetry. apply fmap_drop.
Qed.

Lemma logged_cache room payload s :
  is_Some (history_cache (logged room payload s) !! room).
Proof. unfold logged. cbn. rewrite lookup_insert_eq. eauto. Qed.

Lemma logged_data_dir room payload s :
  data_dir (logged room payload s) !! room_log_path room
  = Some (match data_dir s !! room_log_path room with
          | Some f => File (readable f) (content f +:+ line_of payload)
          | None => File true (line_of payload)
          end).
Proof.
  unfold logged. cbn.
  destruct (data_dir s !! room_log_path room); apply lookup_insert_eq.
Qed.

(** The log after a run of appends, when it was absent before. *)
Lemma append_all_log room net : forall records s r0,
  Forall (takes room) (r0 :: records) ->
  is_Some (history_cache s !! room) ->
  data_dir s !! room_log_path room = None ->
  data_dir (state_of (append_all room (r0 :: records) net s)) !! room_log_path room
  = Some (File true (log_text (r0 :: records))).
Proof.
  assert (Hgen : forall records s text,
            Forall (takes room) records ->
            is_Some (history_cache s !! room) ->
            data_dir s !! room_log_path room = Some (File true text) ->
            data_dir (state_of (append_all room records net s)) !! room_log_path room
            = Some (File true (text +:+ log_text records))).
  { induction records as [|r records IH]; intros s text Hall [h Hh] Hfile.
    - cbn. rewrite string_app_empty_r. exact Hfile.
    - apply Forall_cons in Hall as [Hr Hall].
      unfold append_all in *. cbn [for_each].
      rewrite (bind_return _ _ _ _ _ _ _ (append_history_run room r net s h Hr Hh)).
      cbn [state_of fst snd].
      specialize (IH (logged room r s) (text +:+ line_of r) Hall
                    (logged_cache room r s)).
      rewrite IH by (rewrite logged_data_dir, Hfile; reflexivity).
      cbn [log_text]. rewrite string_app_assoc. reflexivity. }
  intros records s r0 Hall [h Hh] Hnone.
  apply Forall_cons in Hall as [Hr0 Hall].
  unfold append_all in *. cbn [for_each].
  rewrite (bind_return _ _ _ _ _ _ _ (append_history_run room r0 net s h Hr0 Hh)).
  cbn [state_of fst snd].
  rewrite (Hgen records (logged room r0 s) (line_of r0) Hall (logged_cache room r0 s))
    by (rewrite logged_data_dir, Hnone; reflexivity).
  reflexivity.
Qed.

(** X22. The log read back is the cache.  Start from a room whose log
    file does not exist yet, under a name the file system takes, and whose
    cache is empty, and append records that the codec writes on one line,
    that the log takes, and that the codec reads back.  Then
    [load_history], for that room or for any room with the same sanitized
    name, returns exactly what the cache of the room holds: the appended
    records, the last 50 of them when there are more, in append order. *)
Theorem log_read_back_is_the_cache room room' records net net' s :
  Py.name_fits (room_log_path room) = true ->
  Forall (takes room) records ->
  data_dir s !! room_log_path room = None ->
  history_cache s !! room = Some [] ->
  Forall round_trips records ->
  safe_name room' = safe_name room ->
  let s' := state_of (append_all room records net s) in
  load_history room' MAX_HISTORY net' s'
  = (Return (drop (length records - 50) records), s', [])
  /\ history_cache s' !! room = Some (drop (length records - 50) records).
Proof.
  intros Hfits Hall Hnone Hempty Hrt Hsame s'.
  destruct (append_all_from room records net s [] Hall Hempty ltac:(cbn; lia))
    as (s1 & Hrun & Hcache).
  assert (Hs' : s' = s1) by (subst s'; rewrite Hrun; reflexivity).
  split; [|rewrite Hs'; exact Hcache].
  rewrite load_history_run
    by (unfold room_log_path; rewrite Hsame; exact Hfits).
  f_equal. f_equal.
  unfold loaded, room_log_path. rewrite Hsame. fold (room_log_path room).
  destruct records as [|r0 records].
  - subst s'. cbn. rewrite Hnone. reflexivity.
  - subst s'. rewrite (append_all_log room net records s r0 Hall ltac:(eauto) Hnone).
    cbn [readable content].
    rewrite (readlines_log_text _ Hrt), last_items_fmap.
    rewrite decoded_lines; [reflexivity|].
    apply Forall_drop. exact Hrt.
Qed.

(** X23. [append_history] touches the cache last, and nothing but the
    log and the cache.  When the file system does not take the name of the
    log, [open] raises [OSError] and the state is as it was.  When the
    line does not encode, [write] raises [UnicodeEncodeError]: the log has
    been opened, so it exists, with nothing added to it.  Otherwise the
    line is at the end of the log, and the call returns when the room has
    a cache entry and raises [KeyError], with the line written, when it has
    none.  The cache is changed only by a call that returns, and nothing is
    ever sent. *)
Theorem append_history_writes_first room payload net s :
  let r := append_history room payload net s in
  let p := room_log_path room in
  effects_of r = []
  /\ clients (state_of r) = clients s
  /\ user_rooms (state_of r) = user_rooms s
  /\ rooms (state_of r) = rooms s
  /\ (result_of r <> Return tt -> history_cache (state_of r) = history_cache s)
  /\ if Py.name_fits p then
       if utf8_ok (line_of payload) then
         data_dir (state_of r) !! p
         = Some (match data_dir s !! p with
                 | Some f => File (readable f) (content f +:+ line_of payload)
                 | None => File true (line_of payload)
                 end)
         /\ result_of r = match history_cache s !! room with
                          | Some _ => Return tt
                          | None => Raise KeyError
                          end
       else
         result_of r = Raise UnicodeEncodeError
         /\ data_dir (state_of r) !! p = Some (default (File true "") (data_dir s !! p))
     else r = (Raise OSError, s, []).
Proof.
  cbv zeta. rewrite append_history_outcome.
  destruct (Py.name_fits (room_log_path room)); [|repeat split].
  destruct (utf8_ok (line_of payload)).
  - destruct (history_cache s !! room) as [h|] eqn:Hh;
      cbn [state_of result_of effects_of fst snd].
    + repeat split; try (intros H; exfalso; apply H; reflexivity).
      apply logged_data_dir.
    + repeat split. unfold written. cbn.
      destruct (data_dir s !! room_log_path room); apply lookup_insert_eq.
  - cbn [state_of result_of effects_of fst snd]. repeat split.
    unfold touched. cbn.
    destruct (data_dir s !! room_log_path room) as [f|] eqn:Hf;
      [rewrite Hf|rewrite lookup_insert_eq]; reflexivity.
Qed.

(** *** The health endpoint *)

Definition is_active (ph : phase) : bool :=
  match ph with Active _ => true | _ => false end.

(** The connections that are in their message loop. *)
Definition active_connections (sys : system) : gmap WebSocket phase :=
  filter (fun p => is_active p.2 = true) (conns sys).

Lemma sessions_match_active_connections sys :
  linked sys ->
  size (clients (shared sys)) = size (active_connections sys).
Proof.
  intros Hl. rewrite <- !length_map_to_list.
  rewrite <- (length_fmap (fun p : string * WebSocket => (p.2, Active p.1))
                (map_to_list (clients (shared sys)))).
  apply Permutation_length, NoDup_Permutation.
  - apply NoDup_fmap_2; [|apply NoDup_map_to_list].
    intros [u ws] [v ws'] E. cbn in E. congruence.
  - apply NoDup_map_to_list.
  - intros [ws ph]. rewrite list_elem_of_fmap. unfold active_connections.
    rewrite elem_of_map_to_list, map_lookup_filter_Some. cbn [snd]. split.
    + intros ([u w] & E & Hin). cbn in E. injection E as -> ->.
      apply elem_of_map_to_list in Hin. split; [apply Hl; exact Hin|reflexivity].
    + intros [Hc Hact]. destruct ph as [|u|]; try discriminate.
      exists (u, ws). split; [reflexivity|].
      apply elem_of_map_to_list, Hl. exact Hc.
Qed.

(** X24. In every state the server reaches, [GET /health] answers
    [ok: true], a user count equal to the number of connections that are
    in their message loop and to the length of [online_users()], and a
    room list that contains ["general"]. *)
Theorem health_counts_the_active_connections fs sched :
  let sys := exec fs sched in
  exists names,
    health (shared sys)
    = JObj [("ok", JBool true);
            ("users", JInt (Z.of_nat (size (active_connections sys))));
            ("rooms", str_list names)]
    /\ size (active_connections sys) = length (online_users (shared sys))
    /\ "general" ∈ names.
Proof.
  intros sys. destruct (exec_sound fs sched) as [_ Hl].
  exists (list_rooms (shared sys)). unfold health.
  rewrite <- (sessions_match_active_connections sys Hl).
  split; [reflexivity|]. split.
  - unfold online_users, Py.sorted. rewrite merge_sort_Permutation.
    rewrite <- size_dom. reflexivity.
  - apply elem_of_list_rooms. left.
    exact (general_room_exists fs sched).
Qed.

End Properties.

(** ** The properties on concrete runs

    Closed instances, computed with the codec of [Codec]: two clients,
    ["alice"] on socket 1 and ["bob"] on socket 2, every socket taking
    frames. *)

Module Examples.

#[local] Existing Instance Codec.lib.

Definition up : WebSocket -> bool := fun _ => true.

(** The text of a frame: what the codec writes for the object. *)
Definition login_frame (name : string) : inbound :=
  Text (json_dumps (JObj [("type", JStr "login"); ("username", JStr name)])).

Definition join_frame (room : string) : inbound :=
  Text (json_dumps (JObj [("type", JStr "join_room"); ("room", JStr room)])).

Definition message_frame (text : string) : inbound :=
  Text (json_dumps (JObj [("type", JStr "message"); ("text", JStr text)])).

(** alice and bob are logged in, both in ["general"]. *)
Definition two_users : list action :=
  [Action 1 (login_frame "alice") 100 up; Action 2 (login_frame "bob") 101 up].

Definition hi : json := message_event "alice" "hi" 102 "general".
Definition yo : json := message_event "bob" "yo" 103 "general".

(** A fresh room: known, with an empty cache. *)
Definition fresh_general : state :=
  state_of (ensure_room "general" up (initial ∅)).

(** A history file whose second line is not JSON. *)
Definition damaged_log : gmap string file :=
  {["history_general.jsonl" :=
      File true (json_dumps hi +:+ Py.nl +:+ "oops" +:+ Py.nl)]}.

(** The claim that [load_history] skips the lines that do not decode and
    still returns the others. *)
Definition skips_malformed_lines (lib : PyLib) : Prop :=
  forall room net s f,
    data_dir s !! room_log_path room = Some f ->
    readable f = true ->
    result_of (load_history room MAX_HISTORY net s)
    = Return (skipping_malformed (Py.last_items MAX_HISTORY (Py.readlines (content f)))).

(** The state after [ensure_room(r)] and [append_history(r, record)] for
    the room name ["history_dev!"]. *)
Definition after_append : state :=
  state_of
    (bind (ensure_room "history_dev!")
       (fun _ => append_history "history_dev!"
                   (message_event "bob" "yo" 103 "history_dev!"))
       up (initial ∅)).

(** A third connection asks for the name alice already has. *)
Definition second_alice : action := Action 3 (login_frame " alice ") 104 up.

(** A third connection greets instead of logging in. *)
Definition no_login : action :=
  Action 3 (Text (json_dumps (JObj [("type", JStr "hello")]))) 104 up.

Definition blank_message : action := Action 1 (message_frame "   ") 104 up.

Definition rejoin_general : action := Action 1 (join_frame " general ") 104 up.

Definition alice_gone : action := Action 1 Gone 104 up.

(** Every socket but that of alice takes frames. *)
Definition alice_down : WebSocket -> bool := fun ws => negb (ws =? 1)%nat.

Definition alice_cut_off : action :=
  Action 1 (Text (json_dumps (JObj [("type", JStr "rooms")]))) 104 alice_down.

(** A room name of 242 letters: the name of its log has 256 bytes. *)
Definition long_name : string := string_of_list_ascii (replicate 242 "a"%char).

Lemma active_user_is_member_of_its_room_witness :
  is_Some (clients (shared (exec ∅ two_users)) !! "alice")
  /\ exists r m,
       user_rooms (shared (exec ∅ two_users)) !! "alice" = Some r
       /\ rooms (shared (exec ∅ two_users)) !! r = Some m
       /\ "alice" ∈ m.
Proof.
  assert (H : is_Some (clients (shared (exec ∅ two_users)) !! "alice"))
    by (vm_compute; eexists; reflexivity).
  split; [exact H|].
  exact (active_user_is_member_of_its_room ∅ two_users "alice" H).
Defined.

Lemma append_history_keeps_last_50_witness :
  history_cache fresh_general !! "general" = Some []
  /\ exists s' cache,
       append_all "general" [hi; yo] up fresh_general = (Return tt, s', [])
       /\ history_cache s' !! "general" = Some cache
       /\ ((length [hi; yo] <= 50)%nat -> cache = [hi; yo])
       /\ ((50 < length [hi; yo])%nat -> cache = drop (length [hi; yo] - 50) [hi; yo])
       /\ (length cache <= 50)%nat.
Proof.
  split; [vm_compute; reflexivity|].
  apply (append_history_keeps_last_50 "general" [hi; yo] up fresh_general).
  - repeat (apply Forall_cons; split; [split; vm_compute; reflexivity|]).
    apply Forall_nil_2.
  - vm_compute; reflexivity.
Defined.

Lemma duplicate_login_is_refused_witness :
  step (exec ∅ two_users) second_alice
  = (System (shared (exec ∅ two_users)) (<[3 := Closed]> (conns (exec ∅ two_users))),
     refusal up 3 msg_in_use).
Proof.
  apply (duplicate_login_is_refused ∅ two_users second_alice
           [("type", JStr "login"); ("username", JStr " alice ")] " alice " 1).
  - vm_compute; reflexivity.
  - eexists; split; [reflexivity|vm_compute; reflexivity].
  - reflexivity.
  - reflexivity.
  - vm_compute; reflexivity.
Defined.

Lemma refused_login_leaves_no_trace_witness :
  exists message,
    message ∈ [msg_login_first; msg_empty_username; msg_in_use]
    /\ step (exec ∅ two_users) no_login
       = (System (shared (exec ∅ two_users)) (<[3 := Closed]> (conns (exec ∅ two_users))),
          refusal up 3 message).
Proof.
  apply (refused_login_leaves_no_trace (exec ∅ two_users) no_login [("type", JStr "hello")]).
  - vm_compute; reflexivity.
  - eexists; split; [reflexivity|vm_compute; reflexivity].
  - left. vm_compute; reflexivity.
Defined.

Lemma blank_message_is_ignored_witness :
  step (exec ∅ two_users) blank_message = (exec ∅ two_users, []).
Proof.
  apply (blank_message_is_ignored (exec ∅ two_users) blank_message "alice"
           [("type", JStr "message"); ("text", JStr "   ")] "   ").
  - vm_compute; reflexivity.
  - eexists; split; [reflexivity|vm_compute; reflexivity].
  - reflexivity.
  - reflexivity.
  - vm_compute; reflexivity.
Defined.

Lemma rejoining_current_room_announces_a_leave_witness :
  let s := shared (exec ∅ two_users) in
  let left := presence_event "user_left_room" "alice" "general" (room_users s "general") in
  exists h m,
    history_cache s !! "general" = Some h
    /\ rooms s !! "general" = Some m
    /\ "alice" ∈ m
    /\ step (exec ∅ two_users) rejoin_general
       = (exec ∅ two_users,
          [SendText 1 (json_dumps (info_event "general")) true]
          ++ ((fun msg => SendText 1 (json_dumps msg) true) <$> h)
          ++ deliveries up s left (Some "general") None
          ++ deliveries up s
               (presence_event "user_joined_room" "alice" "general" (room_users s "general"))
               (Some "general") (Some "alice"))
    /\ forall v, v ∈ m ->
         exists wv, clients s !! v = Some wv
           /\ SendText wv (json_dumps left) (up wv) ∈ deliveries up s left (Some "general") None.
Proof.
  apply (rejoining_current_room_announces_a_leave ∅ two_users rejoin_general "alice"
           "general" [("type", JStr "join_room"); ("room", JStr " general ")] " general ").
  - vm_compute; reflexivity.
  - vm_compute; reflexivity.
  - eexists; split; [reflexivity|vm_compute; reflexivity].
  - reflexivity.
  - reflexivity.
  - vm_compute; reflexivity.
  - reflexivity.
Defined.

(** What C6 says of the turn [a] of [u] after the schedule [sched]. *)
Definition ended (sched : list action) (a : action) (u : string) : Prop :=
  let s := shared (exec ∅ sched) in
  let body := loop_turn (a_ws a) u (a_in a) (a_now a) (a_net a) s in
  let s' := shared (step (exec ∅ sched) a).1 in
  let sent := (step (exec ∅ sched) a).2 in
  clients s' !! u = None
  /\ (forall r m, rooms s' !! r = Some m -> u ∉ m)
  /\ (u ∉ online_users s')
  /\ (forall r, u ∉ room_users s' r)
  /\ exists room m,
       user_rooms (state_of body) !! u = Some room
       /\ rooms (state_of body) !! room = Some m
       /\ u ∈ m
       /\ clients (state_of body) = clients s
       /\ s' = removed u (state_of body)
       /\ rooms s' !! room = Some (m ∖ {[u]})
       /\ sent = effects_of body ++ farewell (a_net a) u room s'
       /\ (a_in a = Gone -> effects_of body = [] /\ state_of body = s)
       /\ forall v, v ∈ m ∖ {[u]} ->
            exists wv, clients s !! v = Some wv
              /\ user_rooms s !! v = Some room
              /\ clients s' !! v = Some wv
              /\ SendText wv
                   (json_dumps (presence_event "user_left" u room (room_users s' room)))
                   (a_net a wv) ∈ farewell (a_net a) u room s'.

(** The client of alice is gone; and alice asks for the room list while
    her socket takes no frame, so that the reply faults. *)
Lemma ended_session_is_removed_and_announced_witness :
  ended two_users alice_gone "alice" /\ ended two_users alice_cut_off "alice".
Proof.
  split.
  - apply (ended_session_is_removed_and_announced ∅ two_users alice_gone "alice").
    + vm_compute; reflexivity.
    + vm_compute; reflexivity.
  - apply (ended_session_is_removed_and_announced ∅ two_users alice_cut_off "alice").
    + vm_compute; reflexivity.
    + vm_compute; reflexivity.
Defined.


(** C8, at the room name ["history_dev!"].  Its sanitized name is
    ["history_dev"] and [append_history] creates
    ["history_history_dev.jsonl"]; [list_rooms] reads the name ["dev"] off
    that file, because [replace] removes both occurrences of ["history_"],
    so the listing does not contain the sanitized name. *)
Theorem list_rooms_misses_sanitized_name :
  safe_name "history_dev!" = "history_dev"
  /\ room_log_path "history_dev!" = "history_history_dev.jsonl"
  /\ is_Some (data_dir after_append !! "history_history_dev.jsonl")
  /\ Py.remove_all "history_" (Py.stem "history_history_dev.jsonl") = "dev"
  /\ list_rooms after_append = ["dev"; "general"; "history_dev!"]
  /\ "history_dev" ∉ list_rooms after_append.
Proof.
  assert (Hl : list_rooms after_append = ["dev"; "general"; "history_dev!"])
    by (vm_compute; reflexivity).
  repeat split; try (vm_compute; reflexivity).
  - vm_compute. eexists; reflexivity.
  - rewrite Hl. intros H.
    repeat (apply elem_of_cons in H as [H|H]; [discriminate H|]).
    apply elem_of_nil in H. exact H.
Qed.

End Examples.

(** ** Further runs

    Closed instances of the properties of the handler, the listings and
    the log, on the two clients of [Examples] and a third connection. *)

Module Runs.

#[local] Existing Instance Codec.lib.

Import Examples.

Definition request_frame (type : string) : inbound :=
  Text (json_dumps (JObj [("type", JStr type)])).

(** alice and bob are logged in and alice has said ["hi"]. *)
Definition after_hi : list action :=
  two_users ++ [Action 1 (message_frame "hi") 102 up].

(** alice and bob are logged in and bob has moved to ["dev"]. *)
Definition bob_in_dev : list action :=
  two_users ++ [Action 2 (join_frame "dev") 102 up].

Definition says_hi : action := Action 1 (message_frame " hi ") 104 up.

Definition carol_logs_in : action := Action 3 (login_frame " carol ") 104 up.

Definition alice_to_dev : action := Action 1 (join_frame " dev ") 104 up.

Definition alice_returns : action := Action 3 (login_frame " alice ") 105 up.

(** A data directory with the log of ["dev"]. *)
Definition dev_logged : state :=
  state_of
    (bind (ensure_room "dev!")
       (fun _ => append_history "dev!" (message_event "bob" "yo" 103 "dev!"))
       up (initial ∅)).

Lemma socket_serves_one_user_witness :
  "alice" = "alice" /\ phase_of (exec ∅ two_users) 1 = Active "alice".
Proof.
  apply (socket_serves_one_user ∅ two_users "alice" "alice" 1).
  - vm_compute; reflexivity.
  - vm_compute; reflexivity.
Defined.

Lemma member_of_exactly_one_room_witness :
  is_Some (clients (shared (exec ∅ bob_in_dev)) !! "bob")
  /\ user_rooms (shared (exec ∅ bob_in_dev)) !! "bob" = Some "dev"
  /\ forall r' m',
       rooms (shared (exec ∅ bob_in_dev)) !! r' = Some m' -> "bob" ∈ m' -> r' = "dev".
Proof.
  apply (member_of_exactly_one_room ∅ bob_in_dev "dev"
           (default ∅ (rooms (shared (exec ∅ bob_in_dev)) !! "dev")) "bob").
  - vm_compute; reflexivity.
  - vm_compute; reflexivity.
Defined.

Lemma rooms_are_never_removed_witness :
  is_Some (rooms (shared (exec ∅ (bob_in_dev ++ [Action 2 Gone 103 up]))) !! "dev")
  /\ "dev" ∈ list_rooms (shared (exec ∅ (bob_in_dev ++ [Action 2 Gone 103 up]))).
Proof.
  apply (rooms_are_never_removed ∅ bob_in_dev [Action 2 Gone 103 up] "dev").
  vm_compute; eexists; reflexivity.
Defined.

Lemma history_files_only_grow_witness :
  exists suffix,
    data_dir (shared (exec ∅ (after_hi ++ [Action 2 (message_frame "yo") 103 up])))
      !! "history_general.jsonl"
    = Some (File true ((json_dumps hi +:+ Py.nl) +:+ suffix)).
Proof.
  apply (history_files_only_grow ∅ after_hi [Action 2 (message_frame "yo") 103 up]
           "history_general.jsonl" (File true (json_dumps hi +:+ Py.nl))).
  vm_compute; reflexivity.
Defined.

Lemma caches_hold_at_most_50_witness : (length [hi] <= 50)%nat.
Proof.
  apply (caches_hold_at_most_50 ∅ after_hi "general" [hi]).
  vm_compute; reflexivity.
Defined.


Lemma message_is_logged_and_broadcast_witness :
  let s := shared (exec ∅ two_users) in
  let payload := message_event "alice" "hi" 104 "general" in
  step (exec ∅ two_users) says_hi
  = (System (logged "general" payload s) (conns (exec ∅ two_users)),
     deliveries up s payload (Some "general") None)
  /\ (exists m, rooms s !! "general" = Some m /\ "alice" ∈ m
        /\ forall v, v ∈ m ->
             exists wv, clients s !! v = Some wv
               /\ SendText wv (json_dumps payload) (up wv)
                    ∈ deliveries up s payload (Some "general") None)
  /\ (exists h, history_cache s !! "general" = Some h
        /\ history_cache (logged "general" payload s) !! "general"
           = Some (if (50 <? Z.of_nat (length (h ++ [payload])))%Z
                   then tail (h ++ [payload]) else h ++ [payload])).
Proof.
  apply (message_is_logged_and_broadcast ∅ two_users says_hi "alice" "general"
           [("type", JStr "message"); ("text", JStr " hi ")] " hi ").
  - vm_compute; reflexivity.
  - vm_compute; reflexivity.
  - eexists; split; [reflexivity|vm_compute; reflexivity].
  - reflexivity.
  - reflexivity.
  - vm_compute; discriminate.
  - reflexivity.
Defined.

Lemma message_stays_in_its_room_witness :
  Forall (fun e => socket_of e <> 2) (step (exec ∅ bob_in_dev) says_hi).2.
Proof.
  apply (message_stays_in_its_room ∅ bob_in_dev says_hi "alice" "general"
           [("type", JStr "message"); ("text", JStr " hi ")] " hi " "bob" 2).
  - vm_compute; reflexivity.
  - vm_compute; reflexivity.
  - eexists; split; [reflexivity|vm_compute; reflexivity].
  - reflexivity.
  - reflexivity.
  - vm_compute; discriminate.
  - vm_compute; reflexivity.
  - vm_compute; discriminate.
Defined.


(** alice asks for a room whose log name has 256 bytes. *)
Definition alice_to_long_name : action := Action 1 (join_frame long_name) 104 up.

Lemma join_room_with_a_long_name_ends_the_session_witness :
  let s' := removed "alice" (opened long_name (shared (exec ∅ two_users))) in
  step (exec ∅ two_users) alice_to_long_name
  = (System s' (<[1 := Closed]> (conns (exec ∅ two_users))),
     farewell up "alice" "general" s')
  /\ clients s' !! "alice" = None
  /\ rooms s' !! long_name = Some ∅
  /\ history_cache s' !! long_name = None
  /\ long_name ∈ list_rooms s'
  /\ Forall (fun e => socket_of e <> 1) (farewell up "alice" "general" s').
Proof.
  apply (join_room_with_a_long_name_ends_the_session ∅ two_users alice_to_long_name
           "alice" "general" [("type", JStr "join_room"); ("room", JStr long_name)]
           long_name).
  - vm_compute; reflexivity.
  - vm_compute; reflexivity.
  - eexists; split; [reflexivity|vm_compute; reflexivity].
  - reflexivity.
  - reflexivity.
  - vm_compute; discriminate.
  - vm_compute; reflexivity.
Defined.

Lemma room_who_lists_the_asker_witness :
  let s := shared (exec ∅ two_users) in
  step (exec ∅ two_users) (Action 1 (request_frame "room_who") 104 up)
  = (exec ∅ two_users,
     [SendText 1 (json_dumps (room_users_event "general" (room_users s "general"))) true])
  /\ "alice" ∈ room_users s "general"
  /\ forall v, v ∈ room_users s "general" ->
       is_Some (clients s !! v) /\ user_rooms s !! v = Some "general".
Proof.
  apply (room_who_lists_the_asker ∅ two_users (Action 1 (request_frame "room_who") 104 up)
           "alice" "general" [("type", JStr "room_who")]).
  - vm_compute; reflexivity.
  - vm_compute; reflexivity.
  - eexists; split; [reflexivity|vm_compute; reflexivity].
  - reflexivity.
  - reflexivity.
Defined.



Lemma join_without_target_keeps_the_room_witness :
  step (exec ∅ two_users) (Action 1 (join_frame "  ") 104 up)
  = (exec ∅ two_users, [SendText 1 (json_dumps (error_event msg_no_room)) true]).
Proof.
  apply (join_without_target_keeps_the_room ∅ two_users (Action 1 (join_frame "  ") 104 up)
           "alice" [("type", JStr "join_room"); ("room", JStr "  ")]).
  - vm_compute; reflexivity.
  - eexists; split; [reflexivity|vm_compute; reflexivity].
  - reflexivity.
  - right. exists "  ". split; reflexivity.
  - reflexivity.
Defined.

Lemma undecodable_frame_ends_the_session_witness :
  let s' := removed "alice" (shared (exec ∅ two_users)) in
  step (exec ∅ two_users) (Action 1 (Text "oops") 104 up)
  = (System s' (<[1 := Closed]> (conns (exec ∅ two_users))),
     farewell up "alice" "general" s')
  /\ clients s' !! "alice" = None
  /\ Forall (fun e => socket_of e <> 1) (farewell up "alice" "general" s').
Proof.
  apply (undecodable_frame_ends_the_session ∅ two_users (Action 1 (Text "oops") 104 up)
           "alice" "general" "oops").
  - vm_compute; reflexivity.
  - vm_compute; reflexivity.
  - reflexivity.
  - left. vm_compute; reflexivity.
Defined.

Lemma undecodable_first_frame_is_dropped_witness :
  step (exec ∅ two_users) (Action 3 (Text "[1]") 104 up)
  = (System (shared (exec ∅ two_users)) (<[3 := Closed]> (conns (exec ∅ two_users))), []).
Proof.
  apply (undecodable_first_frame_is_dropped (exec ∅ two_users)
           (Action 3 (Text "[1]") 104 up)).
  - vm_compute; reflexivity.
  - right. exists "[1]". split; [reflexivity|].
    right. exists (JArr [JInt 1]). split; [vm_compute; reflexivity|].
    intros fields; discriminate.
Defined.

Lemma name_is_free_after_disconnect_witness :
  let after := (step (exec ∅ two_users) (Action 1 Gone 104 up)).1 in
  clients (shared after) !! "alice" = None
  /\ phase_of (step after alice_returns).1 3 = Active "alice"
  /\ clients (shared (step after alice_returns).1) !! "alice" = Some 3.
Proof.
  apply (name_is_free_after_disconnect ∅ two_users 1 "alice" 104 up alice_returns
           [("type", JStr "login"); ("username", JStr " alice ")] " alice ").
  - vm_compute; reflexivity.
  - vm_compute; reflexivity.
  - eexists; split; [reflexivity|vm_compute; reflexivity].
  - reflexivity.
  - reflexivity.
  - vm_compute; reflexivity.
  - reflexivity.
Defined.

Lemma sanitized_name_is_listed_witness :
  Py.remove_all "history_" (Py.stem (room_log_path "dev!")) = safe_name "dev!"
  /\ safe_name "dev!" ∈ list_rooms dev_logged.
Proof.
  apply (sanitized_name_is_listed "dev!" dev_logged).
  - intros k. do 3 (destruct k as [|k]; [reflexivity|]). destruct k; reflexivity.
  - vm_compute; eexists; reflexivity.
Defined.

Lemma log_read_back_is_the_cache_witness :
  let s' := state_of (append_all "general" [hi; yo] up fresh_general) in
  load_history "general!" MAX_HISTORY up s'
  = (Return (drop (length [hi; yo] - 50) [hi; yo]), s', [])
  /\ history_cache s' !! "general" = Some (drop (length [hi; yo] - 50) [hi; yo]).
Proof.
  apply (log_read_back_is_the_cache "general" "general!" [hi; yo] up up fresh_general).
  - reflexivity.
  - repeat (apply Forall_cons; split; [split; vm_compute; reflexivity|]).
    apply Forall_nil_2.
  - vm_compute; reflexivity.
  - vm_compute; reflexivity.
  - repeat (constructor;
            [split; [vm_compute; reflexivity
                    |split; [vm_compute; discriminate|vm_compute; reflexivity]]|]).
    constructor.
  - vm_compute; reflexivity.
Defined.

End Runs.
